(** * Action governance pipeline of ai-dataset-storage

    A shallow embedding of the TypeScript sources

      - [lib/security/permissionGate.ts]  (class [PermissionGate])
      - [lib/plugins/pluginExecutor.ts]   (class [PluginExecutor])
      - [lib/api/commitRouter.ts]         (class [CommitRouter])
      - [lib/api/zhupiAdapter.ts]         (class [ZhupiAdapter])
      - [lib/audit/auditLogger.ts]        (class [AuditLogger])
      - [lib/core/agentExecutor.ts]       (class [AgentExecutor])

    The classes are process-wide singletons that mutate private fields,
    write to the console, read the clock and call out to a database and to
    remote services.  Each method is embedded as a computation in a state
    and exception monad [M] over one record [System] that holds the fields
    of every singleton together with the part of the outside world the
    methods observe.  [await] is sequencing: one request is followed from
    start to end, without interleaving of other requests. *)

From Stdlib Require Import ZArith String Ascii List Bool Lia.
From stdpp Require Import base option list gmap strings pretty.

Local Open Scope string_scope.
Local Open Scope list_scope.

(** ** JavaScript values and strings *)

(** Values of type [any]: plugin parameters, capability results. *)
#[local] Set Warnings "-register-all".
Inductive JsValue : Type :=
  | JUndefined
  | JNull
  | JBool (b : bool)
  | JNum (n : Z)
  | JStr (s : string)
  | JArr (items : list JsValue)
  | JObj (fields : list (string * JsValue)).

(** Conversion to boolean, as done by [!v], [v && w] and [v || w]. *)
Definition truthy (v : JsValue) : bool :=
  match v with
  | JUndefined | JNull => false
  | JBool b => b
  | JNum n => negb (n =? 0)%Z
  | JStr s => negb (String.eqb s "")
  | JArr _ | JObj _ => true
  end.

(** A value that was thrown: an [Error] with its message, or anything
    else.  [catch] clauses of the sources read the message as
    [error instanceof Error ? error.message : 'Unknown error']. *)
Inductive Thrown : Type :=
  | ThrownError (message : string)
  | ThrownOther.

Definition errorMessage (e : Thrown) : string :=
  match e with
  | ThrownError m => m
  | ThrownOther => "Unknown error"
  end.

(** How a call ends: it returns a value or it throws. *)
Inductive Outcome (A : Type) : Type :=
  | Return (a : A)
  | Throw (e : Thrown).
Arguments Return {A} a.
Arguments Throw {A} e.

Module JsString.

(** [s.startsWith(p)] *)
Definition startsWith (s p : string) : bool := String.prefix p s.

(** [s.includes(sub)]: [sub] occurs in [s] at some position. *)
Fixpoint includes (s sub : string) : bool :=
  String.prefix sub s ||
  match s with
  | EmptyString => false
  | String _ rest => includes rest sub
  end.

(** [toLowerCase] on one code unit.  Strings are sequences of bytes and
    only the letters [A]..[Z] change, which is what JavaScript does on
    ASCII text. *)
Definition lowerAscii (c : ascii) : ascii :=
  let n := nat_of_ascii c in
  if ((65 <=? n) && (n <=? 90))%nat then ascii_of_nat (n + 32) else c.

Fixpoint toLowerCase (s : string) : string :=
  match s with
  | EmptyString => EmptyString
  | String c rest => String (lowerAscii c) (toLowerCase rest)
  end.

End JsString.

(** [xs.includes(x)] on an array of strings. *)
Definition includes (xs : list string) (x : string) : bool :=
  existsb (String.eqb x) xs.

(** [xs.slice(-n)]: the last [n] elements; [slice(-0)] is [slice(0)], the
    whole array. *)
Definition sliceLast {A : Type} (n : nat) (xs : list A) : list A :=
  match n with
  | O => xs
  | S _ => skipn (length xs - n) xs
  end.

(** [Set<string>]: the elements in insertion order, each once. *)
Module JsSet.

Definition t : Type := list string.

Definition has (s : t) (x : string) : bool := includes s x.

(** [s.add(x)] *)
Definition add (s : t) (x : string) : t :=
  if has s x then s else s ++ [x].

(** [s.delete(x)]: the new set and whether [x] was an element. *)
Definition delete (s : t) (x : string) : t * bool :=
  (List.filter (fun y => negb (String.eqb x y)) s, has s x).

(** [new Set(xs)] *)
Definition ofArray (xs : list string) : t := fold_left add xs [].

(** [Array.from(s)] *)
Definition toArray (s : t) : list string := s.

End JsSet.

(** ** Data model *)

(** Impact classification of an action ([getActionRiskLevel]). *)
Module Risk.
Inductive t : Type := low | medium | high | critical.
End Risk.

(** Severity of an audit record. *)
Module Level.
Inductive t : Type := info | warning | error | critical.
End Level.

Module Category.
Inductive t : Type := chat | plugin | commit_api | zhupi_api | security | system.
End Category.

(** [interface Permission]: one entry of the permission check log. *)
Module Permission.
Record t : Type := mk {
  action : string;
  user : string;
  granted : bool;
  timestamp : Z;
  reason : option string
}.
End Permission.

(** [interface Role] *)
Module Role.
Record t : Type := mk {
  name : string;
  permissions : list string;
  description : string
}.
End Role.

(** [interface PluginResult] *)
Module PluginResult.
Record t : Type := mk {
  success : bool;
  plugin : string;
  result : JsValue;
  executionTime : Z;
  timestamp : Z;
  error : option string
}.
End PluginResult.

(** [interface CommitResult] *)
Module CommitResult.
Record t : Type := mk {
  success : bool;
  action : string;
  result : JsValue;
  timestamp : Z;
  executionTime : Z;
  affectedServices : list string;
  error : option string
}.
End CommitResult.

(** [interface ZhupiResult] *)
Module ZhupiResult.
Record t : Type := mk {
  success : bool;
  action : string;
  result : JsValue;
  timestamp : Z;
  responseTime : Z;
  apiEndpoint : string;
  error : option string
}.
End ZhupiResult.

(** What [AgentExecutor.execute] stores in the untyped field
    [ExecutionResult.result]: the object returned by the executor the
    action was dispatched to, or an object literal. *)
Inductive Dispatched : Type :=
  | OfPlugin (r : PluginResult.t)
  | OfCommit (r : CommitResult.t)
  | OfZhupi (r : ZhupiResult.t)
  | OfValue (v : JsValue).

(** [type] of an [ExecutionPreview]. *)
Module ActionType.
Inductive t : Type := plugin | commit_api | zhupi_api | internal.
End ActionType.

(** [interface ExecutionRequest] *)
Module ExecutionRequest.
Record t : Type := mk {
  input : string;
  user : string;
  sessionId : string;
  context : JsValue
}.
End ExecutionRequest.

(** [interface ExecutionPreview] *)
Module ExecutionPreview.
Record t : Type := mk {
  action : string;
  type : ActionType.t;
  description : string;
  parameters : JsValue;
  requiresApproval : bool;
  estimatedImpact : string
}.
End ExecutionPreview.

(** [interface ExecutionResult] *)
Module ExecutionResult.
Record t : Type := mk {
  success : bool;
  action : string;
  result : Dispatched;
  timestamp : Z;
  executionId : string;
  auditLog : string
}.
End ExecutionResult.

(** The [result] argument of [AuditLogger.logAction].  The first three
    constructors are the object literals built by [AgentExecutor.execute]:
    [{action: 'execution_start', executionId, approvedActions}],
    [{executionId, result, success: true}] and
    [{executionId, error, success: false}]. *)
Inductive AuditPayload : Type :=
  | ExecutionStart (executionId : string) (approvedActions : list string)
  | ExecutionSucceeded (executionId : string) (result : Dispatched)
  | ExecutionFailed (executionId : string) (error : string)
  | PayloadValue (v : JsValue).

(** [interface AuditLog]: one audit record. *)
Module AuditLog.
Record t : Type := mk {
  id : string;
  actor : string;
  action : string;
  input : JsValue;
  result : AuditPayload;
  timestamp : Z;
  sessionId : option string;
  executionId : option string;
  category : Category.t;
  level : Level.t;
  metadata : option JsValue;
  ipAddress : option string;
  userAgent : option string
}.
End AuditLog.

(** ** The outside world *)

(** [console.log], [console.warn] and [console.error]. *)
Inductive ConsoleLevel : Type := ConsoleLog | ConsoleWarn | ConsoleError.

(** What the methods observe of the world outside the singletons.  A
    console line keeps its level and the text of its first argument. *)
Module External.
Record t : Type := mk {
  now : Z;                        (* the value Date.now() returns *)
  randomDraws : nat;              (* calls of Math.random() so far *)
  console : list (ConsoleLevel * string);
  auditTable : list AuditLog.t;   (* rows of the database table AuditLog *)
  auditTableWritable : bool;      (* does db.auditLog.createMany resolve *)
  services : JsValue              (* local storage and remote services *)
}.
End External.

(** Pure functions supplied by the JavaScript runtime and by the prompt
    builder, which the pipeline calls without looking inside. *)
Record Runtime : Type := {
  (* [Math.random().toString(36).substr(2, 9)] at the n-th draw *)
  random36 : nat -> string;
  (* [Date.prototype.toISOString] *)
  toISOString : Z -> string;
  (* [PromptBuilder.buildPrompt(input, context)] *)
  buildPrompt : string -> JsValue -> Outcome string
}.

(** The [execute] field of a capability: it reads and changes the outside
    world and returns or throws. *)
Definition Capability : Type :=
  JsValue -> External.t -> Outcome JsValue * External.t.

(** The optional [validate] field of a capability. *)
Definition Validator : Type := option (JsValue -> Outcome bool).

(** [interface Plugin] *)
Module Plugin.
Record t : Type := mk {
  name : string;
  description : string;
  version : string;
  execute : Capability;
  validate : Validator
}.
End Plugin.

(** [interface CommitAction] *)
Module CommitAction.
Record t : Type := mk {
  name : string;
  description : string;
  category : string;
  impact : Risk.t;
  execute : Capability;
  validate : Validator
}.
End CommitAction.

(** [interface ZhupiAction] *)
Module ZhupiAction.
Record t : Type := mk {
  name : string;
  description : string;
  method : string;
  endpoint : string;
  category : string;
  requiresAuth : bool;
  execute : Capability;
  validate : Validator
}.
End ZhupiAction.

(** An entry of the call trace: which executor was entered, for which
    action name, with which parameters.  The trace is not a field of the
    sources; it records the calls so that statements can speak of them. *)
Inductive Call : Type :=
  | Called (target : ActionType.t) (name : string) (parameters : JsValue).

Definition callName (c : Call) : string :=
  match c with Called _ n _ => n end.

(** ** State of the singletons *)

(** The private fields of the five stateful classes, prefixed by the class
    they belong to, the outside world and the call trace.  [roles] of
    [PermissionGate] is written by the constructor only and is the
    constant [PermissionGate.roles] below. *)
Record System : Type := mkSystem {
  gate_permissions : gmap string JsSet.t;          (* PermissionGate.permissions *)
  gate_auditLog : list Permission.t;               (* PermissionGate.auditLog *)
  plugin_plugins : gmap string Plugin.t;           (* PluginExecutor.plugins *)
  plugin_executionHistory : list PluginResult.t;   (* PluginExecutor.executionHistory *)
  commit_actions : gmap string CommitAction.t;     (* CommitRouter.actions *)
  commit_executionHistory : list CommitResult.t;   (* CommitRouter.executionHistory *)
  zhupi_actions : gmap string ZhupiAction.t;       (* ZhupiAdapter.actions *)
  zhupi_executionHistory : list ZhupiResult.t;     (* ZhupiAdapter.executionHistory *)
  audit_pendingLogs : list AuditLog.t;             (* AuditLogger.pendingLogs *)
  world : External.t;
  calls : list Call
}.

Definition set_gate_permissions (f : gmap string JsSet.t -> gmap string JsSet.t)
    (s : System) : System :=
  mkSystem (f (gate_permissions s)) (gate_auditLog s) (plugin_plugins s)
    (plugin_executionHistory s) (commit_actions s) (commit_executionHistory s)
    (zhupi_actions s) (zhupi_executionHistory s) (audit_pendingLogs s)
    (world s) (calls s).

Definition set_gate_auditLog (f : list Permission.t -> list Permission.t)
    (s : System) : System :=
  mkSystem (gate_permissions s) (f (gate_auditLog s)) (plugin_plugins s)
    (plugin_executionHistory s) (commit_actions s) (commit_executionHistory s)
    (zhupi_actions s) (zhupi_executionHistory s) (audit_pendingLogs s)
    (world s) (calls s).

Definition set_plugin_executionHistory
    (f : list PluginResult.t -> list PluginResult.t) (s : System) : System :=
  mkSystem (gate_permissions s) (gate_auditLog s) (plugin_plugins s)
    (f (plugin_executionHistory s)) (commit_actions s) (commit_executionHistory s)
    (zhupi_actions s) (zhupi_executionHistory s) (audit_pendingLogs s)
    (world s) (calls s).

Definition set_commit_executionHistory
    (f : list CommitResult.t -> list CommitResult.t) (s : System) : System :=
  mkSystem (gate_permissions s) (gate_auditLog s) (plugin_plugins s)
    (plugin_executionHistory s) (commit_actions s) (f (commit_executionHistory s))
    (zhupi_actions s) (zhupi_executionHistory s) (audit_pendingLogs s)
    (world s) (calls s).

Definition set_zhupi_executionHistory
    (f : list ZhupiResult.t -> list ZhupiResult.t) (s : System) : System :=
  mkSystem (gate_permissions s) (gate_auditLog s) (plugin_plugins s)
    (plugin_executionHistory s) (commit_actions s) (commit_executionHistory s)
    (zhupi_actions s) (f (zhupi_executionHistory s)) (audit_pendingLogs s)
    (world s) (calls s).

Definition set_audit_pendingLogs (f : list AuditLog.t -> list AuditLog.t)
    (s : System) : System :=
  mkSystem (gate_permissions s) (gate_auditLog s) (plugin_plugins s)
    (plugin_executionHistory s) (commit_actions s) (commit_executionHistory s)
    (zhupi_actions s) (zhupi_executionHistory s) (f (audit_pendingLogs s))
    (world s) (calls s).

Definition set_world (f : External.t -> External.t) (s : System) : System :=
  mkSystem (gate_permissions s) (gate_auditLog s) (plugin_plugins s)
    (plugin_executionHistory s) (commit_actions s) (commit_executionHistory s)
    (zhupi_actions s) (zhupi_executionHistory s) (audit_pendingLogs s)
    (f (world s)) (calls s).

Definition set_calls (f : list Call -> list Call) (s : System) : System :=
  mkSystem (gate_permissions s) (gate_auditLog s) (plugin_plugins s)
    (plugin_executionHistory s) (commit_actions s) (commit_executionHistory s)
    (zhupi_actions s) (zhupi_executionHistory s) (audit_pendingLogs s)
    (world s) (f (calls s)).

(** ** The monad of method bodies *)

(** A computation reads the runtime, changes a state of type [S] and
    returns or throws.  State changes made before a [throw] stay, as in
    JavaScript. *)
Definition St (S A : Type) : Type := Runtime -> S -> Outcome A * S.

(** A method body: the state is that of the singletons. *)
Definition M (A : Type) : Type := St System A.

Definition ret {S A : Type} (a : A) : St S A := fun _ s => (Return a, s).

Definition bind {S A B : Type} (m : St S A) (k : A -> St S B) : St S B :=
  fun rt s =>
    match m rt s with
    | (Return a, s') => k a rt s'
    | (Throw e, s') => (Throw e, s')
    end.

Definition throw {S A : Type} (e : Thrown) : St S A := fun _ s => (Throw e, s).

(** [try { m } catch (error) { h error }] *)
Definition tryCatch {S A : Type} (m : St S A) (h : Thrown -> St S A) : St S A :=
  fun rt s =>
    match m rt s with
    | (Return a, s') => (Return a, s')
    | (Throw e, s') => h e rt s'
    end.

Definition gets {S A : Type} (f : S -> A) : St S A := fun _ s => (Return (f s), s).
Definition asks {S A : Type} (f : Runtime -> A) : St S A :=
  fun rt s => (Return (f rt), s).
Definition modify {S : Type} (f : S -> S) : St S unit := fun _ s => (Return tt, f s).

Notation "x <- m ;; k" := (bind m (fun x => k))
  (at level 100, m at next level, right associativity).
Notation "m ;; k" := (bind m (fun _ => k))
  (at level 100, right associativity).

(** [for (const x of xs) { body x }]: a throw ends the loop. *)
Fixpoint forEach {S A : Type} (xs : list A) (body : A -> St S unit) : St S unit :=
  match xs with
  | [] => ret tt
  | x :: rest => body x ;; forEach rest body
  end.

(** A method body with a local variable of type [L] that is assigned to
    inside [try] blocks: the variable is carried next to the state, so
    that a [catch] clause sees the assignments made before the throw. *)
Definition Frame (L A : Type) : Type := St (System * L) A.

(** A method call made from such a body. *)
Definition call {L A : Type} (m : M A) : Frame L A :=
  fun rt sl =>
    let '(r, s') := m rt (fst sl) in (r, (s', snd sl)).

(** Reading and updating the local variable. *)
Definition getLocal {L : Type} : Frame L L := gets snd.
Definition setLocal {L : Type} (f : L -> L) : Frame L unit :=
  modify (fun sl => (fst sl, f (snd sl))).

(** Running the body from the initial value of the local variable. *)
Definition withLocal {L A : Type} (init : L) (m : Frame L A) : M A :=
  fun rt s =>
    let '(r, sl) := m rt (s, init) in (r, fst sl).

(** [Date.now()], also the time of [new Date()].  The clock is a field of
    the outside world: time passes while a capability runs, and two reads
    with no capability between them give the same value. *)
Definition dateNow : M Z := gets (fun s => External.now (world s)).

(** [console.log(text)], [console.warn(text)], [console.error(text)] *)
Definition consoleWrite (lvl : ConsoleLevel) (text : string) : M unit :=
  modify (set_world (fun w =>
    External.mk (External.now w) (External.randomDraws w)
      (External.console w ++ [(lvl, text)])
      (External.auditTable w) (External.auditTableWritable w)
      (External.services w))).

(** [Math.random().toString(36).substr(2, 9)] *)
Definition mathRandom36 : M string :=
  fun rt s =>
    (Return (random36 rt (External.randomDraws (world s))),
     set_world (fun w =>
       External.mk (External.now w) (S (External.randomDraws w))
         (External.console w) (External.auditTable w)
         (External.auditTableWritable w) (External.services w)) s).

(** Calling a capability: it acts on the outside world only. *)
Definition callCapability (c : Capability) (parameters : JsValue) : M JsValue :=
  fun _ s =>
    let '(r, w) := c parameters (world s) in (r, set_world (fun _ => w) s).

(** Calling [validate]: no state is touched. *)
Definition callValidate (v : JsValue -> Outcome bool) (parameters : JsValue) : M bool :=
  fun _ s => (v parameters, s).

(** Entering an executor is noted in the call trace. *)
Definition noteCall (target : ActionType.t) (name : string) (parameters : JsValue)
    : M unit :=
  modify (set_calls (fun cs => cs ++ [Called target name parameters])).

(** ** PermissionGate *)

Module PermissionGate.

Definition superAdminPermissions : list string :=
  [ "pluginSummarizer"; "pluginTranslator"; "pluginGitHubStorage";
    "restartAgent"; "clearCache"; "getPersona"; "updateMemory";
    "systemDiagnostic"; "healthCheck"; "systemConfiguration";
    "userManagement"; "auditAccess"; "apiManagement" ].

(** The map built by [initializeRoles]. *)
Definition roles : gmap string Role.t :=
  <[ "guest" := Role.mk "Guest" [] "No execution permissions - Chat only" ]>
  (<[ "user" := Role.mk "User"
        [ "pluginSummarizer"; "pluginTranslator"; "pluginGitHubStorage";
          "getPersona" ]
        "Basic user access - Read-only plugins" ]>
  (<[ "admin" := Role.mk "Administrator"
        [ "pluginSummarizer"; "pluginTranslator"; "pluginGitHubStorage";
          "getPersona"; "systemDiagnostic"; "healthCheck" ]
        "Administrative access - Limited permissions" ]>
  (<[ "super_admin" := Role.mk "Super Admin" superAdminPermissions
        "Full system access - Only Han" ]> ∅))).

(** The map built by [initializePermissions]. *)
Definition initialPermissions : gmap string JsSet.t :=
  <[ "han" := JsSet.ofArray superAdminPermissions ]>
  (<[ "Han" := JsSet.ofArray superAdminPermissions ]> ∅).

Definition requiresApproval (action : string) : bool :=
  let highImpactActions :=
    [ "restartAgent"; "clearCache"; "updateMemory"; "systemConfiguration";
      "userManagement"; "apiManagement" ] in
  includes highImpactActions action.

Definition getActionRiskLevel (action : string) : Risk.t :=
  let criticalActions := [ "restartAgent" ] in
  let highActions := [ "clearCache"; "updateMemory"; "userManagement" ] in
  let mediumActions := [ "systemDiagnostic"; "systemConfiguration" ] in
  if includes criticalActions action then Risk.critical
  else if includes highActions action then Risk.high
  else if includes mediumActions action then Risk.medium
  else Risk.low.

Definition riskName (r : Risk.t) : string :=
  match r with
  | Risk.low => "low"
  | Risk.medium => "medium"
  | Risk.high => "high"
  | Risk.critical => "critical"
  end.

Definition logPermission (action user : string) (granted : bool)
    (reason : option string) : M unit :=
  t <- dateNow ;;
  modify (set_gate_auditLog (fun l => l ++ [Permission.mk action user granted t reason])) ;;
  n <- gets (fun s => length (gate_auditLog s)) ;;
  (if (1000 <? n)%nat
   then modify (set_gate_auditLog (sliceLast 500))
   else ret tt) ;;
  let status := if granted then "✅" else "❌" in
  let riskLevel := getActionRiskLevel action in
  let tail :=
    match reason with
    | Some r => if String.eqb r "" then "" else "- " +:+ r
    | None => ""
    end in
  consoleWrite ConsoleLog
    (status +:+ " Permission Check: " +:+ user +:+ " -> " +:+ action +:+ " ("
     +:+ riskName riskLevel +:+ ") " +:+ tail).

Definition isAuthorized (action user : string) : M bool :=
  userPermissions <- gets (fun s => gate_permissions s !! user) ;;
  match userPermissions with
  | None =>
      logPermission action user false (Some "User not found in permission system") ;;
      ret false
  | Some userPermissions =>
      let isAuthorized := JsSet.has userPermissions action in
      logPermission action user isAuthorized
        (Some (if isAuthorized then "Action authorized"
               else "Action not in user permissions")) ;;
      ret isAuthorized
  end.

(** The test of [hasRole], read off a state. *)
Definition holdsRole (s : System) (user role : string) : bool :=
  match gate_permissions s !! user, roles !! role with
  | Some userPermissions, Some rolePermissions =>
      forallb (fun permission => JsSet.has userPermissions permission)
        (Role.permissions rolePermissions)
  | _, _ => false
  end.

Definition hasRole (user role : string) : M bool :=
  gets (fun s => holdsRole s user role).

Definition grantPermission (user action grantedBy : string) : M bool :=
  allowed <- hasRole grantedBy "super_admin" ;;
  if negb allowed then
    consoleWrite ConsoleWarn
      ("❌ " +:+ grantedBy +:+ " attempted to grant permission without super admin role") ;;
    ret false
  else
    known <- gets (fun s => bool_decide (is_Some (gate_permissions s !! user))) ;;
    (if negb known
     then modify (set_gate_permissions (fun m => <[ user := JsSet.ofArray [] ]> m))
     else ret tt) ;;
    modify (set_gate_permissions
              (fun m => alter (fun userPermissions => JsSet.add userPermissions action)
                          user m)) ;;
    consoleWrite ConsoleLog
      ("✅ Permission '" +:+ action +:+ "' granted to " +:+ user +:+ " by " +:+ grantedBy) ;;
    ret true.

Definition revokePermission (user action revokedBy : string) : M bool :=
  allowed <- hasRole revokedBy "super_admin" ;;
  if negb allowed then
    consoleWrite ConsoleWarn
      ("❌ " +:+ revokedBy +:+ " attempted to revoke permission without super admin role") ;;
    ret false
  else
    userPermissions <- gets (fun s => gate_permissions s !! user) ;;
    match userPermissions with
    | None => ret false
    | Some userPermissions =>
        let '(rest, removed) := JsSet.delete userPermissions action in
        modify (set_gate_permissions (fun m => <[ user := rest ]> m)) ;;
        (if removed
         then consoleWrite ConsoleLog
                ("✅ Permission '" +:+ action +:+ "' revoked from " +:+ user
                 +:+ " by " +:+ revokedBy)
         else ret tt) ;;
        ret removed
    end.

Definition assignRole (user role assignedBy : string) : M bool :=
  allowed <- hasRole assignedBy "super_admin" ;;
  if negb allowed then
    consoleWrite ConsoleWarn
      ("❌ " +:+ assignedBy +:+ " attempted to assign role without super admin role") ;;
    ret false
  else
    match roles !! role with
    | None =>
        consoleWrite ConsoleWarn ("❌ Role '" +:+ role +:+ "' not found") ;;
        ret false
    | Some roleData =>
        modify (set_gate_permissions
                  (fun m => <[ user := JsSet.ofArray (Role.permissions roleData) ]> m)) ;;
        consoleWrite ConsoleLog
          ("✅ Role '" +:+ role +:+ "' assigned to " +:+ user +:+ " by " +:+ assignedBy) ;;
        ret true
    end.

Definition getUserPermissions (user : string) : M (list string) :=
  userPermissions <- gets (fun s => gate_permissions s !! user) ;;
  ret (match userPermissions with
       | Some userPermissions => JsSet.toArray userPermissions
       | None => []
       end).

(** [getPermissionAudit(limit)] *)
Definition getPermissionAudit (limit : nat) : M (list Permission.t) :=
  gets (fun s => sliceLast limit (gate_auditLog s)).

(** The entries of [roles] in the order of the [set] calls of
    [initializeRoles], which is the order in which [roles.entries()] and
    [roles.values()] iterate. *)
Definition roleEntries : list (string * Role.t) :=
  [ ("super_admin",
     Role.mk "Super Admin" superAdminPermissions "Full system access - Only Han");
    ("admin",
     Role.mk "Administrator"
       [ "pluginSummarizer"; "pluginTranslator"; "pluginGitHubStorage";
         "getPersona"; "systemDiagnostic"; "healthCheck" ]
       "Administrative access - Limited permissions");
    ("user",
     Role.mk "User"
       [ "pluginSummarizer"; "pluginTranslator"; "pluginGitHubStorage";
         "getPersona" ]
       "Basic user access - Read-only plugins");
    ("guest", Role.mk "Guest" [] "No execution permissions - Chat only") ].

(** [getAvailableRoles()] *)
Definition getAvailableRoles : M (list Role.t) := ret (map snd roleEntries).

(** [getUserRole(user)]: the first role, in the order of the entries,
    whose permissions the user all has; [None] is [null]. *)
Definition getUserRole (user : string) : M (option string) :=
  userPermissions <- gets (fun s => gate_permissions s !! user) ;;
  match userPermissions with
  | None => ret None
  | Some userPermissions =>
      ret (fst <$>
           List.find
             (fun entry =>
                forallb (fun permission => JsSet.has userPermissions permission)
                  (Role.permissions (snd entry)))
             roleEntries)
  end.

End PermissionGate.

(** ** PluginExecutor *)

Module PluginExecutor.

Definition executePlugin (pluginName : string) (parameters : JsValue)
    : M PluginResult.t :=
  noteCall ActionType.plugin pluginName parameters ;;
  startTime <- dateNow ;;
  plugin <- gets (fun s => plugin_plugins s !! pluginName) ;;
  match plugin with
  | None =>
      t <- dateNow ;;
      ret (PluginResult.mk false pluginName JNull (t - startTime)%Z t
             (Some ("Plugin '" +:+ pluginName +:+ "' not found")))
  | Some plugin =>
      tryCatch
        (valid <- match Plugin.validate plugin with
                  | Some validate => callValidate validate parameters
                  | None => ret true
                  end ;;
         if negb valid then
           t <- dateNow ;;
           ret (PluginResult.mk false pluginName JNull (t - startTime)%Z t
                  (Some "Invalid parameters for plugin"))
         else
           result <- callCapability (Plugin.execute plugin) parameters ;;
           t <- dateNow ;;
           let executionTime := (t - startTime)%Z in
           let pluginResult :=
             PluginResult.mk true pluginName result executionTime t None in
           modify (set_plugin_executionHistory (fun h => h ++ [pluginResult])) ;;
           n <- gets (fun s => length (plugin_executionHistory s)) ;;
           (if (100 <? n)%nat
            then modify (set_plugin_executionHistory (sliceLast 50))
            else ret tt) ;;
           consoleWrite ConsoleLog
             ("✅ Plugin '" +:+ pluginName +:+ "' executed successfully in "
              +:+ pretty executionTime +:+ "ms") ;;
           ret pluginResult)
        (fun error =>
           t <- dateNow ;;
           let executionTime := (t - startTime)%Z in
           let errorMessage := errorMessage error in
           let pluginResult :=
             PluginResult.mk false pluginName JNull executionTime t
               (Some errorMessage) in
           modify (set_plugin_executionHistory (fun h => h ++ [pluginResult])) ;;
           consoleWrite ConsoleError
             ("❌ Plugin '" +:+ pluginName +:+ "' execution failed: " +:+ errorMessage) ;;
           ret pluginResult)
  end.

(** [getExecutionHistory(limit)] *)
Definition getExecutionHistory (limit : nat) : M (list PluginResult.t) :=
  gets (fun s => sliceLast limit (plugin_executionHistory s)).

(** Assignment to the private field [plugins]. *)
Definition set_plugins (f : gmap string Plugin.t -> gmap string Plugin.t)
    (s : System) : System :=
  mkSystem (gate_permissions s) (gate_auditLog s) (f (plugin_plugins s))
    (plugin_executionHistory s) (commit_actions s) (commit_executionHistory s)
    (zhupi_actions s) (zhupi_executionHistory s) (audit_pendingLogs s)
    (world s) (calls s).

Definition registerPlugin (plugin : Plugin.t) : M bool :=
  taken <- gets (fun s =>
             bool_decide (is_Some (plugin_plugins s !! Plugin.name plugin))) ;;
  if taken then
    consoleWrite ConsoleWarn
      ("⚠️ Plugin '" +:+ Plugin.name plugin +:+ "' already exists") ;;
    ret false
  else
    modify (set_plugins (fun m => <[ Plugin.name plugin := plugin ]> m)) ;;
    consoleWrite ConsoleLog
      ("✅ Plugin '" +:+ Plugin.name plugin +:+ "' registered successfully") ;;
    ret true.

Definition unregisterPlugin (pluginName : string) : M bool :=
  removed <- gets (fun s => bool_decide (is_Some (plugin_plugins s !! pluginName))) ;;
  modify (set_plugins (fun m => delete pluginName m)) ;;
  (if removed
   then consoleWrite ConsoleLog
          ("✅ Plugin '" +:+ pluginName +:+ "' unregistered successfully")
   else consoleWrite ConsoleWarn ("⚠️ Plugin '" +:+ pluginName +:+ "' not found")) ;;
  ret removed.

(** [getPluginDetails(pluginName)]; [None] is [null]. *)
Definition getPluginDetails (pluginName : string) : M (option Plugin.t) :=
  gets (fun s => plugin_plugins s !! pluginName).

Definition clearHistory : M unit :=
  modify (set_plugin_executionHistory (fun _ => [])) ;;
  consoleWrite ConsoleLog "✅ Plugin execution history cleared".

(** The object returned by [testPlugin]. *)
Record TestReport : Type := mkTestReport {
  available : bool;
  testResult : option PluginResult.t;
  error : option string
}.

(** The [switch (pluginName)] of [testPlugin]; [None] is the [default]
    case. *)
Definition testParamsFor (pluginName : string) : option JsValue :=
  if String.eqb pluginName "pluginSummarizer" then
    Some (JObj [ ("text", JStr "Ini adalah teks uji untuk plugin summarizer. Teks ini berisi beberapa kalimat yang akan diringkas oleh plugin untuk menguji fungsionalitasnya.") ])
  else if String.eqb pluginName "pluginTranslator" then
    Some (JObj [ ("text", JStr "Ini adalah teks uji untuk plugin translator.");
                 ("targetLanguage", JStr "English") ])
  else if String.eqb pluginName "pluginGitHubStorage" then
    Some (JObj [ ("action", JStr "list");
                 ("config", JObj [ ("username", JStr "odarkserver");
                                   ("repository", JStr "ai-dataset-storage") ]) ])
  else if String.eqb pluginName "pluginGitHubConnector" then
    Some (JObj [ ("action", JStr "status") ])
  else if String.eqb pluginName "pluginDatabaseManager" then
    Some (JObj [ ("action", JStr "stats") ])
  else None.

Definition testPlugin (pluginName : string) : M TestReport :=
  plugin <- gets (fun s => plugin_plugins s !! pluginName) ;;
  match plugin with
  | None =>
      ret (mkTestReport false None
             (Some ("Plugin '" +:+ pluginName +:+ "' not found")))
  | Some _ =>
      tryCatch
        (match testParamsFor pluginName with
         | None =>
             ret (mkTestReport true None
                    (Some "No test parameters defined for this plugin"))
         | Some testParams =>
             testResult <- executePlugin pluginName testParams ;;
             ret (mkTestReport true (Some testResult) None)
         end)
        (fun error =>
           ret (mkTestReport true None
                  (Some (match error with
                         | ThrownError message => message
                         | ThrownOther => "Unknown test error"
                         end))))
  end.

End PluginExecutor.

(** ** CommitRouter *)

Module CommitRouter.

(** The table is consulted for registered names only, and the names
    registered by [initializeCommitActions] are its six keys. *)
Definition getAffectedServices (actionName : string) : list string :=
  if String.eqb actionName "restartAgent"
  then [ "AI Models"; "Local Storage"; "Cache System"; "API Endpoints" ]
  else if String.eqb actionName "clearCache"
  then [ "Local Storage"; "Memory Cache"; "API Response Cache" ]
  else if String.eqb actionName "restartModels"
  then [ "AI Models"; "Chat API"; "Completion API" ]
  else if String.eqb actionName "updateConfig"
  then [ "Configuration Service"; "All Services" ]
  else if String.eqb actionName "backupSystem"
  then [ "Local Storage"; "Database"; "File System" ]
  else if String.eqb actionName "cleanupLogs"
  then [ "Database"; "Audit System"; "Log Storage" ]
  else [ "Unknown Service" ].

Definition executeAction (actionName : string) (parameters : JsValue)
    : M CommitResult.t :=
  noteCall ActionType.commit_api actionName parameters ;;
  startTime <- dateNow ;;
  action <- gets (fun s => commit_actions s !! actionName) ;;
  match action with
  | None =>
      t <- dateNow ;;
      ret (CommitResult.mk false actionName JNull t (t - startTime)%Z []
             (Some ("Commit action '" +:+ actionName +:+ "' not found")))
  | Some action =>
      tryCatch
        (valid <- match CommitAction.validate action with
                  | Some validate => callValidate validate parameters
                  | None => ret true
                  end ;;
         if negb valid then
           t <- dateNow ;;
           ret (CommitResult.mk false actionName JNull t (t - startTime)%Z []
                  (Some "Invalid parameters for commit action"))
         else
           let affectedServices := getAffectedServices actionName in
           result <- callCapability (CommitAction.execute action) parameters ;;
           t <- dateNow ;;
           let executionTime := (t - startTime)%Z in
           let commitResult :=
             CommitResult.mk true actionName result t executionTime
               affectedServices None in
           modify (set_commit_executionHistory (fun h => h ++ [commitResult])) ;;
           n <- gets (fun s => length (commit_executionHistory s)) ;;
           (if (100 <? n)%nat
            then modify (set_commit_executionHistory (sliceLast 50))
            else ret tt) ;;
           consoleWrite ConsoleLog
             ("✅ Commit action '" +:+ actionName +:+ "' executed successfully in "
              +:+ pretty executionTime +:+ "ms") ;;
           ret commitResult)
        (fun error =>
           t <- dateNow ;;
           let executionTime := (t - startTime)%Z in
           let errorMessage := errorMessage error in
           let commitResult :=
             CommitResult.mk false actionName JNull t executionTime
               (getAffectedServices actionName) (Some errorMessage) in
           modify (set_commit_executionHistory (fun h => h ++ [commitResult])) ;;
           consoleWrite ConsoleError
             ("❌ Commit action '" +:+ actionName +:+ "' execution failed: "
              +:+ errorMessage) ;;
           ret commitResult)
  end.

(** [getExecutionHistory(limit)] *)
Definition getExecutionHistory (limit : nat) : M (list CommitResult.t) :=
  gets (fun s => sliceLast limit (commit_executionHistory s)).

End CommitRouter.

(** ** ZhupiAdapter *)

Module ZhupiAdapter.

Definition executeAction (actionName : string) (parameters : JsValue)
    : M ZhupiResult.t :=
  noteCall ActionType.zhupi_api actionName parameters ;;
  startTime <- dateNow ;;
  action <- gets (fun s => zhupi_actions s !! actionName) ;;
  match action with
  | None =>
      t <- dateNow ;;
      ret (ZhupiResult.mk false actionName JNull t (t - startTime)%Z "unknown"
             (Some ("Zhupi action '" +:+ actionName +:+ "' not found")))
  | Some action =>
      tryCatch
        (valid <- match ZhupiAction.validate action with
                  | Some validate => callValidate validate parameters
                  | None => ret true
                  end ;;
         if negb valid then
           t <- dateNow ;;
           ret (ZhupiResult.mk false actionName JNull t (t - startTime)%Z
                  (ZhupiAction.endpoint action)
                  (Some "Invalid parameters for Zhupi action"))
         else
           result <- callCapability (ZhupiAction.execute action) parameters ;;
           t <- dateNow ;;
           let responseTime := (t - startTime)%Z in
           let zhupiResult :=
             ZhupiResult.mk true actionName result t responseTime
               (ZhupiAction.endpoint action) None in
           modify (set_zhupi_executionHistory (fun h => h ++ [zhupiResult])) ;;
           n <- gets (fun s => length (zhupi_executionHistory s)) ;;
           (if (100 <? n)%nat
            then modify (set_zhupi_executionHistory (sliceLast 50))
            else ret tt) ;;
           consoleWrite ConsoleLog
             ("‚úÖ Zhupi action '" +:+ actionName +:+ "' executed successfully in "
              +:+ pretty responseTime +:+ "ms") ;;
           ret zhupiResult)
        (fun error =>
           t <- dateNow ;;
           let responseTime := (t - startTime)%Z in
           let errorMessage := errorMessage error in
           let zhupiResult :=
             ZhupiResult.mk false actionName JNull t responseTime
               (ZhupiAction.endpoint action) (Some errorMessage) in
           modify (set_zhupi_executionHistory (fun h => h ++ [zhupiResult])) ;;
           consoleWrite ConsoleError
             ("‚ùå Zhupi action '" +:+ actionName +:+ "' execution failed: "
              +:+ errorMessage) ;;
           ret zhupiResult)
  end.

(** [getExecutionHistory(limit)] *)
Definition getExecutionHistory (limit : nat) : M (list ZhupiResult.t) :=
  gets (fun s => sliceLast limit (zhupi_executionHistory s)).

End ZhupiAdapter.

(** ** AuditLogger *)

(** [v.name] for a field of an object; [undefined] elsewhere.  An object
    lists each of its keys once. *)
Definition jsField (name : string) (v : JsValue) : JsValue :=
  match v with
  | JObj fields =>
      match List.find (fun kv => String.eqb name (fst kv)) fields with
      | Some kv => snd kv
      | None => JUndefined
      end
  | _ => JUndefined
  end.

Module AuditLogger.

(** The [options] argument of [logAction]; [None] is an absent field. *)
Record Options : Type := mkOptions {
  input : option JsValue;
  sessionId : option string;
  executionId : option string;
  category : option Category.t;
  level : option Level.t;
  metadata : option JsValue;
  ipAddress : option string;
  userAgent : option string
}.

(** [{}], the default value of [options]. *)
Definition noOptions : Options :=
  mkOptions None None None None None None None None.

Definition inferCategory (action : string) : Category.t :=
  if JsString.startsWith action "plugin_" then Category.plugin
  else if JsString.startsWith action "commit_api_" then Category.commit_api
  else if JsString.startsWith action "zhupi_api_" then Category.zhupi_api
  else if JsString.startsWith action "security_" then Category.security
  else if String.eqb action "chat" then Category.chat
  else Category.system.

(** [result && result.success === false] *)
Definition reportsFailure (result : AuditPayload) : bool :=
  match result with
  | ExecutionStart _ _ => false
  | ExecutionSucceeded _ _ => false
  | ExecutionFailed _ _ => true
  | PayloadValue v =>
      match jsField "success" v with
      | JBool false => true
      | _ => false
      end
  end.

Definition inferLevel (action : string) (result : AuditPayload) : Level.t :=
  if JsString.startsWith action "security_" then Level.warning
  else if reportsFailure result then Level.error
  else if JsString.includes action "restart" || JsString.includes action "clear"
  then Level.warning
  else Level.info.

Definition levelEmoji (l : Level.t) : string :=
  match l with
  | Level.info => "ℹ️"
  | Level.warning => "⚠️"
  | Level.error => "❌"
  | Level.critical => "🚨"
  end.

Definition categoryEmoji (c : Category.t) : string :=
  match c with
  | Category.chat => "💬"
  | Category.plugin => "🔌"
  | Category.commit_api => "🔧"
  | Category.zhupi_api => "🌐"
  | Category.security => "🔒"
  | Category.system => "⚙️"
  end.

(** [level === 'critical' || level === 'error'] *)
Definition isSevere (l : Level.t) : bool :=
  match l with
  | Level.critical | Level.error => true
  | Level.info | Level.warning => false
  end.

Definition logToConsole (log : AuditLog.t) : M unit :=
  iso <- asks (fun rt => toISOString rt (AuditLog.timestamp log)) ;;
  consoleWrite ConsoleLog
    (levelEmoji (AuditLog.level log) +:+ " " +:+ categoryEmoji (AuditLog.category log)
     +:+ " [" +:+ iso +:+ "] " +:+ AuditLog.actor log +:+ " -> "
     +:+ AuditLog.action log) ;;
  if isSevere (AuditLog.level log)
  then consoleWrite ConsoleError "Details:"
  else ret tt.

(** [db.auditLog.createMany({data})]: the rows are added to the table, or
    the call rejects and the table is unchanged.  The message of the
    rejection is never read. *)
Definition createMany (data : list AuditLog.t) : M unit :=
  fun _ s =>
    if External.auditTableWritable (world s)
    then (Return tt,
          set_world (fun w =>
            External.mk (External.now w) (External.randomDraws w)
              (External.console w) (External.auditTable w ++ data)
              (External.auditTableWritable w) (External.services w)) s)
    else (Throw (ThrownError "createMany rejected"), s).

Definition flushLogs : M unit :=
  pending <- gets audit_pendingLogs ;;
  if (length pending =? 0)%nat then ret tt
  else
    let logsToFlush := pending in
    modify (set_audit_pendingLogs (fun _ => [])) ;;
    tryCatch
      (createMany logsToFlush ;;
       consoleWrite ConsoleLog
         ("✅ Flushed " +:+ pretty (length logsToFlush) +:+ " audit logs to database"))
      (fun error =>
         consoleWrite ConsoleError "❌ Failed to flush audit logs:" ;;
         modify (set_audit_pendingLogs (fun p => logsToFlush ++ p))).

Definition logAction (actor action : string) (result : AuditPayload)
    (options : Options) : M string :=
  let category := default (inferCategory action) (category options) in
  let level := default (inferLevel action result) (level options) in
  t <- dateNow ;;
  r <- mathRandom36 ;;
  let id := "audit_" +:+ pretty t +:+ "_" +:+ r in
  timestamp <- dateNow ;;
  let auditLog :=
    AuditLog.mk id actor action
      (match input options with
       | Some v => if truthy v then v else JNull
       | None => JNull
       end)
      result timestamp (sessionId options) (executionId options)
      category level (metadata options) (ipAddress options) (userAgent options) in
  modify (set_audit_pendingLogs (fun p => p ++ [auditLog])) ;;
  logToConsole auditLog ;;
  (if isSevere level then flushLogs else ret tt) ;;
  ret id.

(** One tick of the timer started by [startFlushTimer]. *)
Definition timerTick : M unit := flushLogs.

(** [v.name] where [v] is of type [any]: reading a property of [null] or
    [undefined] throws a [TypeError], whose message is the one of V8. *)
Definition readProperty (name : string) (v : JsValue) : M JsValue :=
  match v with
  | JNull =>
      throw (ThrownError
               ("Cannot read properties of null (reading '" +:+ name +:+ "')"))
  | JUndefined =>
      throw (ThrownError
               ("Cannot read properties of undefined (reading '" +:+ name +:+ "')"))
  | _ => ret (jsField name v)
  end.

Definition logChat (actor input output sessionId : string)
    (metadata : option JsValue) : M string :=
  logAction actor "chat"
    (PayloadValue (JObj [ ("input", JStr input); ("output", JStr output);
                          ("sessionId", JStr sessionId) ]))
    (mkOptions (Some (JStr input)) (Some sessionId) None (Some Category.chat)
       (Some Level.info) metadata None None).

Definition logPluginExecution (actor pluginName : string)
    (parameters result : JsValue) (executionId : string)
    (sessionId : option string) : M string :=
  success <- readProperty "success" result ;;
  executionTime <- readProperty "executionTime" result ;;
  success' <- readProperty "success" result ;;
  logAction actor ("plugin_" +:+ pluginName) (PayloadValue result)
    (mkOptions (Some parameters) sessionId (Some executionId)
       (Some Category.plugin)
       (Some (if truthy success then Level.info else Level.error))
       (Some (JObj [ ("pluginName", JStr pluginName);
                     ("executionTime", executionTime);
                     ("success", success') ]))
       None None).

(** [apiType] of [logApiExecution]: ['commit_api' | 'zhupi_api']. *)
Inductive ApiType : Type := CommitApi | ZhupiApi.

Definition apiTypeName (apiType : ApiType) : string :=
  match apiType with
  | CommitApi => "commit_api"
  | ZhupiApi => "zhupi_api"
  end.

Definition apiTypeCategory (apiType : ApiType) : Category.t :=
  match apiType with
  | CommitApi => Category.commit_api
  | ZhupiApi => Category.zhupi_api
  end.

Definition logApiExecution (actor : string) (apiType : ApiType) (action : string)
    (parameters result : JsValue) (executionId : string)
    (sessionId : option string) : M string :=
  success <- readProperty "success" result ;;
  executionTime <- readProperty "executionTime" result ;;
  responseTime <- (if truthy executionTime then ret executionTime
                   else readProperty "responseTime" result) ;;
  success' <- readProperty "success" result ;;
  logAction actor (apiTypeName apiType +:+ "_" +:+ action) (PayloadValue result)
    (mkOptions (Some parameters) sessionId (Some executionId)
       (Some (apiTypeCategory apiType))
       (Some (if truthy success then Level.info else Level.error))
       (Some (JObj [ ("apiType", JStr (apiTypeName apiType));
                     ("action", JStr action);
                     ("executionTime", responseTime);
                     ("success", success') ]))
       None None).

(** [level] of [logSecurityEvent]: ['warning' | 'error' | 'critical']. *)
Inductive Severity : Type := SevWarning | SevError | SevCritical.

Definition severityLevel (severity : Severity) : Level.t :=
  match severity with
  | SevWarning => Level.warning
  | SevError => Level.error
  | SevCritical => Level.critical
  end.

Definition levelName (l : Level.t) : string :=
  match l with
  | Level.info => "info"
  | Level.warning => "warning"
  | Level.error => "error"
  | Level.critical => "critical"
  end.

Definition logSecurityEvent (actor event : string) (details : JsValue)
    (severity : Severity) (ipAddress userAgent : option string) : M string :=
  logAction actor ("security_" +:+ event) (PayloadValue details)
    (mkOptions None None None (Some Category.security)
       (Some (severityLevel severity))
       (Some (JObj [ ("securityEvent", JStr event);
                     ("severity", JStr (levelName (severityLevel severity))) ]))
       ipAddress userAgent).

End AuditLogger.

(** ** AgentExecutor *)

Module AgentExecutor.

(** [input.toLowerCase().includes(keyword)] *)
Definition mentions (input keyword : string) : bool :=
  JsString.includes (JsString.toLowerCase input) keyword.

Definition analyzePluginActions (input : string) : list ExecutionPreview.t :=
  (if mentions input "ringkas" || mentions input "summarize"
   then [ ExecutionPreview.mk "pluginSummarizer" ActionType.plugin
            "Membuat ringkasan dari teks yang diberikan"
            (JObj [ ("text", JStr input) ]) false "Low - Text processing only" ]
   else []) ++
  (if mentions input "terjemah" || mentions input "translate"
   then [ ExecutionPreview.mk "pluginTranslator" ActionType.plugin
            "Menerjemahkan teks ke bahasa lain"
            (JObj [ ("text", JStr input) ]) false "Low - Text processing only" ]
   else []) ++
  let githubKeywords :=
    [ "simpan dataset"; "save dataset"; "github"; "repository";
      "load dataset"; "muat dataset"; "list dataset"; "daftar dataset";
      "delete dataset"; "hapus dataset"; "search dataset"; "cari dataset" ] in
  if existsb (fun keyword => mentions input keyword) githubKeywords then
    let '(action, description) :=
      if mentions input "simpan" || mentions input "save"
      then ("save", "Menyimpan dataset ke GitHub")
      else if mentions input "muat" || mentions input "load"
      then ("load", "Memuat dataset dari GitHub")
      else if mentions input "hapus" || mentions input "delete"
      then ("delete", "Menghapus dataset dari GitHub")
      else if mentions input "cari" || mentions input "search"
      then ("search", "Mencari dataset di GitHub")
      else ("list", "Mengelola dataset di GitHub repository") in
    [ ExecutionPreview.mk "pluginGitHubStorage" ActionType.plugin description
        (JObj [ ("action", JStr action);
                ("input", JStr input);
                ("config", JObj [ ("username", JStr "han-odark");
                                  ("repository", JStr "ai-datasets") ]) ])
        false "Low - GitHub API access" ]
  else [].

Definition analyzeCommitActions (input : string) : list ExecutionPreview.t :=
  (if mentions input "restart agent" || mentions input "restart sistem"
   then [ ExecutionPreview.mk "restartAgent" ActionType.commit_api
            "Restart AI agent dan sistem terkait" (JObj []) true
            "High - System restart will affect all users" ]
   else []) ++
  (if mentions input "clear cache" || mentions input "bersihkan cache"
   then [ ExecutionPreview.mk "clearCache" ActionType.commit_api
            "Membersihkan cache sistem" (JObj []) true
            "Medium - Temporary performance impact" ]
   else []).

Definition analyzeZhupiActions (input : string) : list ExecutionPreview.t :=
  (if mentions input "get persona" || mentions input "lihat persona"
   then [ ExecutionPreview.mk "getPersona" ActionType.zhupi_api
            "Mengambil persona aktif dari Zhupi API" (JObj []) false
            "Low - Read operation" ]
   else []) ++
  (if mentions input "update memory" || mentions input "perbarui memori"
   then [ ExecutionPreview.mk "updateMemory" ActionType.zhupi_api
            "Memperbarui preferensi pengguna di Zhupi API"
            (JObj [ ("updates", JObj []) ]) true
            "Medium - Modifies user preferences" ]
   else []).

(** The previews pushed by [createPreview], in the order of the pushes. *)
Definition analyze (input : string) : list ExecutionPreview.t :=
  analyzePluginActions input ++ analyzeCommitActions input
  ++ analyzeZhupiActions input.

(** The object returned by [createPreview]. *)
Record Preview : Type := mkPreview {
  prompt : string;
  previews : list ExecutionPreview.t;
  requiresApproval : bool
}.

Definition createPreview (request : ExecutionRequest.t) : M Preview :=
  tryCatch
    (prompt <- (fun rt s =>
                  (buildPrompt rt (ExecutionRequest.input request)
                     (ExecutionRequest.context request), s)) ;;
     let previews := analyze (ExecutionRequest.input request) in
     let requiresApproval := existsb ExecutionPreview.requiresApproval previews in
     ret (mkPreview prompt previews requiresApproval))
    (fun error =>
       consoleWrite ConsoleError "❌ Failed to create preview:" ;;
       throw error).

Definition executeInternalAction (action : string) (parameters : JsValue)
    : M JsValue :=
  noteCall ActionType.internal action parameters ;;
  if String.eqb action "systemDiagnostic" then
    ret (JObj [ ("status", JStr "completed");
                ("result", JStr "System diagnostic completed successfully") ])
  else if String.eqb action "healthCheck" then
    t <- dateNow ;;
    iso <- asks (fun rt => toISOString rt t) ;;
    ret (JObj [ ("status", JStr "healthy"); ("timestamp", JStr iso) ])
  else throw (ThrownError ("Unknown internal action: " +:+ action)).

(** The [switch (preview.type)] of [execute]. *)
Definition dispatch (preview : ExecutionPreview.t) : M Dispatched :=
  let action := ExecutionPreview.action preview in
  let parameters := ExecutionPreview.parameters preview in
  match ExecutionPreview.type preview with
  | ActionType.plugin =>
      r <- PluginExecutor.executePlugin action parameters ;; ret (OfPlugin r)
  | ActionType.commit_api =>
      r <- CommitRouter.executeAction action parameters ;; ret (OfCommit r)
  | ActionType.zhupi_api =>
      r <- ZhupiAdapter.executeAction action parameters ;; ret (OfZhupi r)
  | ActionType.internal =>
      r <- executeInternalAction action parameters ;; ret (OfValue r)
  end.

(** The result pushed when the permission gate rejects the action. *)
Definition unauthorizedResult (action executionId : string) (t : Z)
    : ExecutionResult.t :=
  ExecutionResult.mk false action
    (OfValue (JObj [ ("error", JStr "Unauthorized action") ])) t executionId
    ("Action " +:+ action +:+ " rejected by permission gate").

(** The result pushed after the executor has returned. *)
Definition executedResult (action executionId : string) (result : Dispatched)
    (t : Z) : ExecutionResult.t :=
  ExecutionResult.mk true action result t executionId
    ("Successfully executed " +:+ action).

(** The result pushed by the [catch] clause. *)
Definition failedResult (action executionId : string) (error : Thrown) (t : Z)
    : ExecutionResult.t :=
  ExecutionResult.mk false action
    (OfValue (JObj [ ("error", JStr (errorMessage error)) ])) t executionId
    ("Failed to execute " +:+ action +:+ ": " +:+ errorMessage error).

(** The body of [for (const preview of previews)]; the local variable is
    the array [results]. *)
Definition executePreview (request : ExecutionRequest.t)
    (approvedActions : list string) (executionId : string)
    (preview : ExecutionPreview.t) : Frame (list ExecutionResult.t) unit :=
  let action := ExecutionPreview.action preview in
  let user := ExecutionRequest.user request in
  if negb (includes approvedActions action) then ret tt
  else
    authorized <- call (PermissionGate.isAuthorized action user) ;;
    if negb authorized then
      t <- call dateNow ;;
      setLocal (fun results => results ++ [unauthorizedResult action executionId t])
    else
      tryCatch
        (result <- call (dispatch preview) ;;
         t <- call dateNow ;;
         setLocal (fun results =>
                     results ++ [executedResult action executionId result t]) ;;
         call (AuditLogger.logAction user action
                 (ExecutionSucceeded executionId result) AuditLogger.noOptions) ;;
         ret tt)
        (fun error =>
           t <- call dateNow ;;
           setLocal (fun results =>
                       results ++ [failedResult action executionId error t]) ;;
           call (AuditLogger.logAction user action
                   (ExecutionFailed executionId (errorMessage error))
                   AuditLogger.noOptions) ;;
           ret tt).

(** [execute]: each [await] is sequencing.  The flush timer of the audit
    logger is the separate computation [AuditLogger.timerTick]; it moves
    records from the pending buffer to the audit table and keeps the
    audit trail, the table followed by the buffer. *)
Definition execute (request : ExecutionRequest.t) (approvedActions : list string)
    : M (list ExecutionResult.t) :=
  withLocal []
    (t <- call dateNow ;;
     r <- call mathRandom36 ;;
     let executionId := "exec_" +:+ pretty t +:+ "_" +:+ r in
     tryCatch
       (call (AuditLogger.logAction (ExecutionRequest.user request)
                (ExecutionRequest.input request)
                (ExecutionStart executionId approvedActions)
                AuditLogger.noOptions) ;;
        preview <- call (createPreview request) ;;
        forEach (previews preview)
          (executePreview request approvedActions executionId) ;;
        getLocal)
       (fun error =>
          call (consoleWrite ConsoleError "❌ Execution failed:") ;;
          throw error)).

End AgentExecutor.

(** ** A concrete installation

    The state the constructors leave behind, with registries that hold
    entries of [initializeDefaultPlugins] and [initializeCommitActions].
    The validators are those of the sources.  The capabilities stand for
    two situations of the services behind them: the language model cannot
    be reached, so that [executeSummarizer] ends in
    [throw new Error('Failed to generate summary')], and local storage
    works, so that [restartAgent] and [clearCache] return after some
    time. *)

Module Installation.

(** A runtime for the examples: the n-th random draw is [rn], a date is
    rendered as its number of milliseconds, the prompt is the input. *)
Definition runtime : Runtime :=
  {| random36 := fun n => "r" +:+ pretty n;
     toISOString := fun t => pretty t;
     buildPrompt := fun input _ => Return input |}.

Definition outside : External.t :=
  External.mk 1700000000000 0 [] [] true JNull.

(** [params && typeof params.text === 'string' && params.text.length > 0] *)
Definition summarizerValidate (params : JsValue) : Outcome bool :=
  Return (truthy params &&
          match jsField "text" params with
          | JStr text => negb (String.eqb text "")
          | _ => false
          end).

Definition summarizerUnreachable : Capability :=
  fun _ w => (Throw (ThrownError "Failed to generate summary"), w).

Definition pluginSummarizer : Plugin.t :=
  Plugin.mk "pluginSummarizer"
    "Membuat ringkasan dari teks yang diberikan menggunakan AI" "1.0.0"
    summarizerUnreachable (Some summarizerValidate).

(** A capability that takes 40 ms and returns [{cleared: true}]. *)
Definition clearCacheWorks : Capability :=
  fun _ w =>
    (Return (JObj [ ("cleared", JBool true) ]),
     External.mk (External.now w + 40)%Z (External.randomDraws w)
       (External.console w) (External.auditTable w)
       (External.auditTableWritable w) (External.services w)).

Definition clearCache : CommitAction.t :=
  CommitAction.mk "clearCache" "Membersihkan semua cache sistem" "cache"
    Risk.medium clearCacheWorks (Some (fun _ => Return true)).

(** A capability that takes 2000 ms and returns [{status: 'success'}]. *)
Definition restartAgentWorks : Capability :=
  fun _ w =>
    (Return (JObj [ ("status", JStr "success") ]),
     External.mk (External.now w + 2000)%Z (External.randomDraws w)
       (External.console w) (External.auditTable w)
       (External.auditTableWritable w) (External.services w)).

Definition restartAgent : CommitAction.t :=
  CommitAction.mk "restartAgent" "Restart AI agent dan semua service terkait"
    "system" Risk.critical restartAgentWorks (Some (fun _ => Return true)).

Definition boot : System :=
  mkSystem PermissionGate.initialPermissions []
    (<[ "pluginSummarizer" := pluginSummarizer ]> ∅) []
    (<[ "clearCache" := clearCache ]> (<[ "restartAgent" := restartAgent ]> ∅)) []
    ∅ []
    []
    outside [].

(** The same installation with a database that rejects writes. *)
Definition bootDatabaseDown : System :=
  set_world (fun w =>
    External.mk (External.now w) (External.randomDraws w) (External.console w)
      (External.auditTable w) false (External.services w)) boot.

End Installation.

(** ** Vocabulary of the statements *)

(** A refused call: it returns [false], the permission map is the one
    before the call and one line was written with [console.warn]. *)
Definition refusedWithWarning (run : Outcome bool * System) (s : System) : Prop :=
  exists text,
    fst run = Return false /\
    gate_permissions (snd run) = gate_permissions s /\
    External.console (world (snd run))
      = External.console (world s) ++ [(ConsoleWarn, text)].

(** The three logs that hold records of decisions: the permission check
    log, the pending audit buffer and the audit table. *)
Definition sameRecords (s s' : System) : Prop :=
  gate_auditLog s' = gate_auditLog s /\
  audit_pendingLogs s' = audit_pendingLogs s /\
  External.auditTable (world s') = External.auditTable (world s).

(** An impact level of [high] or [critical]. *)
Definition highImpact (r : Risk.t) : bool :=
  match r with
  | Risk.high | Risk.critical => true
  | Risk.low | Risk.medium => false
  end.

(** The action names [createPreview] can propose, each with the value of
    [requiresApproval] written in its preview. *)
Definition previewKinds : list (string * bool) :=
  [ ("pluginSummarizer", false); ("pluginTranslator", false);
    ("pluginGitHubStorage", false); ("restartAgent", true);
    ("clearCache", true); ("getPersona", false); ("updateMemory", true) ].

(** What [validate] says of the parameters; a capability registered
    without [validate] accepts every parameter. *)
Definition validation (v : Validator) (parameters : JsValue) : Outcome bool :=
  match v with
  | Some validate => validate parameters
  | None => Return true
  end.

(** [n] calls in a row. *)
Fixpoint times {S A : Type} (n : nat) (m : St S A) : St S unit :=
  match n with
  | O => ret tt
  | S k => m ;; times k m
  end.

(** The level [logAction] gives a record: the one passed in [options],
    else the inferred one. *)
Definition recordLevel (options : AuditLogger.Options) (action : string)
    (result : AuditPayload) : Level.t :=
  default (AuditLogger.inferLevel action result) (AuditLogger.level options).

(** The answer of the permission gate, read off a state: the user has a
    permission set that holds the action. *)
Definition permits (s : System) (action user : string) : bool :=
  match gate_permissions s !! user with
  | Some userPermissions => JsSet.has userPermissions action
  | None => false
  end.

(** The call an executor notes when a preview is dispatched to it. *)
Definition callOf (preview : ExecutionPreview.t) : Call :=
  Called (ExecutionPreview.type preview) (ExecutionPreview.action preview)
    (ExecutionPreview.parameters preview).

(** A computation that returns, keeps the permission map and makes no call
    to an executor. *)
Definition quiet {A : Type} (m : M A) : Prop :=
  forall rt s, exists a s',
    m rt s = (Return a, s') /\
    gate_permissions s' = gate_permissions s /\
    calls s' = calls s.

(** What one turn of the loop of [execute] does for a preview, from state
    [s] to state [s'], with [added] the results it pushes: nothing for a
    name that is not approved; one result built by the unauthorized branch
    and no call for an approved name the gate rejects; one call and one
    result for an approved name the gate accepts. *)
Definition turnOf (request : ExecutionRequest.t) (approvedActions : list string)
    (executionId : string) (preview : ExecutionPreview.t)
    (s s' : System) (added : list ExecutionResult.t) : Prop :=
  let action := ExecutionPreview.action preview in
  gate_permissions s' = gate_permissions s /\
  if includes approvedActions action then
    if permits s action (ExecutionRequest.user request) then
      calls s' = calls s ++ [callOf preview] /\
      exists r,
        added = [r] /\
        ExecutionResult.action r = action /\
        ExecutionResult.executionId r = executionId
    else
      calls s' = calls s /\
      exists t, added = [AgentExecutor.unauthorizedResult action executionId t]
  else
    calls s' = calls s /\ added = [].

(** What the whole loop of [execute] does over the previews, from state
    [s] to state [s'], with [added] the results pushed and [new] the calls
    noted. *)
Definition loopOf (request : ExecutionRequest.t) (approvedActions : list string)
    (executionId : string) (previews : list ExecutionPreview.t)
    (s s' : System) (added : list ExecutionResult.t) (new : list Call) : Prop :=
  let user := ExecutionRequest.user request in
  gate_permissions s' = gate_permissions s /\
  calls s' = calls s ++ new /\
  map ExecutionResult.action added
    = List.filter (includes approvedActions) (map ExecutionPreview.action previews) /\
  (forall c, In c new ->
     exists p, In p previews /\ c = callOf p /\
       includes approvedActions (ExecutionPreview.action p) = true /\
       permits s (ExecutionPreview.action p) user = true) /\
  (forall p, In p previews ->
     includes approvedActions (ExecutionPreview.action p) = true ->
     permits s (ExecutionPreview.action p) user = false ->
     exists t,
       In (AgentExecutor.unauthorizedResult (ExecutionPreview.action p) executionId t)
         added).

(** The audit records written so far, oldest first: the rows of the audit
    table, then the pending buffer. *)
Definition auditTrail (s : System) : list AuditLog.t :=
  External.auditTable (world s) ++ audit_pendingLogs s.

(** Case analysis of a membership in a list of previews built from
    conditionals. *)
Ltac split_previews H :=
  repeat match type of H with
         | In _ (_ ++ _) => apply in_app_or in H as [H | H]
         | In _ (if ?c then _ else _) => destruct c
         | In _ (let '(_, _) := (if ?c then _ else _) in _) => destruct c
         | In _ [] => destruct H
         | In _ (_ :: _) => destruct H as [<- | H]
         end.

(** The record [logAction] builds in state [s]. *)
Definition recordOf (rt : Runtime) (s : System) (actor action : string)
    (result : AuditPayload) (options : AuditLogger.Options) : AuditLog.t :=
  AuditLog.mk
    ("audit_" +:+ pretty (External.now (world s)) +:+ "_"
     +:+ random36 rt (External.randomDraws (world s)))
    actor action
    (match AuditLogger.input options with
     | Some v => if truthy v then v else JNull
     | None => JNull
     end)
    result (External.now (world s)) (AuditLogger.sessionId options)
    (AuditLogger.executionId options)
    (default (AuditLogger.inferCategory action) (AuditLogger.category options))
    (recordLevel options action result)
    (AuditLogger.metadata options) (AuditLogger.ipAddress options)
    (AuditLogger.userAgent options).

(** The values whose properties cannot be read: [null] and [undefined]. *)
Definition nullish (v : JsValue) : bool :=
  match v with
  | JNull | JUndefined => true
  | _ => false
  end.

(** The previews of a list that [execute] lets through: the name is
    approved; and those it dispatches: the gate answers [true] as well. *)
Definition approvedPreviews (approvedActions : list string)
    (previews : list ExecutionPreview.t) : list ExecutionPreview.t :=
  List.filter (fun p => includes approvedActions (ExecutionPreview.action p)) previews.

Definition dispatchedPreviews (s : System) (user : string)
    (approvedActions : list string) (previews : list ExecutionPreview.t)
    : list ExecutionPreview.t :=
  List.filter (fun p => permits s (ExecutionPreview.action p) user)
    (approvedPreviews approvedActions previews).

(** The object an executor returned, by the type of the preview. *)
Definition answeredBy (type : ActionType.t) (d : Dispatched) : Prop :=
  match type, d with
  | ActionType.plugin, OfPlugin _ => True
  | ActionType.commit_api, OfCommit _ => True
  | ActionType.zhupi_api, OfZhupi _ => True
  | _, _ => False
  end.

(** The result [execute] pushes for an approved preview of a type other
    than [internal]: the unauthorized one when the gate answers [false],
    else a result with [success: true] around the object the executor
    returned. *)
Definition resultFor (s : System) (user executionId : string)
    (p : ExecutionPreview.t) (r : ExecutionResult.t) : Prop :=
  let action := ExecutionPreview.action p in
  if permits s action user then
    exists d t,
      r = AgentExecutor.executedResult action executionId d t /\
      answeredBy (ExecutionPreview.type p) d
  else
    exists t, r = AgentExecutor.unauthorizedResult action executionId t.

(** The audit record [execute] writes after a dispatched preview: the
    actor is the user, the action is the one of the preview, the result
    is the object literal of the success branch, and category and level
    are the inferred ones. *)
Definition recordFor (user executionId : string) (p : ExecutionPreview.t)
    (record : AuditLog.t) : Prop :=
  let action := ExecutionPreview.action p in
  AuditLog.actor record = user /\
  AuditLog.action record = action /\
  AuditLog.category record = AuditLogger.inferCategory action /\
  exists d,
    answeredBy (ExecutionPreview.type p) d /\
    AuditLog.result record = ExecutionSucceeded executionId d /\
    AuditLog.level record
      = AuditLogger.inferLevel action (ExecutionSucceeded executionId d).

(** The outside world after one more line on the console. *)
Definition withConsole (w : External.t) (lvl : ConsoleLevel) (text : string)
    : External.t :=
  External.mk (External.now w) (External.randomDraws w)
    (External.console w ++ [(lvl, text)])
    (External.auditTable w) (External.auditTableWritable w) (External.services w).

(** A capability that leaves the rows of the audit table as they are. *)
Definition keepsAuditTable (c : Capability) : Prop :=
  forall parameters w,
    External.auditTable (snd (c parameters w)) = External.auditTable w.

(** No capability of the three registries writes to the audit table. *)
Definition capabilitiesKeepAuditTable (s : System) : Prop :=
  (forall name plugin,
     plugin_plugins s !! name = Some plugin ->
     keepsAuditTable (Plugin.execute plugin)) /\
  (forall name action,
     commit_actions s !! name = Some action ->
     keepsAuditTable (CommitAction.execute action)) /\
  (forall name action,
     zhupi_actions s !! name = Some action ->
     keepsAuditTable (ZhupiAction.execute action)).

(** The three registries and the rows of the audit table are the same in
    both states. *)
Definition sameTable (s s' : System) : Prop :=
  plugin_plugins s' = plugin_plugins s /\
  commit_actions s' = commit_actions s /\
  zhupi_actions s' = zhupi_actions s /\
  External.auditTable (world s') = External.auditTable (world s).

(** * Properties *)

(** ** Permission administration *)

Section PermissionAdministration.

Import PermissionGate.

(** Every role of the table lists each permission once, so building a
    set from the list keeps the list. *)
Lemma role_permissions_distinct (role : string) (roleData : Role.t) :
  roles !! role = Some roleData ->
  JsSet.ofArray (Role.permissions roleData) = Role.permissions roleData.
Proof.
  unfold roles. intros Hrole.
  repeat (apply lookup_insert_Some in Hrole;
          destruct Hrole as [[_ <-] | [_ Hrole]]; [reflexivity |]).
  rewrite lookup_empty in Hrole. discriminate.
Qed.

Lemma grantPermission_records rt s user action actor :
  sameRecords s (snd (grantPermission user action actor rt s)).
Proof.
  unfold grantPermission, hasRole, bind, gets, sameRecords.
  destruct (holdsRole s actor "super_admin"); simpl; [| done].
  destruct (bool_decide _); simpl; done.
Qed.

Lemma revokePermission_records rt s user action actor :
  sameRecords s (snd (revokePermission user action actor rt s)).
Proof.
  unfold revokePermission, hasRole, bind, gets, sameRecords.
  destruct (holdsRole s actor "super_admin"); simpl; [| done].
  destruct (gate_permissions s !! user) as [ps |]; simpl; [| done].
  destruct (JsSet.has ps action); simpl; done.
Qed.

Lemma grantPermission_refused rt s user action actor :
  holdsRole s actor "super_admin" = false ->
  refusedWithWarning (grantPermission user action actor rt s) s.
Proof.
  intros Hrole. unfold grantPermission, hasRole, bind, gets.
  rewrite Hrole. simpl. eexists. repeat split.
Qed.

Lemma revokePermission_refused rt s user action actor :
  holdsRole s actor "super_admin" = false ->
  refusedWithWarning (revokePermission user action actor rt s) s.
Proof.
  intros Hrole. unfold revokePermission, hasRole, bind, gets.
  rewrite Hrole. simpl. eexists. repeat split.
Qed.

Lemma assignRole_refused rt s user role actor :
  holdsRole s actor "super_admin" = false ->
  refusedWithWarning (assignRole user role actor rt s) s.
Proof.
  intros Hrole. unfold assignRole, hasRole, bind, gets.
  rewrite Hrole. simpl. eexists. repeat split.
Qed.

(** C6.  When the acting user does not hold the [super_admin] role,
    [grantPermission], [revokePermission] and [assignRole] return [false]
    without throwing, leave the permission set of every user as it was and
    report the denial with [console.warn]. *)
Theorem unauthorized_administration_refused rt s user target actor :
  holdsRole s actor "super_admin" = false ->
  refusedWithWarning (grantPermission user target actor rt s) s /\
  refusedWithWarning (revokePermission user target actor rt s) s /\
  refusedWithWarning (assignRole user target actor rt s) s.
Proof.
  intros Hrole. split; [| split].
  - by apply grantPermission_refused.
  - by apply revokePermission_refused.
  - by apply assignRole_refused.
Qed.

Lemma unauthorized_administration_refused_witness :
  holdsRole Installation.boot "guest" "super_admin" = false /\
  refusedWithWarning
    (grantPermission "alice" "clearCache" "guest" Installation.runtime
       Installation.boot) Installation.boot.
Proof.
  split; [reflexivity |].
  apply (unauthorized_administration_refused Installation.runtime
           Installation.boot "alice" "clearCache" "guest").
  reflexivity.
Defined.

(** C5, as the code has it.  The permission map changes only when the
    acting user holds the [super_admin] role: otherwise [grantPermission],
    [revokePermission] and [assignRole] leave it as it was.  A grant or a
    revoke is reported on the console only: the permission check log, the
    pending audit buffer and the audit table hold after the call what
    they held before it. *)
Theorem permissions_change_needs_super_admin rt s user target actor :
  (holdsRole s actor "super_admin" = false ->
   gate_permissions (snd (grantPermission user target actor rt s))
     = gate_permissions s /\
   gate_permissions (snd (revokePermission user target actor rt s))
     = gate_permissions s /\
   gate_permissions (snd (assignRole user target actor rt s))
     = gate_permissions s) /\
  sameRecords s (snd (grantPermission user target actor rt s)) /\
  sameRecords s (snd (revokePermission user target actor rt s)).
Proof.
  split; [| split].
  - intros Hrole.
    destruct (grantPermission_refused rt s user target actor Hrole) as (? & _ & Hg & _).
    destruct (revokePermission_refused rt s user target actor Hrole) as (? & _ & Hr & _).
    destruct (assignRole_refused rt s user target actor Hrole) as (? & _ & Ha & _).
    done.
  - apply grantPermission_records.
  - apply revokePermission_records.
Qed.

Lemma permissions_change_needs_super_admin_witness :
  holdsRole Installation.boot "guest" "super_admin" = false /\
  gate_permissions
    (snd (grantPermission "guest" "restartAgent" "guest" Installation.runtime
            Installation.boot))
    = gate_permissions Installation.boot.
Proof.
  split; [reflexivity |].
  apply (proj1 (permissions_change_needs_super_admin Installation.runtime
                  Installation.boot "guest" "restartAgent" "guest")).
  reflexivity.
Defined.

(** C5, as the claim states it, fails: the super admin [Han] grants
    [getPersona] to [alice]; the call returns [true] and changes the
    permission set of [alice], and no record of the decision is appended
    to the permission check log, to the pending audit buffer or to the
    audit table, which are all empty afterwards. *)
Lemma grant_appends_no_audit_record :
  let run :=
    grantPermission "alice" "getPersona" "Han" Installation.runtime
      Installation.boot in
  fst run = Return true /\
  gate_permissions Installation.boot !! "alice" = None /\
  gate_permissions (snd run) !! "alice" = Some [ "getPersona" ] /\
  gate_auditLog (snd run) = [] /\
  audit_pendingLogs (snd run) = [] /\
  External.auditTable (world (snd run)) = [].
Proof. vm_compute. repeat split. Qed.

(** C10.  A successful [assignRole(user, role, assignedBy)] replaces the
    permission set of the user by the permission list of the role:
    [getUserPermissions(user)] afterwards returns that list, whatever the
    user was granted before. *)
Theorem assignRole_replaces_permissions rt s user role assignedBy s' :
  assignRole user role assignedBy rt s = (Return true, s') ->
  exists roleData,
    roles !! role = Some roleData /\
    getUserPermissions user rt s' = (Return (Role.permissions roleData), s').
Proof.
  unfold assignRole, hasRole, bind, gets.
  destruct (holdsRole s assignedBy "super_admin"); simpl; [| discriminate].
  destruct (roles !! role) as [roleData |] eqn:Hrole; simpl; [| discriminate].
  intros Hrun. inversion Hrun; subst; clear Hrun.
  exists roleData. split; [reflexivity |].
  unfold getUserPermissions, bind, gets, ret. simpl.
  rewrite lookup_insert_eq. unfold JsSet.toArray.
  by rewrite (role_permissions_distinct role roleData Hrole).
Qed.

Lemma assignRole_replaces_permissions_witness :
  let run := assignRole "han" "user" "Han" Installation.runtime Installation.boot in
  run = (Return true, snd run) /\
  fst (getUserPermissions "han" Installation.runtime Installation.boot)
    = Return superAdminPermissions /\
  exists roleData,
    roles !! "user" = Some roleData /\
    getUserPermissions "han" Installation.runtime (snd run)
      = (Return (Role.permissions roleData), snd run).
Proof.
  intros run.
  assert (Hrun : run = (Return true, snd run)) by (vm_compute; reflexivity).
  split; [exact Hrun |].
  split; [vm_compute; reflexivity |].
  exact (assignRole_replaces_permissions Installation.runtime Installation.boot
           "han" "user" "Han" (snd run) Hrun).
Defined.

End PermissionAdministration.

(** ** Previews *)

Section Previews.

Import AgentExecutor.

Lemma includes_In (xs : list string) (x : string) :
  includes xs x = true <-> In x xs.
Proof.
  unfold includes. rewrite existsb_exists. split.
  - intros (y & Hy & Heq). apply String.eqb_eq in Heq. by subst.
  - intros Hx. exists x. split; [done | apply String.eqb_refl].
Qed.

Lemma analyze_kinds (input : string) (p : ExecutionPreview.t) :
  In p (analyze input) ->
  In (ExecutionPreview.action p, ExecutionPreview.requiresApproval p) previewKinds.
Proof.
  unfold analyze, analyzePluginActions, analyzeCommitActions, analyzeZhupiActions.
  intros H. split_previews H; simpl; tauto.
Qed.

(** [createPreview] returns the previews of [analyze] and leaves the state
    alone, unless the prompt builder throws. *)
Lemma createPreview_returns rt s request preview s' :
  createPreview request rt s = (Return preview, s') ->
  previews preview = analyze (ExecutionRequest.input request) /\ s' = s.
Proof.
  unfold createPreview, tryCatch, bind, ret, throw.
  destruct (buildPrompt rt _ _); simpl; intros H; inversion H; subst; done.
Qed.

Lemma createPreview_built rt s request text :
  buildPrompt rt (ExecutionRequest.input request) (ExecutionRequest.context request)
    = Return text ->
  createPreview request rt s
    = (Return (mkPreview text (analyze (ExecutionRequest.input request))
                 (existsb ExecutionPreview.requiresApproval
                    (analyze (ExecutionRequest.input request)))), s).
Proof.
  intros Hbuilt. unfold createPreview, tryCatch, bind, ret. by rewrite Hbuilt.
Qed.

Lemma high_impact_names (action : string) :
  highImpact (PermissionGate.getActionRiskLevel action) = true ->
  In action [ "restartAgent"; "clearCache"; "updateMemory"; "userManagement" ].
Proof.
  unfold PermissionGate.getActionRiskLevel. intros Hrisk.
  destruct (includes [ "restartAgent" ] action) eqn:Hcritical.
  { apply includes_In in Hcritical. simpl in *. tauto. }
  destruct (includes [ "clearCache"; "updateMemory"; "userManagement" ] action)
    eqn:Hhigh.
  { apply includes_In in Hhigh. simpl in *. tauto. }
  destruct (includes [ "systemDiagnostic"; "systemConfiguration" ] action);
    simpl in Hrisk; discriminate.
Qed.

(** C2.  For every action whose risk level is [high] or [critical],
    [PermissionGate.requiresApproval] returns [true], and every preview
    that [createPreview] generates for the action has
    [requiresApproval = true]. *)
Theorem high_impact_requires_approval (action : string) :
  highImpact (PermissionGate.getActionRiskLevel action) = true ->
  PermissionGate.requiresApproval action = true /\
  forall rt s request preview s' p,
    createPreview request rt s = (Return preview, s') ->
    In p (previews preview) ->
    ExecutionPreview.action p = action ->
    ExecutionPreview.requiresApproval p = true.
Proof.
  intros Hrisk. apply high_impact_names in Hrisk. split.
  - simpl in Hrisk. destruct Hrisk as [<- | [<- | [<- | [<- | []]]]]; reflexivity.
  - intros rt s request preview s' p Hrun Hin Haction.
    apply createPreview_returns in Hrun as [Hpreviews _].
    rewrite Hpreviews in Hin. apply analyze_kinds in Hin.
    rewrite Haction in Hin. simpl in Hin, Hrisk.
    destruct Hrisk as [<- | [<- | [<- | [<- | []]]]];
      repeat (destruct Hin as [Hkind | Hin];
              [first [ by inversion Hkind | discriminate Hkind ] |]);
      destruct Hin.
Qed.

Lemma high_impact_requires_approval_witness :
  let request :=
    ExecutionRequest.mk "Please restart agent now" "guest" "s1" JUndefined in
  let p :=
    ExecutionPreview.mk "restartAgent" ActionType.commit_api
      "Restart AI agent dan sistem terkait" (JObj []) true
      "High - System restart will affect all users" in
  highImpact (PermissionGate.getActionRiskLevel "restartAgent") = true /\
  PermissionGate.requiresApproval "restartAgent" = true /\
  In p (analyze (ExecutionRequest.input request)) /\
  ExecutionPreview.requiresApproval p = true.
Proof.
  intros request p.
  split; [reflexivity |].
  destruct (high_impact_requires_approval "restartAgent" eq_refl) as [Hgate Hpreview].
  split; [exact Hgate |].
  assert (Hin : In p (analyze (ExecutionRequest.input request))).
  { vm_compute. left. reflexivity. }
  split; [exact Hin |].
  apply (Hpreview Installation.runtime Installation.boot request _ Installation.boot p
           (createPreview_built Installation.runtime Installation.boot request
              "Please restart agent now" eq_refl));
    [exact Hin | reflexivity].
Defined.

End Previews.

(** ** The executors *)

Section Executors.

Local Open Scope Z_scope.

(** C7.  [executePlugin] of the plugin registry and [executeAction] of the
    command router always return a result and never throw.  When nothing
    is registered under the name the result is a failure that says the
    name was not found, and the outside world is untouched.  When
    [validate] rejects the parameters the result is a failure that says
    the parameters are invalid, and the capability is not run: the
    outside world is untouched.  When [validate] accepts them, or there
    is no [validate], the capability is run: the outside world is the one
    the capability leaves, with one more console line; its value is
    wrapped in a success, its exception in a failure that carries the
    message, and the time it took is the difference of the clock after
    the run and the clock at entry.  A [validate] that throws yields a
    failure with its message, and the capability is not run. *)
Theorem executors_wrap_every_outcome rt s name parameters :
  (let w := world s in
   match plugin_plugins s !! name with
   | None =>
       exists s' elapsed t,
         PluginExecutor.executePlugin name parameters rt s
           = (Return (PluginResult.mk false name JNull elapsed t
                        (Some ("Plugin '" +:+ name +:+ "' not found"))), s') /\
         world s' = w
   | Some plugin =>
       match validation (Plugin.validate plugin) parameters with
       | Return false =>
           exists s' elapsed t,
             PluginExecutor.executePlugin name parameters rt s
               = (Return (PluginResult.mk false name JNull elapsed t
                            (Some "Invalid parameters for plugin")), s') /\
             world s' = w
       | Return true =>
           match Plugin.execute plugin parameters w with
           | (Return v, w') =>
               let elapsed := External.now w' - External.now w in
               exists s',
                 PluginExecutor.executePlugin name parameters rt s
                   = (Return (PluginResult.mk true name v elapsed
                                (External.now w') None), s') /\
                 world s'
                 = withConsole w' ConsoleLog
                     ("✅ Plugin '" +:+ name +:+ "' executed successfully in "
                      +:+ pretty elapsed +:+ "ms")
           | (Throw e, w') =>
               exists s',
                 PluginExecutor.executePlugin name parameters rt s
                   = (Return (PluginResult.mk false name JNull
                                (External.now w' - External.now w)
                                (External.now w') (Some (errorMessage e))), s') /\
                 world s'
                 = withConsole w' ConsoleError
                     ("❌ Plugin '" +:+ name +:+ "' execution failed: "
                      +:+ errorMessage e)
           end
       | Throw e =>
           exists s' elapsed t,
             PluginExecutor.executePlugin name parameters rt s
               = (Return (PluginResult.mk false name JNull elapsed t
                            (Some (errorMessage e))), s') /\
             world s'
             = withConsole w ConsoleError
                 ("❌ Plugin '" +:+ name +:+ "' execution failed: "
                  +:+ errorMessage e)
       end
   end)
  /\
  (let w := world s in
   match commit_actions s !! name with
   | None =>
       exists s' elapsed t,
         CommitRouter.executeAction name parameters rt s
           = (Return (CommitResult.mk false name JNull t elapsed []
                        (Some ("Commit action '" +:+ name +:+ "' not found"))), s') /\
         world s' = w
   | Some action =>
       match validation (CommitAction.validate action) parameters with
       | Return false =>
           exists s' elapsed t,
             CommitRouter.executeAction name parameters rt s
               = (Return (CommitResult.mk false name JNull t elapsed []
                            (Some "Invalid parameters for commit action")), s') /\
             world s' = w
       | Return true =>
           match CommitAction.execute action parameters w with
           | (Return v, w') =>
               let elapsed := External.now w' - External.now w in
               exists s',
                 CommitRouter.executeAction name parameters rt s
                   = (Return (CommitResult.mk true name v (External.now w') elapsed
                                (CommitRouter.getAffectedServices name) None), s') /\
                 world s'
                 = withConsole w' ConsoleLog
                     ("✅ Commit action '" +:+ name +:+ "' executed successfully in "
                      +:+ pretty elapsed +:+ "ms")
           | (Throw e, w') =>
               exists s',
                 CommitRouter.executeAction name parameters rt s
                   = (Return (CommitResult.mk false name JNull (External.now w')
                                (External.now w' - External.now w)
                                (CommitRouter.getAffectedServices name)
                                (Some (errorMessage e))), s') /\
                 world s'
                 = withConsole w' ConsoleError
                     ("❌ Commit action '" +:+ name +:+ "' execution failed: "
                      +:+ errorMessage e)
           end
       | Throw e =>
           exists s' elapsed t,
             CommitRouter.executeAction name parameters rt s
               = (Return (CommitResult.mk false name JNull t elapsed
                            (CommitRouter.getAffectedServices name)
                            (Some (errorMessage e))), s') /\
             world s'
             = withConsole w ConsoleError
                 ("❌ Commit action '" +:+ name +:+ "' execution failed: "
                  +:+ errorMessage e)
       end
   end).
Proof.
  unfold withConsole.
  split.
  - unfold PluginExecutor.executePlugin, noteCall, dateNow, consoleWrite, bind, gets,
      modify, tryCatch, ret.
    simpl.
    destruct (plugin_plugins s !! name) as [plugin |]; simpl.
    + unfold validation, callValidate, callCapability.
      destruct (Plugin.validate plugin) as [validate |]; simpl.
      * destruct (validate parameters) as [[] | e]; simpl.
        -- destruct (Plugin.execute plugin parameters (world s)) as [[v | e] w'];
             simpl.
           ++ destruct (100 <? _)%nat; simpl; eexists; split; reflexivity.
           ++ eexists; split; reflexivity.
        -- do 3 eexists; split; reflexivity.
        -- do 3 eexists; split; reflexivity.
      * destruct (Plugin.execute plugin parameters (world s)) as [[v | e] w'];
          simpl.
        -- destruct (100 <? _)%nat; simpl; eexists; split; reflexivity.
        -- eexists; split; reflexivity.
    + do 3 eexists; split; reflexivity.
  - unfold CommitRouter.executeAction, noteCall, dateNow, consoleWrite, bind, gets,
      modify, tryCatch, ret.
    simpl.
    destruct (commit_actions s !! name) as [action |]; simpl.
    + unfold validation, callValidate, callCapability.
      destruct (CommitAction.validate action) as [validate |]; simpl.
      * destruct (validate parameters) as [[] | e]; simpl.
        -- destruct (CommitAction.execute action parameters (world s))
             as [[v | e] w']; simpl.
           ++ destruct (100 <? _)%nat; simpl; eexists; split; reflexivity.
           ++ eexists; split; reflexivity.
        -- do 3 eexists; split; reflexivity.
        -- do 3 eexists; split; reflexivity.
      * destruct (CommitAction.execute action parameters (world s))
          as [[v | e] w']; simpl.
        -- destruct (100 <? _)%nat; simpl; eexists; split; reflexivity.
        -- eexists; split; reflexivity.
    + do 3 eexists; split; reflexivity.
Qed.

Local Close Scope Z_scope.

Lemma sliceLast_length {A : Type} (n : nat) (xs : list A) :
  (0 < n)%nat -> (length (sliceLast n xs) <= n)%nat.
Proof.
  intros Hn. unfold sliceLast. destruct n as [| k]; [lia |].
  rewrite length_skipn. lia.
Qed.

(** The path of [executePlugin] that pushes a success trims the history:
    afterwards it holds at most 100 entries, whatever it held before. *)
Lemma executePlugin_success_trims rt s name parameters plugin v w' :
  plugin_plugins s !! name = Some plugin ->
  validation (Plugin.validate plugin) parameters = Return true ->
  Plugin.execute plugin parameters (world s) = (Return v, w') ->
  (length (plugin_executionHistory
             (snd (PluginExecutor.executePlugin name parameters rt s))) <= 100)%nat.
Proof.
  intros Hplugin Hvalid Hrun.
  unfold PluginExecutor.executePlugin, noteCall, dateNow, bind, gets, modify,
    tryCatch, ret.
  simpl. rewrite Hplugin. simpl.
  unfold validation in Hvalid. unfold callValidate, callCapability.
  destruct (Plugin.validate plugin) as [validate |]; simpl;
    [rewrite Hvalid; simpl |]; rewrite Hrun; simpl;
    (destruct (100 <? _)%nat eqn:Hcap; simpl;
     [ apply (Nat.le_trans _ 50); [apply (sliceLast_length 50); lia | lia]
     | apply Nat.ltb_ge in Hcap; exact Hcap ]).
Qed.

(** The path that pushes a failure does not: the history grows by one
    entry, whatever its length. *)
Lemma executePlugin_failure_grows rt s name parameters plugin e w' :
  plugin_plugins s !! name = Some plugin ->
  validation (Plugin.validate plugin) parameters = Return true ->
  Plugin.execute plugin parameters (world s) = (Throw e, w') ->
  plugin_executionHistory (snd (PluginExecutor.executePlugin name parameters rt s))
    = plugin_executionHistory s ++
      [ PluginResult.mk false name JNull
          (External.now w' - External.now (world s))%Z (External.now w')
          (Some (errorMessage e)) ].
Proof.
  intros Hplugin Hvalid Hrun.
  unfold PluginExecutor.executePlugin, noteCall, dateNow, bind, gets, modify,
    tryCatch, ret.
  simpl. rewrite Hplugin. simpl.
  unfold validation in Hvalid. unfold callValidate, callCapability.
  destruct (Plugin.validate plugin) as [validate |]; simpl;
    [rewrite Hvalid; simpl |]; rewrite Hrun; reflexivity.
Qed.

(** [executePlugin] always returns and keeps the registry. *)
Lemma executePlugin_returns rt s name parameters :
  exists r s',
    PluginExecutor.executePlugin name parameters rt s = (Return r, s') /\
    plugin_plugins s' = plugin_plugins s.
Proof.
  unfold PluginExecutor.executePlugin, noteCall, dateNow, callValidate,
    callCapability, consoleWrite, bind, gets, modify, tryCatch, ret.
  simpl.
  destruct (plugin_plugins s !! name) as [plugin |]; simpl;
    [| eexists; eexists; split; reflexivity].
  destruct (Plugin.validate plugin) as [validate |]; simpl;
    [destruct (validate parameters) as [[] | e]; simpl |];
    try (destruct (Plugin.execute plugin parameters (world s)) as [[v | e] w'];
         simpl; try (destruct (100 <? _)%nat; simpl));
    eexists; eexists; split; reflexivity.
Qed.

(** With a capability that throws whatever the outside world is, [n] calls
    add [n] entries to the history: it grows without bound. *)
Lemma failures_accumulate rt name parameters plugin e (n : nat) :
  validation (Plugin.validate plugin) parameters = Return true ->
  (forall w, Plugin.execute plugin parameters w = (Throw e, w)) ->
  forall s,
    plugin_plugins s !! name = Some plugin ->
    length (plugin_executionHistory
              (snd (times n (PluginExecutor.executePlugin name parameters) rt s)))
    = (length (plugin_executionHistory s) + n)%nat.
Proof.
  intros Hvalid Hthrows.
  induction n as [| k IH]; intros s Hplugin; simpl.
  - lia.
  - pose proof (executePlugin_failure_grows rt s name parameters plugin e (world s)
                  Hplugin Hvalid (Hthrows (world s))) as Hgrow.
    destruct (executePlugin_returns rt s name parameters) as (r & s1 & Hrun & Hsame).
    unfold bind. rewrite Hrun in Hgrow |- *. simpl in Hgrow.
    rewrite IH by congruence.
    rewrite Hgrow, length_app. simpl. lia.
Qed.

(** C9, on the code: the summarizer is registered and the language model
    cannot be reached, so every call of
    [executePlugin('pluginSummarizer', {text: 'a long text'})] ends in the
    [catch] clause.  After 101 such calls on a fresh executor the
    execution history holds 101 entries. *)
Theorem failures_overflow_execution_history :
  length
    (plugin_executionHistory
       (snd (times 101
               (PluginExecutor.executePlugin "pluginSummarizer"
                  (JObj [ ("text", JStr "a long text") ]))
               Installation.runtime Installation.boot)))
  = 101%nat.
Proof. vm_compute. reflexivity. Qed.

End Executors.

(** ** The audit logger *)

Section Auditing.

Import AuditLogger.

(** C8, as the code has it.  A [logAction] call whose level is [error] or
    [critical] returns the id of its record after one attempt to write the
    pending buffer to the audit table.  When the table accepts the write,
    the records that were pending and the new record are in the table, in
    this order, and the buffer is empty.  When the table rejects the
    write, the table is unchanged and the buffer holds the records that
    were pending followed by the new record, for a later attempt. *)
Theorem severe_record_flushed_at_once rt s actor action result options :
  isSevere (recordLevel options action result) = true ->
  exists id record s',
    logAction actor action result options rt s = (Return id, s') /\
    AuditLog.id record = id /\
    AuditLog.actor record = actor /\
    AuditLog.action record = action /\
    AuditLog.result record = result /\
    AuditLog.level record = recordLevel options action result /\
    if External.auditTableWritable (world s)
    then External.auditTable (world s')
           = External.auditTable (world s) ++ audit_pendingLogs s ++ [record] /\
         audit_pendingLogs s' = []
    else External.auditTable (world s') = External.auditTable (world s) /\
         audit_pendingLogs s' = audit_pendingLogs s ++ [record].
Proof.
  unfold recordLevel. intros Hsevere.
  unfold logAction, logToConsole, flushLogs, createMany, mathRandom36, dateNow,
    consoleWrite, asks, bind, gets, modify, tryCatch, ret.
  simpl. rewrite Hsevere. simpl.
  destruct (length (audit_pendingLogs s ++ _) =? 0)%nat eqn:Hempty.
  { apply Nat.eqb_eq in Hempty. rewrite length_app in Hempty. simpl in Hempty. lia. }
  simpl.
  pose (record :=
    AuditLog.mk
      ("audit_" +:+ pretty (External.now (world s)) +:+ "_"
       +:+ random36 rt (External.randomDraws (world s)))
      actor action
      (match input options with
       | Some v => if truthy v then v else JNull
       | None => JNull
       end)
      result (External.now (world s)) (sessionId options) (executionId options)
      (default (inferCategory action) (category options))
      (default (inferLevel action result) (level options))
      (metadata options) (ipAddress options) (userAgent options)).
  exists (AuditLog.id record), record.
  destruct (External.auditTableWritable (world s)); simpl.
  - eexists. split; [reflexivity |]. simpl. repeat split.
  - eexists. split; [reflexivity |]. simpl. rewrite app_nil_r. repeat split.
Qed.

Lemma severe_record_flushed_at_once_witness :
  isSevere (recordLevel noOptions "clearCache" (ExecutionFailed "exec_1" "disk full"))
    = true /\
  exists id record s',
    logAction "Han" "clearCache" (ExecutionFailed "exec_1" "disk full") noOptions
      Installation.runtime Installation.boot = (Return id, s') /\
    AuditLog.level record = Level.error /\
    External.auditTable (world s') = [ record ] /\
    audit_pendingLogs s' = [].
Proof.
  split; [reflexivity |].
  destruct (severe_record_flushed_at_once Installation.runtime Installation.boot
              "Han" "clearCache" (ExecutionFailed "exec_1" "disk full") noOptions
              eq_refl)
    as (id & record & s' & Hrun & _ & _ & _ & _ & Hlevel & Htable & Hpending).
  exists id, record, s'. repeat split; assumption.
Defined.

(** C8, as the claim states it, fails: the database rejects writes and
    [logAction] is called for a failed execution, which is of level
    [error].  When the call returns, the audit table is still empty and
    the record is in the pending buffer in memory. *)
Lemma severe_record_not_durable_when_write_rejected :
  let run :=
    logAction "Han" "clearCache" (ExecutionFailed "exec_1" "disk full") noOptions
      Installation.runtime Installation.bootDatabaseDown in
  fst run = Return "audit_1700000000000_r0" /\
  map AuditLog.id (audit_pendingLogs (snd run)) = [ "audit_1700000000000_r0" ] /\
  map AuditLog.level (audit_pendingLogs (snd run)) = [ Level.error ] /\
  External.auditTable (world (snd run)) = [].
Proof. vm_compute. repeat split. Qed.

(** A flush with an audit table that accepts writes moves the pending
    records to the table: this is what a later tick of the timer does
    with records a rejected write has put back. *)
Lemma flushLogs_moves_pending rt s :
  External.auditTableWritable (world s) = true ->
  exists s',
    timerTick rt s = (Return tt, s') /\
    External.auditTable (world s') = External.auditTable (world s) ++ audit_pendingLogs s /\
    audit_pendingLogs s' = [].
Proof.
  intros Hup.
  unfold timerTick, flushLogs, createMany, consoleWrite, bind, gets, modify,
    tryCatch, ret.
  simpl.
  destruct (length (audit_pendingLogs s) =? 0)%nat eqn:Hempty; simpl.
  - apply Nat.eqb_eq in Hempty. apply nil_length_inv in Hempty.
    exists s. rewrite Hempty, app_nil_r. done.
  - rewrite Hup. simpl. eexists. split; [reflexivity |]. done.
Qed.

(** Every [logAction] call returns and adds its record at the end of the
    audit trail, flushed or not. *)
Lemma logAction_appends rt s actor action result options :
  exists id record s',
    logAction actor action result options rt s = (Return id, s') /\
    auditTrail s' = auditTrail s ++ [record] /\
    AuditLog.actor record = actor /\
    AuditLog.action record = action /\
    AuditLog.result record = result.
Proof.
  pose (record :=
    AuditLog.mk
      ("audit_" +:+ pretty (External.now (world s)) +:+ "_"
       +:+ random36 rt (External.randomDraws (world s)))
      actor action
      (match input options with
       | Some v => if truthy v then v else JNull
       | None => JNull
       end)
      result (External.now (world s)) (sessionId options) (executionId options)
      (default (inferCategory action) (category options))
      (default (inferLevel action result) (level options))
      (metadata options) (ipAddress options) (userAgent options)).
  exists (AuditLog.id record), record.
  unfold logAction, logToConsole, flushLogs, createMany, mathRandom36, dateNow,
    consoleWrite, asks, bind, gets, modify, tryCatch, ret, auditTrail.
  simpl.
  destruct (isSevere _); simpl.
  - destruct (length _ =? 0)%nat; simpl.
    + eexists. split; [reflexivity |]. simpl. by rewrite app_assoc.
    + destruct (External.auditTableWritable (world s)); simpl.
      * eexists. split; [reflexivity |]. simpl.
        by rewrite app_nil_r, app_assoc.
      * eexists. split; [reflexivity |]. simpl.
        by rewrite app_nil_r, app_assoc.
  - eexists. split; [reflexivity |]. simpl. by rewrite app_assoc.
Qed.

End Auditing.

(** ** Execution of approved actions *)

Section Execution.

Import AgentExecutor.

Lemma dateNow_quiet : quiet dateNow.
Proof. intros rt s. by exists (External.now (world s)), s. Qed.

Lemma logAction_quiet actor action result options :
  quiet (AuditLogger.logAction actor action result options).
Proof.
  intros rt s.
  unfold AuditLogger.logAction, AuditLogger.logToConsole, AuditLogger.flushLogs,
    AuditLogger.createMany, mathRandom36, dateNow, consoleWrite, asks, bind, gets,
    modify, tryCatch, ret.
  simpl.
  destruct (AuditLogger.isSevere _); simpl.
  - destruct (length _ =? 0)%nat; simpl.
    + eexists. eexists. split; [reflexivity |]. split; reflexivity.
    + destruct (External.auditTableWritable (world s)); simpl;
        eexists; eexists; (split; [reflexivity |]); split; reflexivity.
  - eexists. eexists. split; [reflexivity |]. split; reflexivity.
Qed.

Lemma isAuthorized_run rt s action user :
  exists s',
    PermissionGate.isAuthorized action user rt s = (Return (permits s action user), s') /\
    gate_permissions s' = gate_permissions s /\
    calls s' = calls s.
Proof.
  unfold PermissionGate.isAuthorized, PermissionGate.logPermission, permits,
    dateNow, consoleWrite, bind, gets, modify, ret.
  simpl.
  destruct (gate_permissions s !! user) as [userPermissions |]; simpl;
    destruct (1000 <? _)%nat; simpl;
    eexists; (split; [reflexivity |]); split; reflexivity.
Qed.

(** Whatever an executor answers, the permission map is kept and the call
    is noted once. *)
Lemma dispatch_run rt s preview :
  exists o s',
    dispatch preview rt s = (o, s') /\
    gate_permissions s' = gate_permissions s /\
    calls s' = calls s ++ [callOf preview].
Proof.
  unfold dispatch, callOf.
  destruct preview as [action type description parameters approval impact].
  simpl. destruct type.
  - unfold PluginExecutor.executePlugin, noteCall, dateNow, callValidate,
      callCapability, consoleWrite, bind, gets, modify, tryCatch, ret.
    simpl.
    destruct (plugin_plugins s !! action) as [plugin |]; simpl;
      [| eexists; eexists; (split; [reflexivity |]); split; reflexivity].
    destruct (Plugin.validate plugin) as [validate |]; simpl;
      [destruct (validate parameters) as [[] | e]; simpl |];
      try (destruct (Plugin.execute plugin parameters (world s)) as [[v | e] w'];
           simpl; try (destruct (100 <? _)%nat; simpl));
      eexists; eexists; (split; [reflexivity |]); split; reflexivity.
  - unfold CommitRouter.executeAction, noteCall, dateNow, callValidate,
      callCapability, consoleWrite, bind, gets, modify, tryCatch, ret.
    simpl.
    destruct (commit_actions s !! action) as [entry |]; simpl;
      [| eexists; eexists; (split; [reflexivity |]); split; reflexivity].
    destruct (CommitAction.validate entry) as [validate |]; simpl;
      [destruct (validate parameters) as [[] | e]; simpl |];
      try (destruct (CommitAction.execute entry parameters (world s))
             as [[v | e] w'];
           simpl; try (destruct (100 <? _)%nat; simpl));
      eexists; eexists; (split; [reflexivity |]); split; reflexivity.
  - unfold ZhupiAdapter.executeAction, noteCall, dateNow, callValidate,
      callCapability, consoleWrite, bind, gets, modify, tryCatch, ret.
    simpl.
    destruct (zhupi_actions s !! action) as [entry |]; simpl;
      [| eexists; eexists; (split; [reflexivity |]); split; reflexivity].
    destruct (ZhupiAction.validate entry) as [validate |]; simpl;
      [destruct (validate parameters) as [[] | e]; simpl |];
      try (destruct (ZhupiAction.execute entry parameters (world s))
             as [[v | e] w'];
           simpl; try (destruct (100 <? _)%nat; simpl));
      eexists; eexists; (split; [reflexivity |]); split; reflexivity.
  - unfold executeInternalAction, noteCall, dateNow, asks, bind, gets, modify,
      throw, ret.
    simpl.
    destruct (String.eqb action "systemDiagnostic"); simpl;
      [| destruct (String.eqb action "healthCheck"); simpl];
      eexists; eexists; (split; [reflexivity |]); split; reflexivity.
Qed.

Local Opaque PermissionGate.isAuthorized dispatch AuditLogger.logAction.

(** One turn of the loop never throws and does what [turnOf] says. *)
Lemma executePreview_run rt s results request approvedActions executionId preview :
  exists s' added,
    executePreview request approvedActions executionId preview rt (s, results)
      = (Return tt, (s', results ++ added)) /\
    turnOf request approvedActions executionId preview s s' added.
Proof.
  unfold executePreview, turnOf.
  destruct (includes approvedActions (ExecutionPreview.action preview)); simpl;
    [| exists s, []; rewrite app_nil_r; done].
  destruct (isAuthorized_run rt s (ExecutionPreview.action preview)
              (ExecutionRequest.user request)) as (s1 & Hgate & Hperm1 & Hcalls1).
  unfold bind at 1. unfold call at 1. simpl. rewrite Hgate. simpl.
  destruct (permits s (ExecutionPreview.action preview)
              (ExecutionRequest.user request)); simpl.
  - destruct (dispatch_run rt s1 preview) as (o & s2 & Hdispatch & Hperm2 & Hcalls2).
    unfold tryCatch, bind, call, setLocal, modify, dateNow, gets, ret. simpl.
    rewrite Hdispatch. destruct o as [result | error]; simpl.
    + destruct (logAction_quiet (ExecutionRequest.user request)
                  (ExecutionPreview.action preview)
                  (ExecutionSucceeded executionId result) AuditLogger.noOptions
                  rt s2) as (id & s3 & Hlog & Hperm3 & Hcalls3).
      rewrite Hlog. simpl.
      eexists. eexists. split; [reflexivity |].
      split; [congruence |]. split; [congruence |].
      eexists. repeat split.
    + destruct (logAction_quiet (ExecutionRequest.user request)
                  (ExecutionPreview.action preview)
                  (ExecutionFailed executionId (errorMessage error))
                  AuditLogger.noOptions rt s2) as (id & s3 & Hlog & Hperm3 & Hcalls3).
      rewrite Hlog. simpl.
      eexists. eexists. split; [reflexivity |].
      split; [congruence |]. split; [congruence |].
      eexists. repeat split.
  - unfold bind, call, setLocal, modify, dateNow, gets, ret. simpl.
    eexists. eexists. split; [reflexivity |].
    split; [congruence |]. split; [congruence |].
    eexists. reflexivity.
Qed.

Lemma permits_same_permissions s s' action user :
  gate_permissions s' = gate_permissions s ->
  permits s' action user = permits s action user.
Proof. unfold permits. by intros ->. Qed.

(** The loop never throws and does what [loopOf] says. *)
Lemma forEach_run rt request approvedActions executionId previews :
  forall s results,
  exists s' added new,
    forEach previews (executePreview request approvedActions executionId) rt
      (s, results) = (Return tt, (s', results ++ added)) /\
    loopOf request approvedActions executionId previews s s' added new.
Proof.
  induction previews as [| preview rest IH]; intros s results.
  - exists s, [], []. unfold loopOf. simpl. rewrite !app_nil_r.
    repeat split; try done; intros ? [].
  - destruct (executePreview_run rt s results request approvedActions executionId
                preview) as (s1 & added1 & Hturn & Hperm1 & Hfacts).
    destruct (IH s1 (results ++ added1))
      as (s2 & added2 & new2 & Hloop & Hperm2 & Hcalls2 & Hnames2 & Hnew2 & Hdenied2).
    simpl. unfold bind at 1. rewrite Hturn. rewrite Hloop.
    assert (Hsame : forall a,
              permits s1 a (ExecutionRequest.user request)
              = permits s a (ExecutionRequest.user request)).
    { intros a. by apply permits_same_permissions. }
    unfold loopOf. simpl.
    destruct (includes approvedActions (ExecutionPreview.action preview)) eqn:Happroved.
    + destruct (permits s (ExecutionPreview.action preview)
                  (ExecutionRequest.user request)) eqn:Hpermits.
      * destruct Hfacts as (Hcalls1 & r & -> & Hr & _).
        exists s2, ([r] ++ added2), ([callOf preview] ++ new2).
        rewrite <- app_assoc. split; [reflexivity |].
        split; [congruence |].
        split; [rewrite Hcalls2, Hcalls1, <- app_assoc; reflexivity |].
        split; [simpl; rewrite Hr, Hnames2; reflexivity |].
        split.
        -- intros c [<- | Hc].
           ++ exists preview. repeat split; auto.
           ++ destruct (Hnew2 c Hc) as (p & Hp & -> & Ha & Hb).
              exists p. rewrite Hsame in Hb. repeat split; auto.
        -- intros p [<- | Hp] Ha Hb; [congruence |].
           rewrite <- Hsame in Hb.
           destruct (Hdenied2 p Hp Ha Hb) as (t & Ht).
           exists t. right. exact Ht.
      * destruct Hfacts as (Hcalls1 & t1 & ->).
        exists s2, ([unauthorizedResult (ExecutionPreview.action preview)
                      executionId t1] ++ added2), new2.
        rewrite <- app_assoc. split; [reflexivity |].
        split; [congruence |].
        split; [rewrite Hcalls2, Hcalls1; reflexivity |].
        split; [simpl; rewrite Hnames2; reflexivity |].
        split.
        -- intros c Hc.
           destruct (Hnew2 c Hc) as (p & Hp & -> & Ha & Hb).
           exists p. rewrite Hsame in Hb. repeat split; auto.
        -- intros p [<- | Hp] Ha Hb.
           ++ exists t1. left. reflexivity.
           ++ rewrite <- Hsame in Hb.
              destruct (Hdenied2 p Hp Ha Hb) as (t & Ht).
              exists t. right. exact Ht.
    + destruct Hfacts as (Hcalls1 & ->).
      exists s2, added2, new2.
      rewrite app_nil_r in Hloop |- *. split; [reflexivity |].
      split; [congruence |].
      split; [rewrite Hcalls2, Hcalls1; reflexivity |].
      split; [exact Hnames2 |].
      split.
      * intros c Hc.
        destruct (Hnew2 c Hc) as (p & Hp & -> & Ha & Hb).
        exists p. rewrite Hsame in Hb. repeat split; auto.
      * intros p [<- | Hp] Ha Hb; [congruence |].
        rewrite <- Hsame in Hb. exact (Hdenied2 p Hp Ha Hb).
Qed.

Local Opaque createPreview.

(** When the prompt builder returns, [execute] returns the results pushed
    by the loop over the previews of [createPreview]. *)
Lemma execute_run rt s request approvedActions text :
  buildPrompt rt (ExecutionRequest.input request) (ExecutionRequest.context request)
    = Return text ->
  exists results s' s0 executionId new,
    execute request approvedActions rt s = (Return results, s') /\
    gate_permissions s0 = gate_permissions s /\
    calls s0 = calls s /\
    loopOf request approvedActions executionId
      (analyze (ExecutionRequest.input request)) s0 s' results new.
Proof.
  intros Hbuilt.
  unfold execute, withLocal, tryCatch, bind, call, getLocal, dateNow, mathRandom36,
    gets.
  simpl.
  match goal with
  | |- context [AuditLogger.logAction ?a ?b ?c ?d rt ?st] =>
      destruct (logAction_quiet a b c d rt st) as (id & s0 & Hlog & Hperm0 & Hcalls0)
  end.
  rewrite Hlog. simpl.
  rewrite (createPreview_built rt s0 request text Hbuilt). simpl.
  match goal with
  | |- context [forEach _ (executePreview _ _ ?e) rt _] =>
      destruct (forEach_run rt request approvedActions e
                  (analyze (ExecutionRequest.input request)) s0 [])
        as (s' & added & new & Hloop & Hfacts)
  end.
  rewrite Hloop. simpl.
  eexists. eexists. exists s0. eexists. exists new.
  split; [reflexivity |].
  split; [exact Hperm0 |]. split; [exact Hcalls0 |]. exact Hfacts.
Qed.

Lemma isAuthorized_answer rt s action user :
  fst (PermissionGate.isAuthorized action user rt s) = Return (permits s action user).
Proof.
  destruct (isAuthorized_run rt s action user) as (s' & Hrun & _).
  by rewrite Hrun.
Qed.

(** The action names of the previews are distinct: each of the seven
    names is proposed at most once, in the order of [previewKinds]. *)
Lemma analyze_names_sublist (input : string) :
  map ExecutionPreview.action (analyze input) `sublist_of` map fst previewKinds.
Proof.
  unfold analyze, analyzePluginActions, analyzeCommitActions, analyzeZhupiActions.
  rewrite !map_app.
  change (map fst previewKinds)
    with (([ "pluginSummarizer" ] ++ [ "pluginTranslator" ] ++ [ "pluginGitHubStorage" ])
          ++ ([ "restartAgent" ] ++ [ "clearCache" ])
          ++ ([ "getPersona" ] ++ [ "updateMemory" ])).
  repeat apply sublist_app;
    repeat match goal with
           | |- context [if ?c then _ else _] => destruct c
           end;
    simpl; repeat constructor.
Qed.

Lemma List_filter_sublist {A : Type} (f : A -> bool) (l : list A) :
  List.filter f l `sublist_of` l.
Proof.
  induction l as [| x l IH]; simpl; [constructor |].
  destruct (f x); by constructor.
Qed.

Lemma approved_preview_names_distinct (approvedActions : list string) (input : string) :
  NoDup (List.filter (includes approvedActions)
           (map ExecutionPreview.action (analyze input))).
Proof.
  eapply sublist_NoDup; [| apply List_filter_sublist].
  eapply sublist_NoDup; [| apply analyze_names_sublist].
  apply NoDup_ListNoDup. simpl.
  repeat (constructor; [simpl; intuition discriminate |]). constructor.
Qed.

(** C1.  Whenever [execute] gets as far as its previews, it returns, and
    for every previewed action whose name is in [approvedActions] and for
    which [PermissionGate.isAuthorized] answers [false], the results hold
    a failed [ExecutionResult] for the action that says
    [Unauthorized action], and none of the calls made to the plugin
    executor, the commit router, the Zhupi adapter or the internal
    dispatch during the execution is for that action. *)
Theorem denied_action_is_never_dispatched rt s request approvedActions text :
  buildPrompt rt (ExecutionRequest.input request) (ExecutionRequest.context request)
    = Return text ->
  exists results s' new,
    execute request approvedActions rt s = (Return results, s') /\
    calls s' = calls s ++ new /\
    forall preview,
      In preview (analyze (ExecutionRequest.input request)) ->
      includes approvedActions (ExecutionPreview.action preview) = true ->
      fst (PermissionGate.isAuthorized (ExecutionPreview.action preview)
             (ExecutionRequest.user request) rt s) = Return false ->
      (exists r,
         In r results /\
         ExecutionResult.success r = false /\
         ExecutionResult.action r = ExecutionPreview.action preview /\
         ExecutionResult.result r
           = OfValue (JObj [ ("error", JStr "Unauthorized action") ]) /\
         ExecutionResult.auditLog r
           = "Action " +:+ ExecutionPreview.action preview
             +:+ " rejected by permission gate") /\
      (forall c, In c new -> callName c <> ExecutionPreview.action preview).
Proof.
  intros Hbuilt.
  destruct (execute_run rt s request approvedActions text Hbuilt)
    as (results & s' & s0 & executionId & new & Hrun & Hperm0 & Hcalls0
        & _ & Hcalls & _ & Hnew & Hdenied).
  exists results, s', new.
  split; [exact Hrun |]. split; [congruence |].
  intros preview Hin Happroved Hanswer.
  rewrite isAuthorized_answer in Hanswer.
  assert (Hpermits : permits s0 (ExecutionPreview.action preview)
                       (ExecutionRequest.user request) = false).
  { rewrite (permits_same_permissions s s0 _ _ Hperm0). congruence. }
  split.
  - destruct (Hdenied preview Hin Happroved Hpermits) as (t & Ht).
    eexists. split; [exact Ht |]. repeat split.
  - intros c Hc Hname.
    destruct (Hnew c Hc) as (p & _ & -> & _ & Hp).
    unfold callOf, callName in Hname. congruence.
Qed.

Lemma denied_action_is_never_dispatched_witness :
  let request :=
    ExecutionRequest.mk "Please restart agent now" "guest" "s1" JUndefined in
  let preview :=
    ExecutionPreview.mk "restartAgent" ActionType.commit_api
      "Restart AI agent dan sistem terkait" (JObj []) true
      "High - System restart will affect all users" in
  buildPrompt Installation.runtime (ExecutionRequest.input request)
    (ExecutionRequest.context request) = Return "Please restart agent now" /\
  In preview (analyze (ExecutionRequest.input request)) /\
  fst (PermissionGate.isAuthorized "restartAgent" "guest" Installation.runtime
         Installation.boot) = Return false /\
  exists results s' new,
    execute request [ "restartAgent" ] Installation.runtime Installation.boot
      = (Return results, s') /\
    calls s' = calls Installation.boot ++ new /\
    (exists r,
       In r results /\
       ExecutionResult.success r = false /\
       ExecutionResult.action r = "restartAgent") /\
    (forall c, In c new -> callName c <> "restartAgent").
Proof.
  intros request preview.
  assert (Hin : In preview (analyze (ExecutionRequest.input request))).
  { vm_compute. left. reflexivity. }
  assert (Hdenied : fst (PermissionGate.isAuthorized "restartAgent" "guest"
                           Installation.runtime Installation.boot) = Return false).
  { vm_compute. reflexivity. }
  split; [reflexivity |]. split; [exact Hin |]. split; [exact Hdenied |].
  destruct (denied_action_is_never_dispatched Installation.runtime Installation.boot
              request [ "restartAgent" ] "Please restart agent now" eq_refl)
    as (results & s' & new & Hrun & Hcalls & Hall).
  exists results, s', new.
  split; [exact Hrun |]. split; [exact Hcalls |].
  destruct (Hall preview Hin eq_refl Hdenied) as [(r & Hr & Hfail & Hname & _) Hnone].
  split; [exists r; repeat split; assumption | exact Hnone].
Defined.

(** C4, as the code has it.  Whenever [execute] gets as far as its
    previews, it returns one result for each previewed action whose name
    is in [approvedActions], in the order in which [createPreview] lists
    the previews (plugin actions, then commit actions, then Zhupi
    actions), whatever the order of [approvedActions]; the names of the
    results are distinct, and a name of [approvedActions] that matches no
    previewed action has no result. *)
Theorem results_follow_preview_order rt s request approvedActions text :
  buildPrompt rt (ExecutionRequest.input request) (ExecutionRequest.context request)
    = Return text ->
  exists results s',
    execute request approvedActions rt s = (Return results, s') /\
    map ExecutionResult.action results
      = List.filter (includes approvedActions)
          (map ExecutionPreview.action (analyze (ExecutionRequest.input request))) /\
    NoDup (map ExecutionResult.action results).
Proof.
  intros Hbuilt.
  destruct (execute_run rt s request approvedActions text Hbuilt)
    as (results & s' & s0 & executionId & new & Hrun & _ & _ & _ & _ & Hnames & _).
  exists results, s'.
  split; [exact Hrun |]. split; [exact Hnames |].
  rewrite Hnames. apply approved_preview_names_distinct.
Qed.

Lemma results_follow_preview_order_witness :
  let request :=
    ExecutionRequest.mk "Clear cache, then restart agent" "Han" "s1" JUndefined in
  buildPrompt Installation.runtime (ExecutionRequest.input request)
    (ExecutionRequest.context request) = Return "Clear cache, then restart agent" /\
  exists results s',
    execute request [ "clearCache"; "restartAgent"; "dropDatabase" ]
      Installation.runtime Installation.boot = (Return results, s') /\
    map ExecutionResult.action results = [ "restartAgent"; "clearCache" ].
Proof.
  intros request. split; [reflexivity |].
  destruct (results_follow_preview_order Installation.runtime Installation.boot
              request [ "clearCache"; "restartAgent"; "dropDatabase" ]
              "Clear cache, then restart agent" eq_refl)
    as (results & s' & Hrun & Hnames & _).
  exists results, s'. split; [exact Hrun |].
  rewrite Hnames. vm_compute. reflexivity.
Defined.

(** C4, as the claim states it, fails: [Han] asks to clear the cache and
    then to restart the agent and approves the two actions in this order.
    Both run, and the results come back with [restartAgent] first. *)
Lemma results_not_in_approval_order :
  let request :=
    ExecutionRequest.mk "Clear cache, then restart agent" "Han" "s1" JUndefined in
  let approvedActions := [ "clearCache"; "restartAgent" ] in
  match fst (execute request approvedActions Installation.runtime Installation.boot) with
  | Return results =>
      map (fun r => (ExecutionResult.action r, ExecutionResult.success r)) results
        = [ ("restartAgent", true); ("clearCache", true) ] /\
      map ExecutionResult.action results <> approvedActions
  | Throw _ => False
  end.
Proof. vm_compute. split; [reflexivity | discriminate]. Qed.

(** The two branches of the loop that follow an accepted authorization
    check both end with a [logAction] call: when the turn is over, the
    last record of the audit trail is the one of the result just pushed. *)
Lemma executed_outcome_is_logged rt s results request approvedActions executionId
    preview :
  includes approvedActions (ExecutionPreview.action preview) = true ->
  permits s (ExecutionPreview.action preview) (ExecutionRequest.user request) = true ->
  exists s' r record,
    executePreview request approvedActions executionId preview rt (s, results)
      = (Return tt, (s', results ++ [r])) /\
    last (auditTrail s') = Some record /\
    AuditLog.actor record = ExecutionRequest.user request /\
    AuditLog.action record = ExecutionPreview.action preview /\
    ((ExecutionResult.success r = true /\
      AuditLog.result record
        = ExecutionSucceeded executionId (ExecutionResult.result r)) \/
     (ExecutionResult.success r = false /\
      exists message,
        AuditLog.result record = ExecutionFailed executionId message /\
        ExecutionResult.result r = OfValue (JObj [ ("error", JStr message) ]))).
Proof.
  intros Happroved Hpermits.
  unfold executePreview. rewrite Happroved. simpl.
  destruct (isAuthorized_run rt s (ExecutionPreview.action preview)
              (ExecutionRequest.user request)) as (s1 & Hgate & _ & _).
  unfold bind at 1. unfold call at 1. simpl. rewrite Hgate, Hpermits. simpl.
  destruct (dispatch_run rt s1 preview) as (o & s2 & Hdispatch & _ & _).
  unfold tryCatch, bind, call, setLocal, modify, dateNow, gets, ret. simpl.
  rewrite Hdispatch. destruct o as [result | error]; simpl.
  - destruct (logAction_appends rt s2 (ExecutionRequest.user request)
                (ExecutionPreview.action preview)
                (ExecutionSucceeded executionId result) AuditLogger.noOptions)
      as (id & record & s3 & Hlog & Htrail & Hactor & Haction & Hresult).
    rewrite Hlog. simpl.
    eexists. eexists. exists record. split; [reflexivity |].
    split; [rewrite Htrail; apply last_snoc |].
    split; [exact Hactor |]. split; [exact Haction |].
    left. split; [reflexivity | exact Hresult].
  - destruct (logAction_appends rt s2 (ExecutionRequest.user request)
                (ExecutionPreview.action preview)
                (ExecutionFailed executionId (errorMessage error))
                AuditLogger.noOptions)
      as (id & record & s3 & Hlog & Htrail & Hactor & Haction & Hresult).
    rewrite Hlog. simpl.
    eexists. eexists. exists record. split; [reflexivity |].
    split; [rewrite Htrail; apply last_snoc |].
    split; [exact Hactor |]. split; [exact Haction |].
    right. split; [reflexivity |].
    exists (errorMessage error). split; [exact Hresult | reflexivity].
Qed.

(** C3, on the code: [guest], who has no permission set, asks to restart
    the agent and approves [restartAgent].  [execute] returns one failed
    result for [restartAgent], and the only audit record written, pending
    or in the table, is the one of the start of the execution, whose
    action is the input text: no record is written for the denied
    result. *)
Theorem denied_outcome_leaves_no_audit_record :
  let request := ExecutionRequest.mk "restart agent" "guest" "s1" JUndefined in
  let run := execute request [ "restartAgent" ] Installation.runtime Installation.boot in
  let records := External.auditTable (world (snd run)) ++ audit_pendingLogs (snd run) in
  match fst run with
  | Return results =>
      map (fun r => (ExecutionResult.action r, ExecutionResult.success r)) results
        = [ ("restartAgent", false) ]
  | Throw _ => False
  end /\
  map AuditLog.action records = [ "restart agent" ] /\
  map AuditLog.result records
    = [ ExecutionStart "exec_1700000000000_r0" [ "restartAgent" ] ].
Proof. vm_compute. repeat split. Qed.

End Execution.

(** * Further properties of the permission gate *)

Section GateChecks.

Import PermissionGate.

Lemma has_add_same (ps : JsSet.t) (x : string) :
  JsSet.has (JsSet.add ps x) x = true.
Proof.
  unfold JsSet.add. destruct (JsSet.has ps x) eqn:Hhas; [exact Hhas |].
  unfold JsSet.has, includes. rewrite existsb_app. simpl.
  rewrite String.eqb_refl. by rewrite orb_true_r.
Qed.

Lemma has_add_other (ps : JsSet.t) (x y : string) :
  x <> y -> JsSet.has (JsSet.add ps x) y = JsSet.has ps y.
Proof.
  intros Hne. unfold JsSet.add. destruct (JsSet.has ps x); [reflexivity |].
  unfold JsSet.has, includes. rewrite existsb_app. simpl.
  assert (String.eqb y x = false) as -> by (apply String.eqb_neq; congruence).
  by rewrite !orb_false_r.
Qed.

Lemma has_delete_same (ps : JsSet.t) (x : string) :
  JsSet.has (fst (JsSet.delete ps x)) x = false.
Proof.
  unfold JsSet.delete, JsSet.has, includes. simpl.
  induction ps as [| y ps IH]; simpl; [reflexivity |].
  destruct (String.eqb x y) eqn:Heq; simpl; [exact IH |].
  by rewrite Heq, IH.
Qed.

Lemma has_delete_other (ps : JsSet.t) (x y : string) :
  x <> y -> JsSet.has (fst (JsSet.delete ps x)) y = JsSet.has ps y.
Proof.
  intros Hne. unfold JsSet.delete, JsSet.has, includes. simpl.
  induction ps as [| z ps IH]; simpl; [reflexivity |].
  destruct (String.eqb x z) eqn:Heq; simpl.
  - apply String.eqb_eq in Heq. subst z.
    assert (String.eqb y x = false) as -> by (apply String.eqb_neq; congruence).
    exact IH.
  - by rewrite IH.
Qed.

Lemma sliceLast_snoc_last {A : Type} (n : nat) (xs : list A) (x : A) :
  (0 < n)%nat -> last (sliceLast n (xs ++ [x])) = Some x.
Proof.
  intros Hn. unfold sliceLast. destruct n as [| k]; [lia |].
  rewrite length_app. simpl.
  rewrite skipn_app.
  replace (length xs + 1 - S k - length xs)%nat with 0%nat by lia.
  simpl. apply last_snoc.
Qed.

(** X1.  A check for a user that has no entry in the permission map is
    answered [false]; the permission map is kept, and the check is the
    last entry of the permission check log, with the reason
    [User not found in permission system]. *)
Theorem unknown_user_is_denied rt s action user :
  gate_permissions s !! user = None ->
  exists s',
    isAuthorized action user rt s = (Return false, s') /\
    gate_permissions s' = gate_permissions s /\
    last (gate_auditLog s')
      = Some (Permission.mk action user false (External.now (world s))
                (Some "User not found in permission system")).
Proof.
  intros Hunknown.
  unfold isAuthorized, logPermission, dateNow, consoleWrite, bind, gets, modify, ret.
  simpl. rewrite Hunknown. simpl.
  destruct (1000 <? _)%nat; simpl; eexists; (split; [reflexivity |]);
    (split; [reflexivity |]); simpl.
  - apply (sliceLast_snoc_last 500). lia.
  - apply last_snoc.
Qed.

Lemma unknown_user_is_denied_witness :
  gate_permissions Installation.boot !! "guest" = None /\
  exists s',
    isAuthorized "restartAgent" "guest" Installation.runtime Installation.boot
      = (Return false, s') /\
    gate_permissions s' = gate_permissions Installation.boot.
Proof.
  split; [reflexivity |].
  destruct (unknown_user_is_denied Installation.runtime Installation.boot
              "restartAgent" "guest" eq_refl) as (s' & Hrun & Hsame & _).
  exists s'. split; assumption.
Defined.

(** X2.  After a check the permission check log holds at most 1000
    entries, whatever it held before, and its last entry is the check
    just made: its action, its user and the answer that was returned. *)
Theorem permission_log_stays_bounded rt s action user :
  let s' := snd (isAuthorized action user rt s) in
  (length (gate_auditLog s') <= 1000)%nat /\
  exists entry,
    last (gate_auditLog s') = Some entry /\
    Permission.action entry = action /\
    Permission.user entry = user /\
    fst (isAuthorized action user rt s) = Return (Permission.granted entry).
Proof.
  unfold isAuthorized, logPermission, dateNow, consoleWrite, bind, gets, modify, ret.
  simpl.
  destruct (gate_permissions s !! user) as [userPermissions |]; simpl;
    destruct (1000 <? _)%nat eqn:Hcap; simpl.
  - split.
    + apply (Nat.le_trans _ 500); [apply (sliceLast_length 500); lia | lia].
    + eexists. split; [apply (sliceLast_snoc_last 500); lia |]. repeat split.
  - split.
    + by apply Nat.ltb_ge in Hcap.
    + eexists. split; [apply last_snoc |]. repeat split.
  - split.
    + apply (Nat.le_trans _ 500); [apply (sliceLast_length 500); lia | lia].
    + eexists. split; [apply (sliceLast_snoc_last 500); lia |]. repeat split.
  - split.
    + by apply Nat.ltb_ge in Hcap.
    + eexists. split; [apply last_snoc |]. repeat split.
Qed.

(** The permission map a successful grant leaves. *)
Lemma grantPermission_granted rt s user action admin :
  holdsRole s admin "super_admin" = true ->
  exists s',
    grantPermission user action admin rt s = (Return true, s') /\
    gate_permissions s'
      = <[ user := JsSet.add (default [] (gate_permissions s !! user)) action ]>
          (gate_permissions s).
Proof.
  intros Hrole. unfold grantPermission, hasRole, consoleWrite, bind, gets, modify, ret.
  simpl. rewrite Hrole. simpl.
  destruct (gate_permissions s !! user) as [ps |] eqn:Hknown; simpl.
  - eexists. split; [reflexivity |]. simpl.
    apply map_eq. intros u. rewrite lookup_alter, lookup_insert.
    destruct (decide (user = u)) as [<- |]; [by rewrite Hknown | reflexivity].
  - eexists. split; [reflexivity |]. simpl.
    apply map_eq. intros u. rewrite lookup_alter, !lookup_insert.
    destruct (decide (user = u)) as [<- |]; [| reflexivity].
    by rewrite decide_True.
Qed.

(** The permission map and the answer a revoke by a super admin leaves. *)
Lemma revokePermission_revoked rt s user action admin :
  holdsRole s admin "super_admin" = true ->
  exists s',
    revokePermission user action admin rt s = (Return (permits s action user), s') /\
    gate_permissions s'
      = match gate_permissions s !! user with
        | Some ps => <[ user := fst (JsSet.delete ps action) ]> (gate_permissions s)
        | None => gate_permissions s
        end.
Proof.
  intros Hrole.
  unfold revokePermission, hasRole, permits, consoleWrite, bind, gets, modify, ret.
  simpl. rewrite Hrole. simpl.
  destruct (gate_permissions s !! user) as [ps |]; simpl;
    [| eexists; split; reflexivity].
  destruct (JsSet.has ps action); simpl; eexists; split; reflexivity.
Qed.

(** X3.  After a grant by a holder of [super_admin], which returns
    [true], a check of the granted action for the user is answered
    [true], and the check of every other pair of user and action is
    answered as before the grant. *)
Theorem grant_then_authorized rt s user action admin :
  holdsRole s admin "super_admin" = true ->
  exists s',
    grantPermission user action admin rt s = (Return true, s') /\
    fst (isAuthorized action user rt s') = Return true /\
    forall u a,
      (u, a) <> (user, action) ->
      fst (isAuthorized a u rt s') = fst (isAuthorized a u rt s).
Proof.
  intros Hrole.
  destruct (grantPermission_granted rt s user action admin Hrole)
    as (s' & Hrun & Hmap).
  exists s'. split; [exact Hrun |]. split.
  - rewrite isAuthorized_answer. unfold permits.
    rewrite Hmap, lookup_insert_eq. by rewrite has_add_same.
  - intros u a Hother. rewrite !isAuthorized_answer. unfold permits.
    rewrite Hmap, lookup_insert.
    destruct (decide (user = u)) as [<- |]; [| reflexivity].
    assert (action <> a) by congruence.
    rewrite has_add_other by assumption.
    by destruct (gate_permissions s !! user).
Qed.

Lemma grant_then_authorized_witness :
  holdsRole Installation.boot "Han" "super_admin" = true /\
  fst (isAuthorized "getPersona" "alice" Installation.runtime Installation.boot)
    = Return false /\
  exists s',
    grantPermission "alice" "getPersona" "Han" Installation.runtime Installation.boot
      = (Return true, s') /\
    fst (isAuthorized "getPersona" "alice" Installation.runtime s') = Return true.
Proof.
  split; [vm_compute; reflexivity |]. split; [vm_compute; reflexivity |].
  destruct (grant_then_authorized Installation.runtime Installation.boot
              "alice" "getPersona" "Han") as (s' & Hrun & Hyes & _).
  - vm_compute. reflexivity.
  - exists s'. split; assumption.
Defined.

(** X4.  A revoke by a holder of [super_admin] returns whether the user
    had the permission; afterwards a check of the revoked action for the
    user is answered [false], and the check of every other pair of user
    and action is answered as before the revoke. *)
Theorem revoke_then_denied rt s user action admin :
  holdsRole s admin "super_admin" = true ->
  exists s',
    revokePermission user action admin rt s
      = (fst (isAuthorized action user rt s), s') /\
    fst (isAuthorized action user rt s') = Return false /\
    forall u a,
      (u, a) <> (user, action) ->
      fst (isAuthorized a u rt s') = fst (isAuthorized a u rt s).
Proof.
  intros Hrole.
  destruct (revokePermission_revoked rt s user action admin Hrole)
    as (s' & Hrun & Hmap).
  exists s'. rewrite isAuthorized_answer. split; [exact Hrun |]. split.
  - rewrite isAuthorized_answer. unfold permits. rewrite Hmap.
    destruct (gate_permissions s !! user) as [ps |] eqn:Hknown.
    + rewrite lookup_insert_eq. by rewrite has_delete_same.
    + by rewrite Hknown.
  - intros u a Hother. rewrite !isAuthorized_answer. unfold permits. rewrite Hmap.
    destruct (gate_permissions s !! user) as [ps |] eqn:Hknown; [| reflexivity].
    rewrite lookup_insert.
    destruct (decide (user = u)) as [<- |]; [| reflexivity].
    assert (action <> a) by congruence.
    rewrite Hknown. by rewrite has_delete_other.
Qed.

Lemma revoke_then_denied_witness :
  holdsRole Installation.boot "Han" "super_admin" = true /\
  fst (isAuthorized "clearCache" "han" Installation.runtime Installation.boot)
    = Return true /\
  exists s',
    revokePermission "han" "clearCache" "Han" Installation.runtime Installation.boot
      = (Return true, s') /\
    fst (isAuthorized "clearCache" "han" Installation.runtime s') = Return false.
Proof.
  assert (Hbefore : fst (isAuthorized "clearCache" "han" Installation.runtime
                           Installation.boot) = Return true)
    by (vm_compute; reflexivity).
  split; [vm_compute; reflexivity |]. split; [exact Hbefore |].
  destruct (revoke_then_denied Installation.runtime Installation.boot
              "han" "clearCache" "Han") as (s' & Hrun & Hno & _).
  - vm_compute. reflexivity.
  - exists s'. rewrite Hbefore in Hrun. split; assumption.
Defined.

(** The entries in iteration order are the entries of the map. *)
Lemma roles_of_entries : roles = list_to_map roleEntries.
Proof. vm_compute. reflexivity. Qed.

(** The permissions of every role are permissions of [super_admin]. *)
Lemma role_permissions_within_super_admin (role : string) (roleData : Role.t) :
  roles !! role = Some roleData ->
  forall permission,
    In permission (Role.permissions roleData) -> In permission superAdminPermissions.
Proof.
  unfold roles. intros Hrole.
  repeat (apply lookup_insert_Some in Hrole;
          destruct Hrole as [[_ <-] | [_ Hrole]];
          [simpl; intros permission Hin; tauto |]).
  rewrite lookup_empty in Hrole. discriminate.
Qed.

(** X5.  The roles are ordered by inclusion of their permissions: a user
    that holds [super_admin] holds every role of the table.  [hasRole] is
    [false] for a role that is not in the table, and every user with an
    entry in the permission map holds [guest], whose permission list is
    empty. *)
Theorem super_admin_holds_every_role s user role :
  (roles !! role = None -> holdsRole s user role = false) /\
  (is_Some (gate_permissions s !! user) -> holdsRole s user "guest" = true) /\
  (holdsRole s user "super_admin" = true ->
   is_Some (roles !! role) ->
   holdsRole s user role = true).
Proof.
  split; [| split].
  - intros Hnone. unfold holdsRole. rewrite Hnone.
    by destruct (gate_permissions s !! user).
  - intros [ps Hknown]. unfold holdsRole. by rewrite Hknown.
  - unfold holdsRole. intros Hsuper [roleData Hrole].
    destruct (gate_permissions s !! user) as [ps |]; [| discriminate].
    rewrite Hrole.
    change (forallb (fun permission => JsSet.has ps permission)
              superAdminPermissions = true) in Hsuper.
    rewrite forallb_forall in Hsuper.
    apply forallb_forall. intros permission Hin.
    apply Hsuper. eapply role_permissions_within_super_admin; eassumption.
Qed.

Lemma super_admin_holds_every_role_witness :
  holdsRole Installation.boot "Han" "super_admin" = true /\
  is_Some (roles !! "admin") /\
  holdsRole Installation.boot "Han" "admin" = true.
Proof.
  assert (Hsuper : holdsRole Installation.boot "Han" "super_admin" = true)
    by (vm_compute; reflexivity).
  assert (Hrole : is_Some (roles !! "admin")) by (vm_compute; eauto).
  split; [exact Hsuper |]. split; [exact Hrole |].
  exact (proj2 (proj2 (super_admin_holds_every_role Installation.boot "Han" "admin"))
           Hsuper Hrole).
Defined.

(** X6.  After a successful [assignRole(user, role, assignedBy)],
    [getUserRole(user)] returns [role]: none of the roles that come
    before it in the table is satisfied by its permission list. *)
Theorem assigned_role_is_reported rt s user role assignedBy s' :
  assignRole user role assignedBy rt s = (Return true, s') ->
  fst (getUserRole user rt s') = Return (Some role).
Proof.
  unfold assignRole, hasRole, consoleWrite, bind, gets, modify, ret.
  destruct (holdsRole s assignedBy "super_admin"); simpl; [| discriminate].
  destruct (roles !! role) as [roleData |] eqn:Hrole; simpl; [| discriminate].
  intros Hrun. inversion Hrun; subst; clear Hrun.
  unfold getUserRole, bind, gets, ret. simpl. rewrite lookup_insert_eq.
  unfold roles in Hrole.
  repeat (apply lookup_insert_Some in Hrole;
          destruct Hrole as [[<- <-] | [_ Hrole]]; [reflexivity |]).
  rewrite lookup_empty in Hrole. discriminate.
Qed.

Lemma assigned_role_is_reported_witness :
  let run := assignRole "bob" "admin" "Han" Installation.runtime Installation.boot in
  run = (Return true, snd run) /\
  fst (getUserRole "bob" Installation.runtime (snd run)) = Return (Some "admin").
Proof.
  intros run.
  assert (Hrun : run = (Return true, snd run)) by (vm_compute; reflexivity).
  split; [exact Hrun |].
  exact (assigned_role_is_reported Installation.runtime Installation.boot
           "bob" "admin" "Han" (snd run) Hrun).
Defined.

(** X7.  [getUserRole] returns [null] exactly for the users that have no
    entry in the permission map: a user with an entry, even with an empty
    permission set, is reported with a role of the table. *)
Theorem getUserRole_null_iff_unknown rt s user :
  fst (getUserRole user rt s) = Return None <-> gate_permissions s !! user = None.
Proof.
  unfold getUserRole, bind, gets, ret. simpl.
  destruct (gate_permissions s !! user) as [ps |]; simpl; [| done].
  split; [| discriminate].
  intros Hnone.
  repeat match type of Hnone with
         | context [if ?c then _ else _] => destruct c
         end;
    discriminate.
Qed.

(** X8.  Revoking one of the permissions of [super_admin] from a user
    ends the user's [super_admin] role: after the revoke, the user's own
    calls of [grantPermission], [revokePermission] and [assignRole] are
    refused. *)
Theorem revoke_ends_super_admin rt s user action admin :
  holdsRole s admin "super_admin" = true ->
  In action superAdminPermissions ->
  let s' := snd (revokePermission user action admin rt s) in
  holdsRole s' user "super_admin" = false /\
  forall target permission,
    refusedWithWarning (grantPermission target permission user rt s') s' /\
    refusedWithWarning (revokePermission target permission user rt s') s' /\
    refusedWithWarning (assignRole target permission user rt s') s'.
Proof.
  intros Hrole Hin s'.
  assert (Hlost : holdsRole s' user "super_admin" = false).
  { subst s'.
    destruct (revokePermission_revoked rt s user action admin Hrole)
      as (s1 & Hrun & Hmap).
    rewrite Hrun. simpl. unfold holdsRole. rewrite Hmap.
    destruct (gate_permissions s !! user) as [ps |] eqn:Hknown.
    - rewrite lookup_insert_eq.
      change (forallb (fun permission =>
                         JsSet.has (fst (JsSet.delete ps action)) permission)
                superAdminPermissions = false).
      apply not_true_is_false. intros Hall.
      rewrite forallb_forall in Hall. specialize (Hall action Hin).
      rewrite has_delete_same in Hall. discriminate.
    - by rewrite Hknown. }
  split; [exact Hlost |]. intros target permission.
  split; [| split].
  - by apply grantPermission_refused.
  - by apply revokePermission_refused.
  - by apply assignRole_refused.
Qed.

Lemma revoke_ends_super_admin_witness :
  holdsRole Installation.boot "han" "super_admin" = true /\
  In "getPersona" superAdminPermissions /\
  holdsRole
    (snd (revokePermission "Han" "getPersona" "han" Installation.runtime
            Installation.boot)) "Han" "super_admin" = false.
Proof.
  assert (Hrole : holdsRole Installation.boot "han" "super_admin" = true)
    by (vm_compute; reflexivity).
  assert (Hin : In "getPersona" superAdminPermissions) by (vm_compute; tauto).
  split; [exact Hrole |]. split; [exact Hin |].
  exact (proj1 (revoke_ends_super_admin Installation.runtime Installation.boot
                  "Han" "getPersona" "han" Hrole Hin)).
Defined.

End GateChecks.

(** * Further properties of the plugin executor *)

Section PluginRegistry.

Import PluginExecutor.

(** X9.  [registerPlugin] never replaces a registered plugin: when the
    name is taken it returns [false], writes a warning, and the registry
    is the one before the call, so that the name still leads to the
    plugin registered first. *)
Theorem register_never_overwrites rt s plugin existing :
  plugin_plugins s !! Plugin.name plugin = Some existing ->
  exists s' text,
    registerPlugin plugin rt s = (Return false, s') /\
    plugin_plugins s' = plugin_plugins s /\
    getPluginDetails (Plugin.name plugin) rt s' = (Return (Some existing), s') /\
    External.console (world s') = External.console (world s) ++ [(ConsoleWarn, text)].
Proof.
  intros Htaken.
  unfold registerPlugin, getPluginDetails, consoleWrite, bind, gets, modify, ret.
  simpl. rewrite Htaken. simpl.
  eexists. eexists. split; [reflexivity |]. simpl. rewrite Htaken. repeat split.
Qed.

Lemma register_never_overwrites_witness :
  let second :=
    Plugin.mk "pluginSummarizer" "another summarizer" "2.0.0"
      (fun _ w => (Return JNull, w)) None in
  plugin_plugins Installation.boot !! Plugin.name second
    = Some Installation.pluginSummarizer /\
  exists s',
    registerPlugin second Installation.runtime Installation.boot = (Return false, s') /\
    plugin_plugins s' = plugin_plugins Installation.boot.
Proof.
  intros second.
  assert (Htaken : plugin_plugins Installation.boot !! Plugin.name second
                   = Some Installation.pluginSummarizer) by reflexivity.
  split; [exact Htaken |].
  destruct (register_never_overwrites Installation.runtime Installation.boot second
              Installation.pluginSummarizer Htaken)
    as (s' & text & Hrun & Hsame & _).
  exists s'. split; assumption.
Defined.

(** X10.  Registering a plugin under a free name returns [true] and makes
    the name lead to the plugin; unregistering the name afterwards returns
    [true] and leaves the registry as it was before the registration. *)
Theorem register_unregister_round_trip rt s plugin :
  plugin_plugins s !! Plugin.name plugin = None ->
  exists s1 s2,
    registerPlugin plugin rt s = (Return true, s1) /\
    getPluginDetails (Plugin.name plugin) rt s1 = (Return (Some plugin), s1) /\
    unregisterPlugin (Plugin.name plugin) rt s1 = (Return true, s2) /\
    plugin_plugins s2 = plugin_plugins s.
Proof.
  intros Hfree.
  unfold registerPlugin, unregisterPlugin, getPluginDetails, consoleWrite, bind,
    gets, modify, ret.
  simpl. rewrite Hfree. simpl.
  eexists. eexists. split; [reflexivity |]. simpl.
  rewrite lookup_insert_eq. simpl.
  split; [reflexivity |]. split; [reflexivity |]. simpl.
  by apply delete_insert_id.
Qed.

Lemma register_unregister_round_trip_witness :
  let echo :=
    Plugin.mk "pluginEcho" "returns its parameters" "1.0.0"
      (fun parameters w => (Return parameters, w)) None in
  plugin_plugins Installation.boot !! Plugin.name echo = None /\
  exists s1 s2,
    registerPlugin echo Installation.runtime Installation.boot = (Return true, s1) /\
    unregisterPlugin "pluginEcho" Installation.runtime s1 = (Return true, s2) /\
    plugin_plugins s2 = plugin_plugins Installation.boot.
Proof.
  intros echo.
  assert (Hfree : plugin_plugins Installation.boot !! Plugin.name echo = None)
    by reflexivity.
  split; [exact Hfree |].
  destruct (register_unregister_round_trip Installation.runtime Installation.boot
              echo Hfree) as (s1 & s2 & Hreg & _ & Hunreg & Hsame).
  exists s1, s2. repeat split; assumption.
Defined.

(** X11.  After [unregisterPlugin(name)], whatever it returned,
    [executePlugin(name, parameters)] returns a failure without a value
    and with the error [Plugin 'name' not found]: no capability runs, the
    outside world and the execution history stay as they are. *)
Theorem unregistered_plugin_is_not_found rt s name parameters :
  let s1 := snd (unregisterPlugin name rt s) in
  exists s2 elapsed t,
    executePlugin name parameters rt s1
      = (Return (PluginResult.mk false name JNull elapsed t
                   (Some ("Plugin '" +:+ name +:+ "' not found"))), s2) /\
    world s2 = world s1 /\
    plugin_executionHistory s2 = plugin_executionHistory s.
Proof.
  unfold unregisterPlugin, executePlugin, noteCall, dateNow, consoleWrite, bind,
    gets, modify, ret.
  simpl.
  destruct (bool_decide (is_Some (plugin_plugins s !! name))); simpl;
    rewrite lookup_delete_eq; simpl;
    do 3 eexists; repeat split.
Qed.

Lemma sliceLast_suffix {A : Type} (n : nat) (xs : list A) :
  (exists older, xs = older ++ sliceLast n xs) /\
  length (sliceLast n xs)
    = if (n =? 0)%nat then length xs else Nat.min n (length xs).
Proof.
  unfold sliceLast. destruct n as [| k].
  - split; [by exists [] | reflexivity].
  - split.
    + exists (firstn (length xs - S k) xs). by rewrite firstn_skipn.
    + rewrite length_skipn. change (S k =? 0)%nat with false. cbv iota. lia.
Qed.

(** X12.  [getExecutionHistory(limit)] of the plugin executor and
    [getPermissionAudit(limit)] of the permission gate return the most
    recent entries, oldest first, and leave the state alone: [limit] of
    them when there are that many, all of them otherwise, and also all of
    them when [limit] is [0], since [slice(-0)] is [slice(0)]. *)
Theorem history_queries_return_latest rt s limit :
  (exists result older,
     getExecutionHistory limit rt s = (Return result, s) /\
     plugin_executionHistory s = older ++ result /\
     length result
       = if (limit =? 0)%nat then length (plugin_executionHistory s)
         else Nat.min limit (length (plugin_executionHistory s))) /\
  (exists result older,
     PermissionGate.getPermissionAudit limit rt s = (Return result, s) /\
     gate_auditLog s = older ++ result /\
     length result
       = if (limit =? 0)%nat then length (gate_auditLog s)
         else Nat.min limit (length (gate_auditLog s))).
Proof.
  unfold getExecutionHistory, PermissionGate.getPermissionAudit, gets.
  split.
  - destruct (sliceLast_suffix limit (plugin_executionHistory s))
      as [[older Holder] Hlength].
    exists (sliceLast limit (plugin_executionHistory s)), older. done.
  - destruct (sliceLast_suffix limit (gate_auditLog s)) as [[older Holder] Hlength].
    exists (sliceLast limit (gate_auditLog s)), older. done.
Qed.

(** The history a call that ends in a success leaves. *)
Lemma executePlugin_success_history rt s name parameters plugin v w' :
  plugin_plugins s !! name = Some plugin ->
  validation (Plugin.validate plugin) parameters = Return true ->
  Plugin.execute plugin parameters (world s) = (Return v, w') ->
  let pushed :=
    plugin_executionHistory s ++
    [ PluginResult.mk true name v (External.now w' - External.now (world s))%Z
        (External.now w') None ] in
  plugin_executionHistory (snd (executePlugin name parameters rt s))
    = if (100 <? length pushed)%nat then sliceLast 50 pushed else pushed.
Proof.
  intros Hplugin Hvalid Hrun pushed. subst pushed.
  unfold executePlugin, noteCall, dateNow, bind, gets, modify, tryCatch, ret.
  simpl. rewrite Hplugin. simpl.
  unfold validation in Hvalid. unfold callValidate, callCapability.
  destruct (Plugin.validate plugin) as [validate |]; simpl;
    [rewrite Hvalid; simpl |]; rewrite Hrun; simpl;
    destruct (100 <? _)%nat; reflexivity.
Qed.

(** X13.  A call of [executePlugin] that ends in a success leaves the new
    result as the last entry of the execution history.  When the history
    held fewer than 100 entries, the older entries are all kept; when it
    held 100 entries or more, the history is cut to exactly 50 entries,
    the 49 most recent older ones and the new one. *)
Theorem success_keeps_latest_entries rt s name parameters plugin v w' :
  plugin_plugins s !! name = Some plugin ->
  validation (Plugin.validate plugin) parameters = Return true ->
  Plugin.execute plugin parameters (world s) = (Return v, w') ->
  let r :=
    PluginResult.mk true name v (External.now w' - External.now (world s))%Z
      (External.now w') None in
  let before := plugin_executionHistory s in
  let after := plugin_executionHistory (snd (executePlugin name parameters rt s)) in
  last after = Some r /\
  ((length before < 100)%nat -> after = before ++ [r]) /\
  ((100 <= length before)%nat ->
   after = skipn (length before - 49) before ++ [r] /\ length after = 50%nat).
Proof.
  intros Hplugin Hvalid Hrun r before after.
  assert (Hafter : after = if (100 <? length (before ++ [r]))%nat
                           then sliceLast 50 (before ++ [r]) else before ++ [r])
    by exact (executePlugin_success_history rt s name parameters plugin v w'
                Hplugin Hvalid Hrun).
  clearbody after. subst after.
  assert (Hlen : length (before ++ [r]) = S (length before))
    by (rewrite length_app; simpl; lia).
  rewrite Hlen.
  destruct (100 <? S (length before))%nat eqn:Hcap;
    [apply Nat.ltb_lt in Hcap | apply Nat.ltb_ge in Hcap].
  - split; [apply (sliceLast_snoc_last 50); lia |].
    split; [intros; lia |]. intros _.
    assert (Hcut : sliceLast 50 (before ++ [r])
                   = skipn (length before - 49) before ++ [r]).
    { unfold sliceLast. rewrite Hlen, skipn_app.
      replace (S (length before) - 50)%nat with (length before - 49)%nat by lia.
      replace (length before - 49 - length before)%nat with 0%nat by lia.
      reflexivity. }
    split; [exact Hcut |].
    rewrite Hcut, length_app, length_skipn. simpl. lia.
  - split; [apply last_snoc |].
    split; [reflexivity |]. intros; lia.
Qed.

Lemma success_keeps_latest_entries_witness :
  let echo :=
    Plugin.mk "pluginEcho" "returns its parameters" "1.0.0"
      (fun parameters w => (Return parameters, w)) None in
  let s := set_plugins (fun m => <[ "pluginEcho" := echo ]> m) Installation.boot in
  plugin_plugins s !! "pluginEcho" = Some echo /\
  validation (Plugin.validate echo) JNull = Return true /\
  Plugin.execute echo JNull (world s) = (Return JNull, world s) /\
  plugin_executionHistory (snd (executePlugin "pluginEcho" JNull Installation.runtime s))
    = [ PluginResult.mk true "pluginEcho" JNull 0 1700000000000 None ].
Proof.
  intros echo s.
  assert (H1 : plugin_plugins s !! "pluginEcho" = Some echo) by reflexivity.
  assert (H2 : validation (Plugin.validate echo) JNull = Return true) by reflexivity.
  assert (H3 : Plugin.execute echo JNull (world s) = (Return JNull, world s))
    by reflexivity.
  split; [exact H1 |]. split; [exact H2 |]. split; [exact H3 |].
  destruct (success_keeps_latest_entries Installation.runtime s "pluginEcho" JNull
              echo JNull (world s) H1 H2 H3) as (_ & Hshort & _).
  rewrite Hshort; [reflexivity | simpl; lia].
Defined.

(** X14.  [testPlugin] never throws.  For a name that is not registered
    it reports [available: false] with [Plugin 'name' not found] and runs
    nothing.  For a registered plugin without test parameters it reports
    [available: true] with an error text and runs nothing.  For a
    registered plugin with test parameters it runs [executePlugin] once
    and reports [available: true] without an error, whatever the result
    of the run is, a failure included. *)
Theorem testPlugin_reports rt s name :
  match plugin_plugins s !! name, testParamsFor name with
  | None, _ =>
      testPlugin name rt s
        = (Return (mkTestReport false None
                     (Some ("Plugin '" +:+ name +:+ "' not found"))), s)
  | Some _, None =>
      testPlugin name rt s
        = (Return (mkTestReport true None
                     (Some "No test parameters defined for this plugin")), s)
  | Some _, Some testParams =>
      exists r s',
        executePlugin name testParams rt s = (Return r, s') /\
        testPlugin name rt s = (Return (mkTestReport true (Some r) None), s')
  end.
Proof.
  unfold testPlugin, bind, gets, tryCatch, ret. simpl.
  destruct (plugin_plugins s !! name) as [plugin |] eqn:Hplugin; [| reflexivity].
  destruct (testParamsFor name) as [testParams |]; [| reflexivity].
  destruct (executePlugin_returns rt s name testParams) as (r & s' & Hrun & _).
  exists r, s'. split; [exact Hrun |]. by rewrite Hrun.
Qed.

End PluginRegistry.

(** * Further properties of the command router and the Zhupi adapter *)

Section Adapters.

Local Open Scope Z_scope.


Local Close Scope Z_scope.

(** X16.  The execution histories of the command router and of the Zhupi
    adapter are kept like the one of the plugin executor.  A run of a
    registered action whose parameters are accepted leaves at most 100
    entries when the capability returns, and appends one entry to the
    history, however long it is, when the capability throws. *)
Theorem adapter_histories_trim_on_success_only rt s name parameters :
  (forall action,
     commit_actions s !! name = Some action ->
     validation (CommitAction.validate action) parameters = Return true ->
     let after :=
       commit_executionHistory (snd (CommitRouter.executeAction name parameters rt s)) in
     match CommitAction.execute action parameters (world s) with
     | (Return _, _) => (length after <= 100)%nat
     | (Throw _, _) =>
         length after = S (length (commit_executionHistory s))
     end) /\
  (forall action,
     zhupi_actions s !! name = Some action ->
     validation (ZhupiAction.validate action) parameters = Return true ->
     let after :=
       zhupi_executionHistory (snd (ZhupiAdapter.executeAction name parameters rt s)) in
     match ZhupiAction.execute action parameters (world s) with
     | (Return _, _) => (length after <= 100)%nat
     | (Throw _, _) =>
         length after = S (length (zhupi_executionHistory s))
     end).
Proof.
  split; intros action Haction Hvalid.
  - unfold CommitRouter.executeAction, noteCall, dateNow, bind, gets, modify,
      tryCatch, ret.
    simpl. rewrite Haction. simpl.
    unfold validation in Hvalid. unfold callValidate, callCapability.
    destruct (CommitAction.validate action) as [validate |]; simpl;
      [rewrite Hvalid; simpl |];
      (destruct (CommitAction.execute action parameters (world s))
         as [[v | e] w']; simpl;
       [ destruct (100 <? _)%nat eqn:Hcap; simpl;
         [ apply (Nat.le_trans _ 50); [apply (sliceLast_length 50); lia | lia]
         | apply Nat.ltb_ge in Hcap; exact Hcap ]
       | rewrite length_app; simpl; lia ]).
  - unfold ZhupiAdapter.executeAction, noteCall, dateNow, bind, gets, modify,
      tryCatch, ret.
    simpl. rewrite Haction. simpl.
    unfold validation in Hvalid. unfold callValidate, callCapability.
    destruct (ZhupiAction.validate action) as [validate |]; simpl;
      [rewrite Hvalid; simpl |];
      (destruct (ZhupiAction.execute action parameters (world s))
         as [[v | e] w']; simpl;
       [ destruct (100 <? _)%nat eqn:Hcap; simpl;
         [ apply (Nat.le_trans _ 50); [apply (sliceLast_length 50); lia | lia]
         | apply Nat.ltb_ge in Hcap; exact Hcap ]
       | rewrite length_app; simpl; lia ]).
Qed.

Lemma adapter_histories_trim_on_success_only_witness :
  commit_actions Installation.boot !! "clearCache" = Some Installation.clearCache /\
  validation (CommitAction.validate Installation.clearCache) (JObj []) = Return true /\
  (length
     (commit_executionHistory
        (snd (CommitRouter.executeAction "clearCache" (JObj [])
                Installation.runtime Installation.boot))) <= 100)%nat.
Proof.
  assert (H1 : commit_actions Installation.boot !! "clearCache"
               = Some Installation.clearCache) by reflexivity.
  assert (H2 : validation (CommitAction.validate Installation.clearCache) (JObj [])
               = Return true) by reflexivity.
  split; [exact H1 |]. split; [exact H2 |].
  exact (proj1 (adapter_histories_trim_on_success_only Installation.runtime
                  Installation.boot "clearCache" (JObj []))
           Installation.clearCache H1 H2).
Defined.

End Adapters.

(** * Further properties of the audit logger *)

Section AuditTrail.

Import AuditLogger.

(** What a [logAction] call leaves: the record is the last one of the
    audit trail; the permission map and the call trace are kept; a record
    that is not of level [error] or [critical] is pending and the audit
    table is untouched. *)
Lemma logAction_writes rt s actor action result options :
  let record := recordOf rt s actor action result options in
  exists s',
    logAction actor action result options rt s = (Return (AuditLog.id record), s') /\
    auditTrail s' = auditTrail s ++ [record] /\
    gate_permissions s' = gate_permissions s /\
    gate_auditLog s' = gate_auditLog s /\
    calls s' = calls s /\
    External.auditTableWritable (world s') = External.auditTableWritable (world s) /\
    (isSevere (recordLevel options action result) = false ->
     External.auditTable (world s') = External.auditTable (world s) /\
     audit_pendingLogs s' = audit_pendingLogs s ++ [record]) /\
    (isSevere (recordLevel options action result) = true ->
     External.auditTableWritable (world s) = true ->
     External.auditTable (world s')
       = External.auditTable (world s) ++ audit_pendingLogs s ++ [record] /\
     audit_pendingLogs s' = []).
Proof.
  intros record. subst record.
  unfold recordOf, recordLevel, logAction, logToConsole, flushLogs, createMany,
    mathRandom36, dateNow, consoleWrite, asks, bind, gets, modify, tryCatch, ret,
    auditTrail.
  simpl.
  destruct (isSevere _); simpl.
  - destruct (length (audit_pendingLogs s ++ _) =? 0)%nat eqn:Hempty.
    { apply Nat.eqb_eq in Hempty. rewrite length_app in Hempty. simpl in Hempty.
      lia. }
    simpl.
    destruct (External.auditTableWritable (world s)) eqn:Hup; simpl.
    + eexists. split; [reflexivity |]. simpl. rewrite app_nil_r, app_assoc.
      repeat split; try discriminate. exact Hup.
    + eexists. split; [reflexivity |]. simpl. rewrite app_nil_r, app_assoc.
      repeat split; try discriminate. exact Hup.
  - eexists. split; [reflexivity |]. simpl. rewrite app_assoc.
    repeat split; discriminate.
Qed.

(** X17.  A flush never throws and never loses, repeats or reorders a
    record: the audit trail, that is the rows of the audit table followed
    by the pending buffer, is the same after the flush as before it.
    With an empty buffer the flush does nothing at all, and when the
    table rejects the write the table and the buffer are both as they
    were. *)
Theorem flush_keeps_audit_trail rt s :
  exists s',
    flushLogs rt s = (Return tt, s') /\
    auditTrail s' = auditTrail s /\
    (audit_pendingLogs s = [] -> s' = s) /\
    (External.auditTableWritable (world s) = false ->
     External.auditTable (world s') = External.auditTable (world s) /\
     audit_pendingLogs s' = audit_pendingLogs s).
Proof.
  unfold flushLogs, createMany, consoleWrite, bind, gets, modify, tryCatch, ret,
    auditTrail.
  simpl.
  destruct (audit_pendingLogs s) as [| first rest] eqn:Hpending; simpl.
  - exists s. by rewrite Hpending.
  - destruct (External.auditTableWritable (world s)); simpl.
    + eexists. split; [reflexivity |]. simpl. rewrite app_nil_r.
      repeat split; discriminate.
    + eexists. split; [reflexivity |]. simpl. rewrite app_nil_r.
      repeat split; discriminate.
Qed.

Lemma flush_keeps_audit_trail_witness :
  let s1 :=
    snd (logAction "Han" "chat" (PayloadValue JNull) noOptions Installation.runtime
           Installation.bootDatabaseDown) in
  External.auditTableWritable (world s1) = false /\
  length (audit_pendingLogs s1) = 1%nat /\
  exists s',
    flushLogs Installation.runtime s1 = (Return tt, s') /\
    audit_pendingLogs s' = audit_pendingLogs s1.
Proof.
  intros s1.
  assert (Hdown : External.auditTableWritable (world s1) = false)
    by (vm_compute; reflexivity).
  split; [exact Hdown |]. split; [vm_compute; reflexivity |].
  destruct (flush_keeps_audit_trail Installation.runtime s1)
    as (s' & Hrun & _ & _ & Hrejected).
  exists s'. split; [exact Hrun |]. exact (proj2 (Hrejected Hdown)).
Defined.

(** X18.  A record whose level is [info] or [warning] is not written to
    the audit table by [logAction]: it is appended to the pending buffer.
    The next tick of the flush timer, if the table accepts writes, moves
    it to the table behind the records that were pending before it. *)
Theorem routine_record_waits_for_timer rt s actor action result options :
  isSevere (recordLevel options action result) = false ->
  External.auditTableWritable (world s) = true ->
  let record := recordOf rt s actor action result options in
  exists s1 s2,
    logAction actor action result options rt s = (Return (AuditLog.id record), s1) /\
    External.auditTable (world s1) = External.auditTable (world s) /\
    audit_pendingLogs s1 = audit_pendingLogs s ++ [record] /\
    timerTick rt s1 = (Return tt, s2) /\
    External.auditTable (world s2)
      = External.auditTable (world s) ++ audit_pendingLogs s ++ [record] /\
    audit_pendingLogs s2 = [].
Proof.
  intros Hroutine Hup record.
  destruct (logAction_writes rt s actor action result options)
    as (s1 & Hlog & _ & _ & _ & _ & Hup1 & Hpending & _).
  destruct (Hpending Hroutine) as [Htable1 Hpending1].
  rewrite Hup in Hup1.
  destruct (flushLogs_moves_pending rt s1 Hup1) as (s2 & Htick & Htable2 & Hpending2).
  exists s1, s2. fold record in Hlog, Hpending1.
  split; [exact Hlog |]. split; [exact Htable1 |]. split; [exact Hpending1 |].
  split; [exact Htick |]. split; [| exact Hpending2].
  by rewrite Htable2, Htable1, Hpending1.
Qed.

Lemma routine_record_waits_for_timer_witness :
  isSevere (recordLevel noOptions "chat" (PayloadValue JNull)) = false /\
  External.auditTableWritable (world Installation.boot) = true /\
  exists s1,
    fst (logAction "Han" "chat" (PayloadValue JNull) noOptions Installation.runtime
           Installation.boot)
      = Return "audit_1700000000000_r0" /\
    s1 = snd (logAction "Han" "chat" (PayloadValue JNull) noOptions
                Installation.runtime Installation.boot) /\
    External.auditTable (world s1) = [].
Proof.
  split; [reflexivity |]. split; [reflexivity |].
  destruct (routine_record_waits_for_timer Installation.runtime Installation.boot
              "Han" "chat" (PayloadValue JNull) noOptions eq_refl eq_refl)
    as (s1 & s2 & Hlog & Htable & _).
  exists s1. rewrite Hlog. simpl. repeat split. exact Htable.
Defined.

(** X19.  An action whose name starts with [security_] and that is
    logged without an explicit level gets the level [warning], also when
    its result reports a failure: its record is not flushed at once but
    left in the pending buffer. *)
Theorem security_actions_are_never_flushed_at_once rt s actor action result options :
  JsString.startsWith action "security_" = true ->
  level options = None ->
  let record := recordOf rt s actor action result options in
  AuditLog.level record = Level.warning /\
  exists s',
    logAction actor action result options rt s = (Return (AuditLog.id record), s') /\
    External.auditTable (world s') = External.auditTable (world s) /\
    audit_pendingLogs s' = audit_pendingLogs s ++ [record].
Proof.
  intros Hprefix Hnone record.
  assert (Hlevel : recordLevel options action result = Level.warning).
  { unfold recordLevel, inferLevel. by rewrite Hnone, Hprefix. }
  split; [exact Hlevel |].
  destruct (logAction_writes rt s actor action result options)
    as (s' & Hlog & _ & _ & _ & _ & _ & Hpending & _).
  exists s'. split; [exact Hlog |].
  apply Hpending. by rewrite Hlevel.
Qed.

Lemma security_actions_are_never_flushed_at_once_witness :
  let failure := PayloadValue (JObj [ ("success", JBool false) ]) in
  JsString.startsWith "security_login_failed" "security_" = true /\
  level noOptions = None /\
  reportsFailure failure = true /\
  AuditLog.level
    (recordOf Installation.runtime Installation.boot "mallory"
       "security_login_failed" failure noOptions) = Level.warning.
Proof.
  intros failure.
  split; [reflexivity |]. split; [reflexivity |]. split; [reflexivity |].
  exact (proj1 (security_actions_are_never_flushed_at_once Installation.runtime
                  Installation.boot "mallory" "security_login_failed" failure
                  noOptions eq_refl eq_refl)).
Defined.

(** The action names of the logging helpers, classified. *)
Lemma helper_action_names_match_categories pluginName apiType action event :
  inferCategory ("plugin_" +:+ pluginName) = Category.plugin /\
  inferCategory (apiTypeName apiType +:+ "_" +:+ action) = apiTypeCategory apiType /\
  inferCategory ("security_" +:+ event) = Category.security /\
  inferCategory "chat" = Category.chat.
Proof.
  destruct pluginName, action, event, apiType; repeat split; reflexivity.
Qed.

Lemma logPluginExecution_unfolds rt s actor pluginName parameters result executionId
    sessionId :
  nullish result = false ->
  logPluginExecution actor pluginName parameters result executionId sessionId rt s
  = logAction actor ("plugin_" +:+ pluginName) (PayloadValue result)
      (mkOptions (Some parameters) sessionId (Some executionId)
         (Some Category.plugin)
         (Some (if truthy (jsField "success" result) then Level.info
                else Level.error))
         (Some (JObj [ ("pluginName", JStr pluginName);
                       ("executionTime", jsField "executionTime" result);
                       ("success", jsField "success" result) ]))
         None None) rt s.
Proof.
  intros Hobject. unfold logPluginExecution, readProperty, bind, ret.
  destruct result; try discriminate; reflexivity.
Qed.

Lemma logApiExecution_unfolds rt s actor apiType action parameters result executionId
    sessionId :
  nullish result = false ->
  logApiExecution actor apiType action parameters result executionId sessionId rt s
  = logAction actor (apiTypeName apiType +:+ "_" +:+ action) (PayloadValue result)
      (mkOptions (Some parameters) sessionId (Some executionId)
         (Some (apiTypeCategory apiType))
         (Some (if truthy (jsField "success" result) then Level.info
                else Level.error))
         (Some (JObj [ ("apiType", JStr (apiTypeName apiType));
                       ("action", JStr action);
                       ("executionTime",
                        if truthy (jsField "executionTime" result)
                        then jsField "executionTime" result
                        else jsField "responseTime" result);
                       ("success", jsField "success" result) ]))
         None None) rt s.
Proof.
  intros Hobject. unfold logApiExecution, readProperty, bind, ret.
  destruct result; try discriminate; try reflexivity.
  destruct (truthy (jsField "executionTime" (JObj fields))); reflexivity.
Qed.

(** X20.  The records written by [logPluginExecution],
    [logApiExecution], [logSecurityEvent] and [logChat] carry the
    category that [inferCategory] gives to their action name: the prefix
    the method puts before the name ([plugin_], [commit_api_],
    [zhupi_api_], [security_]) or the name [chat] is the one the
    inference looks for. *)
Theorem helper_records_carry_inferred_category rt s actor name parameters result
    executionId sessionId apiType severity ip agent output metadata :
  let consistent (run : Outcome string * System) :=
    forall id, fst run = Return id ->
    exists record,
      last (auditTrail (snd run)) = Some record /\
      AuditLog.id record = id /\
      AuditLog.category record = inferCategory (AuditLog.action record) in
  consistent (logPluginExecution actor name parameters result executionId sessionId
                rt s) /\
  consistent (logApiExecution actor apiType name parameters result executionId
                sessionId rt s) /\
  consistent (logSecurityEvent actor name result severity ip agent rt s) /\
  consistent (logChat actor name output executionId metadata rt s).
Proof.
  intros consistent.
  destruct (helper_action_names_match_categories name apiType name name)
    as (Hplugin & Hapi & Hsecurity & Hchat).
  assert (Hwritten : forall action payload options category,
            category = inferCategory action ->
            AuditLogger.category options = Some category ->
            consistent (logAction actor action payload options rt s)).
  { intros action payload options category Hcategory Hoption id Hid.
    destruct (logAction_writes rt s actor action payload options)
      as (s' & Hrun & Htrail & _).
    rewrite Hrun in Hid |- *. simpl in *. inversion Hid; subst id.
    eexists. split; [rewrite Htrail; apply last_snoc |].
    split; [reflexivity |]. unfold recordOf. simpl.
    rewrite Hoption. simpl. exact Hcategory. }
  split; [| split; [| split]].
  - destruct (nullish result) eqn:Hnull.
    + intros id Hid. destruct result; try discriminate Hnull; discriminate Hid.
    + rewrite (logPluginExecution_unfolds rt s actor name parameters result
                 executionId sessionId Hnull).
      by eapply Hwritten.
  - destruct (nullish result) eqn:Hnull.
    + intros id Hid. destruct result; try discriminate Hnull; discriminate Hid.
    + rewrite (logApiExecution_unfolds rt s actor apiType name parameters result
                 executionId sessionId Hnull).
      by eapply Hwritten.
  - unfold logSecurityEvent. by eapply Hwritten.
  - unfold logChat. by eapply Hwritten.
Qed.

Lemma helper_records_carry_inferred_category_witness :
  let run :=
    logPluginExecution "Han" "pluginSummarizer" (JObj [ ("text", JStr "abc") ])
      (JObj [ ("success", JBool true); ("executionTime", JNum 12) ]) "exec_1" None
      Installation.runtime Installation.boot in
  fst run = Return "audit_1700000000000_r0" /\
  exists record,
    last (auditTrail (snd run)) = Some record /\
    AuditLog.category record = inferCategory (AuditLog.action record).
Proof.
  intros run.
  assert (Hid : fst run = Return "audit_1700000000000_r0") by (vm_compute; reflexivity).
  split; [exact Hid |].
  destruct (proj1 (helper_records_carry_inferred_category Installation.runtime
                     Installation.boot "Han" "pluginSummarizer"
                     (JObj [ ("text", JStr "abc") ])
                     (JObj [ ("success", JBool true); ("executionTime", JNum 12) ])
                     "exec_1" None CommitApi SevWarning None None "" None)
              "audit_1700000000000_r0" Hid) as (record & Hlast & _ & Hcategory).
  exists record. split; assumption.
Defined.

(** X21.  [logPluginExecution] derives the level from [result.success]:
    a result whose [success] is truthy is logged at [info] and left in
    the pending buffer; any other result is logged at [error] and, when
    the audit table accepts writes, is in the table with all the records
    that were pending when the call returns.  When [result] is [null] or
    [undefined] the call throws before anything is logged. *)
Theorem plugin_execution_level_follows_success rt s actor pluginName parameters
    result executionId sessionId :
  let run :=
    logPluginExecution actor pluginName parameters result executionId sessionId rt s in
  if nullish result then
    (exists e, fst run = Throw e) /\ snd run = s
  else
    exists id record,
      fst run = Return id /\
      AuditLog.id record = id /\
      AuditLog.action record = "plugin_" +:+ pluginName /\
      AuditLog.result record = PayloadValue result /\
      AuditLog.executionId record = Some executionId /\
      if truthy (jsField "success" result) then
        AuditLog.level record = Level.info /\
        External.auditTable (world (snd run)) = External.auditTable (world s) /\
        audit_pendingLogs (snd run) = audit_pendingLogs s ++ [record]
      else
        AuditLog.level record = Level.error /\
        (External.auditTableWritable (world s) = true ->
         External.auditTable (world (snd run))
           = External.auditTable (world s) ++ audit_pendingLogs s ++ [record] /\
         audit_pendingLogs (snd run) = []).
Proof.
  intros run. subst run.
  destruct (nullish result) eqn:Hnull.
  - unfold logPluginExecution, readProperty, bind, throw.
    destruct result; try discriminate Hnull; simpl; eauto.
  - rewrite (logPluginExecution_unfolds rt s actor pluginName parameters result
               executionId sessionId Hnull).
    match goal with
    | |- context [logAction ?a ?b ?c ?o rt s] =>
        destruct (logAction_writes rt s a b c o)
          as (s' & Hrun & _ & _ & _ & _ & _ & Hroutine & Hsevere);
        exists (AuditLog.id (recordOf rt s a b c o)), (recordOf rt s a b c o)
    end.
    rewrite Hrun. simpl.
    split; [reflexivity |]. split; [reflexivity |]. split; [reflexivity |].
    split; [reflexivity |]. split; [reflexivity |].
    unfold recordLevel in Hroutine, Hsevere. simpl in Hroutine, Hsevere.
    destruct (truthy (jsField "success" result)).
    + split; [reflexivity |]. by apply Hroutine.
    + split; [reflexivity |]. intros Hup. by apply Hsevere.
Qed.

Lemma plugin_execution_level_follows_success_witness :
  let run :=
    logPluginExecution "Han" "summarizer" (JObj [ ("text", JStr "ringkas") ])
      (JObj [ ("success", JBool false); ("error", JStr "model unreachable") ])
      "exec_1" None Installation.runtime Installation.boot in
  External.auditTableWritable (world Installation.boot) = true /\
  length (External.auditTable (world (snd run))) = 1%nat /\
  audit_pendingLogs (snd run) = [].
Proof.
  intros run. split; [reflexivity |].
  pose proof (plugin_execution_level_follows_success Installation.runtime
                Installation.boot "Han" "summarizer"
                (JObj [ ("text", JStr "ringkas") ])
                (JObj [ ("success", JBool false);
                        ("error", JStr "model unreachable") ])
                "exec_1" None) as Hlevel.
  cbv zeta in Hlevel.
  change (nullish _) with false in Hlevel.
  change (truthy _) with false in Hlevel.
  cbv iota in Hlevel.
  destruct Hlevel as (id & record & _ & _ & _ & _ & _ & _ & Hflush).
  destruct (Hflush eq_refl) as [Htable Hpending].
  split; [| exact Hpending].
  subst run. rewrite Htable. reflexivity.
Defined.

End AuditTrail.

(** * Further properties of the agent executor *)

Section Batches.

Import AgentExecutor.

(** [createPreview] never proposes an action of type [internal]. *)
Lemma analyze_types (input : string) (p : ExecutionPreview.t) :
  In p (analyze input) -> ExecutionPreview.type p <> ActionType.internal.
Proof.
  unfold analyze, analyzePluginActions, analyzeCommitActions, analyzeZhupiActions.
  intros H. split_previews H; simpl; discriminate.
Qed.

(** The three executors never throw: a dispatch to one of them returns
    the object of the executor, keeps the permission map and notes one
    call. *)
Lemma dispatch_returns rt s preview :
  ExecutionPreview.type preview <> ActionType.internal ->
  exists d s',
    dispatch preview rt s = (Return d, s') /\
    answeredBy (ExecutionPreview.type preview) d /\
    gate_permissions s' = gate_permissions s /\
    calls s' = calls s ++ [callOf preview].
Proof.
  unfold dispatch, callOf.
  destruct preview as [action type description parameters approval impact].
  simpl. intros Htype. destruct type; [| | | congruence].
  - unfold PluginExecutor.executePlugin, noteCall, dateNow, callValidate,
      callCapability, consoleWrite, bind, gets, modify, tryCatch, ret.
    simpl.
    destruct (plugin_plugins s !! action) as [plugin |]; simpl;
      [| eexists; eexists; (split; [reflexivity |]); repeat split].
    destruct (Plugin.validate plugin) as [validate |]; simpl;
      [destruct (validate parameters) as [[] | e]; simpl |];
      try (destruct (Plugin.execute plugin parameters (world s)) as [[v | e] w'];
           simpl; try (destruct (100 <? _)%nat; simpl));
      eexists; eexists; (split; [reflexivity |]); repeat split.
  - unfold CommitRouter.executeAction, noteCall, dateNow, callValidate,
      callCapability, consoleWrite, bind, gets, modify, tryCatch, ret.
    simpl.
    destruct (commit_actions s !! action) as [entry |]; simpl;
      [| eexists; eexists; (split; [reflexivity |]); repeat split].
    destruct (CommitAction.validate entry) as [validate |]; simpl;
      [destruct (validate parameters) as [[] | e]; simpl |];
      try (destruct (CommitAction.execute entry parameters (world s))
             as [[v | e] w'];
           simpl; try (destruct (100 <? _)%nat; simpl));
      eexists; eexists; (split; [reflexivity |]); repeat split.
  - unfold ZhupiAdapter.executeAction, noteCall, dateNow, callValidate,
      callCapability, consoleWrite, bind, gets, modify, tryCatch, ret.
    simpl.
    destruct (zhupi_actions s !! action) as [entry |]; simpl;
      [| eexists; eexists; (split; [reflexivity |]); repeat split].
    destruct (ZhupiAction.validate entry) as [validate |]; simpl;
      [destruct (validate parameters) as [[] | e]; simpl |];
      try (destruct (ZhupiAction.execute entry parameters (world s))
             as [[v | e] w'];
           simpl; try (destruct (100 <? _)%nat; simpl));
      eexists; eexists; (split; [reflexivity |]); repeat split.
Qed.

(** Neither a permission check nor a dispatch touches the pending
    buffer of the audit logger. *)
Lemma isAuthorized_keeps_pending rt s action user :
  audit_pendingLogs (snd (PermissionGate.isAuthorized action user rt s))
  = audit_pendingLogs s.
Proof.
  unfold PermissionGate.isAuthorized, PermissionGate.logPermission, dateNow,
    consoleWrite, bind, gets, modify, ret.
  simpl.
  destruct (gate_permissions s !! user) as [userPermissions |]; simpl;
    destruct (1000 <? _)%nat; reflexivity.
Qed.

Lemma dispatch_keeps_pending rt s preview :
  audit_pendingLogs (snd (dispatch preview rt s)) = audit_pendingLogs s.
Proof.
  unfold dispatch.
  destruct preview as [action type description parameters approval impact].
  simpl. destruct type.
  - unfold PluginExecutor.executePlugin, noteCall, dateNow, callValidate,
      callCapability, consoleWrite, bind, gets, modify, tryCatch, ret.
    simpl.
    destruct (plugin_plugins s !! action) as [plugin |]; simpl; [| reflexivity].
    destruct (Plugin.validate plugin) as [validate |]; simpl;
      [destruct (validate parameters) as [[] | e]; simpl |];
      try (destruct (Plugin.execute plugin parameters (world s)) as [[v | e] w'];
           simpl; try (destruct (100 <? _)%nat; simpl));
      reflexivity.
  - unfold CommitRouter.executeAction, noteCall, dateNow, callValidate,
      callCapability, consoleWrite, bind, gets, modify, tryCatch, ret.
    simpl.
    destruct (commit_actions s !! action) as [entry |]; simpl; [| reflexivity].
    destruct (CommitAction.validate entry) as [validate |]; simpl;
      [destruct (validate parameters) as [[] | e]; simpl |];
      try (destruct (CommitAction.execute entry parameters (world s))
             as [[v | e] w'];
           simpl; try (destruct (100 <? _)%nat; simpl));
      reflexivity.
  - unfold ZhupiAdapter.executeAction, noteCall, dateNow, callValidate,
      callCapability, consoleWrite, bind, gets, modify, tryCatch, ret.
    simpl.
    destruct (zhupi_actions s !! action) as [entry |]; simpl; [| reflexivity].
    destruct (ZhupiAction.validate entry) as [validate |]; simpl;
      [destruct (validate parameters) as [[] | e]; simpl |];
      try (destruct (ZhupiAction.execute entry parameters (world s))
             as [[v | e] w'];
           simpl; try (destruct (100 <? _)%nat; simpl));
      reflexivity.
  - unfold executeInternalAction, noteCall, dateNow, asks, bind, gets, modify,
      throw, ret.
    simpl.
    destruct (String.eqb action "systemDiagnostic"); simpl;
      [| destruct (String.eqb action "healthCheck"); simpl]; reflexivity.
Qed.

Lemma sameTable_trans s1 s2 s3 :
  sameTable s1 s2 -> sameTable s2 s3 -> sameTable s1 s3.
Proof.
  unfold sameTable. intros (? & ? & ? & ?) (? & ? & ? & ?).
  repeat split; congruence.
Qed.

Lemma sameTable_capabilities s s' :
  sameTable s s' -> capabilitiesKeepAuditTable s -> capabilitiesKeepAuditTable s'.
Proof.
  unfold sameTable, capabilitiesKeepAuditTable.
  intros (-> & -> & -> & _). tauto.
Qed.

(** A permission check keeps the registries and the audit table; so does
    a dispatch when no registered capability writes to the table, and so
    does [logAction] for a record that is not flushed at once. *)
Lemma isAuthorized_keeps_table rt s action user :
  sameTable s (snd (PermissionGate.isAuthorized action user rt s)).
Proof.
  unfold PermissionGate.isAuthorized, PermissionGate.logPermission, dateNow,
    consoleWrite, bind, gets, modify, ret, sameTable.
  simpl.
  destruct (gate_permissions s !! user) as [userPermissions |]; simpl;
    destruct (1000 <? _)%nat; repeat split.
Qed.

Lemma dispatch_keeps_table rt s preview :
  capabilitiesKeepAuditTable s -> sameTable s (snd (dispatch preview rt s)).
Proof.
  intros (Hplugins & Hcommit & Hzhupi).
  unfold dispatch, sameTable.
  destruct preview as [action type description parameters approval impact].
  simpl. destruct type.
  - unfold PluginExecutor.executePlugin, noteCall, dateNow, callValidate,
      callCapability, consoleWrite, bind, gets, modify, tryCatch, ret.
    simpl.
    destruct (plugin_plugins s !! action) as [plugin |] eqn:Hfound; simpl;
      [| repeat split].
    pose proof (Hplugins action plugin Hfound parameters (world s)) as Hkeep.
    destruct (Plugin.validate plugin) as [validate |]; simpl;
      [destruct (validate parameters) as [[] | e]; simpl |];
      try (destruct (Plugin.execute plugin parameters (world s)) as [[v | e] w'];
           simpl in Hkeep |- *; try (destruct (100 <? _)%nat; simpl));
      repeat split; exact Hkeep.
  - unfold CommitRouter.executeAction, noteCall, dateNow, callValidate,
      callCapability, consoleWrite, bind, gets, modify, tryCatch, ret.
    simpl.
    destruct (commit_actions s !! action) as [entry |] eqn:Hfound; simpl;
      [| repeat split].
    pose proof (Hcommit action entry Hfound parameters (world s)) as Hkeep.
    destruct (CommitAction.validate entry) as [validate |]; simpl;
      [destruct (validate parameters) as [[] | e]; simpl |];
      try (destruct (CommitAction.execute entry parameters (world s))
             as [[v | e] w'];
           simpl in Hkeep |- *; try (destruct (100 <? _)%nat; simpl));
      repeat split; exact Hkeep.
  - unfold ZhupiAdapter.executeAction, noteCall, dateNow, callValidate,
      callCapability, consoleWrite, bind, gets, modify, tryCatch, ret.
    simpl.
    destruct (zhupi_actions s !! action) as [entry |] eqn:Hfound; simpl;
      [| repeat split].
    pose proof (Hzhupi action entry Hfound parameters (world s)) as Hkeep.
    destruct (ZhupiAction.validate entry) as [validate |]; simpl;
      [destruct (validate parameters) as [[] | e]; simpl |];
      try (destruct (ZhupiAction.execute entry parameters (world s))
             as [[v | e] w'];
           simpl in Hkeep |- *; try (destruct (100 <? _)%nat; simpl));
      repeat split; exact Hkeep.
  - unfold executeInternalAction, noteCall, dateNow, asks, bind, gets, modify,
      throw, ret.
    simpl.
    destruct (String.eqb action "systemDiagnostic"); simpl;
      [| destruct (String.eqb action "healthCheck"); simpl]; repeat split.
Qed.

Lemma logAction_routine_keeps_table rt s actor action result options :
  AuditLogger.isSevere (recordLevel options action result) = false ->
  sameTable s (snd (AuditLogger.logAction actor action result options rt s)).
Proof.
  unfold recordLevel, AuditLogger.logAction, AuditLogger.logToConsole,
    AuditLogger.flushLogs, AuditLogger.createMany, mathRandom36, dateNow,
    consoleWrite, asks, bind, gets, modify, tryCatch, ret, sameTable.
  simpl. intros Hroutine.
  destruct (AuditLogger.isSevere _); [discriminate |].
  simpl. repeat split.
Qed.

Local Opaque PermissionGate.isAuthorized dispatch AuditLogger.logAction createPreview.

(** A record for an outcome that succeeded is never of level [error] or
    [critical]. *)
Lemma succeeded_record_is_routine action executionId d :
  AuditLogger.isSevere
    (recordLevel AuditLogger.noOptions action (ExecutionSucceeded executionId d))
  = false.
Proof.
  unfold recordLevel, AuditLogger.inferLevel. simpl.
  destruct (JsString.startsWith action "security_"); [reflexivity |].
  destruct (_ || _); reflexivity.
Qed.

(** One turn of the loop for a preview of a type other than [internal]. *)
Lemma executePreview_exact rt s results request approvedActions executionId preview :
  ExecutionPreview.type preview <> ActionType.internal ->
  let action := ExecutionPreview.action preview in
  let user := ExecutionRequest.user request in
  exists s' added,
    executePreview request approvedActions executionId preview rt (s, results)
      = (Return tt, (s', results ++ added)) /\
    gate_permissions s' = gate_permissions s /\
    calls s'
      = calls s ++ map callOf (dispatchedPreviews s user approvedActions [preview]) /\
    Forall2 (resultFor s user executionId)
      (approvedPreviews approvedActions [preview]) added /\
    exists records,
      audit_pendingLogs s' = audit_pendingLogs s ++ records /\
      Forall2 (recordFor user executionId)
        (dispatchedPreviews s user approvedActions [preview]) records /\
      (capabilitiesKeepAuditTable s -> sameTable s s').
Proof.
  intros Htype action user. subst action user.
  unfold executePreview, dispatchedPreviews, approvedPreviews, resultFor. simpl.
  destruct (includes approvedActions (ExecutionPreview.action preview)); simpl;
    [| exists s, []; rewrite !app_nil_r; repeat split;
       [constructor
       | exists []; rewrite app_nil_r;
         split; [reflexivity | split; [constructor | intros _; repeat split]]]].
  destruct (isAuthorized_run rt s (ExecutionPreview.action preview)
              (ExecutionRequest.user request)) as (s1 & Hgate & Hperm1 & Hcalls1).
  pose proof (isAuthorized_keeps_pending rt s (ExecutionPreview.action preview)
                (ExecutionRequest.user request)) as Hpending1.
  rewrite Hgate in Hpending1. simpl in Hpending1.
  pose proof (isAuthorized_keeps_table rt s (ExecutionPreview.action preview)
                (ExecutionRequest.user request)) as Htable1.
  rewrite Hgate in Htable1. simpl in Htable1.
  unfold bind at 1. unfold call at 1. simpl. rewrite Hgate. simpl.
  destruct (permits s (ExecutionPreview.action preview)
              (ExecutionRequest.user request)) eqn:Hpermits; simpl.
  - destruct (dispatch_returns rt s1 preview Htype)
      as (d & s2 & Hdispatch & Hanswer & Hperm2 & Hcalls2).
    pose proof (dispatch_keeps_pending rt s1 preview) as Hpending2.
    rewrite Hdispatch in Hpending2. simpl in Hpending2.
    pose proof (dispatch_keeps_table rt s1 preview) as Htable2.
    rewrite Hdispatch in Htable2. simpl in Htable2.
    unfold tryCatch, bind, call, setLocal, modify, dateNow, gets, ret. simpl.
    rewrite Hdispatch. simpl.
    pose proof (logAction_routine_keeps_table rt s2 (ExecutionRequest.user request)
                  (ExecutionPreview.action preview)
                  (ExecutionSucceeded executionId d) AuditLogger.noOptions
                  (succeeded_record_is_routine _ _ _)) as Htable3.
    destruct (logAction_writes rt s2 (ExecutionRequest.user request)
                (ExecutionPreview.action preview)
                (ExecutionSucceeded executionId d) AuditLogger.noOptions)
      as (s3 & Hlog & _ & Hperm3 & _ & Hcalls3 & _ & Hroutine & _).
    rewrite Hlog in Htable3. simpl in Htable3.
    rewrite Hlog. simpl.
    destruct (Hroutine (succeeded_record_is_routine _ _ _)) as [_ Hpending3].
    eexists. eexists. split; [reflexivity |].
    split; [congruence |].
    split; [rewrite Hcalls3, Hcalls2, Hcalls1; reflexivity |].
    split.
    + constructor; [| constructor]. rewrite Hpermits. eauto.
    + eexists. split; [rewrite Hpending3, Hpending2, Hpending1; reflexivity |].
      split.
      * constructor; [| constructor].
        unfold recordFor, recordOf. simpl. repeat split.
        exists d. repeat split. exact Hanswer.
      * intros Hkeep.
        pose proof (sameTable_capabilities s s1 Htable1 Hkeep) as Hkeep1.
        eapply sameTable_trans; [exact Htable1 |].
        eapply sameTable_trans; [exact (Htable2 Hkeep1) | exact Htable3].
  - unfold bind, call, setLocal, modify, dateNow, gets, ret. simpl.
    eexists. eexists. split; [reflexivity |].
    split; [congruence |].
    split; [rewrite Hcalls1, app_nil_r; reflexivity |].
    split.
    + constructor; [| constructor]. rewrite Hpermits. eauto.
    + exists []. rewrite app_nil_r.
      split; [exact Hpending1 | split; [constructor | intros _; exact Htable1]].
Qed.

Lemma resultFor_same_permissions s s' user executionId p r :
  gate_permissions s' = gate_permissions s ->
  resultFor s' user executionId p r -> resultFor s user executionId p r.
Proof.
  intros Hsame. unfold resultFor.
  by rewrite (permits_same_permissions s s' _ _ Hsame).
Qed.

Lemma dispatchedPreviews_same_permissions s s' user approvedActions previews :
  gate_permissions s' = gate_permissions s ->
  dispatchedPreviews s' user approvedActions previews
  = dispatchedPreviews s user approvedActions previews.
Proof.
  intros Hsame. unfold dispatchedPreviews. apply filter_ext. intros p.
  by apply permits_same_permissions.
Qed.

Lemma approvedPreviews_cons approvedActions preview rest :
  approvedPreviews approvedActions (preview :: rest)
  = approvedPreviews approvedActions [preview]
    ++ approvedPreviews approvedActions rest.
Proof.
  unfold approvedPreviews.
  change (preview :: rest) with ([preview] ++ rest). apply List.filter_app.
Qed.

Lemma dispatchedPreviews_cons s user approvedActions preview rest :
  dispatchedPreviews s user approvedActions (preview :: rest)
  = dispatchedPreviews s user approvedActions [preview]
    ++ dispatchedPreviews s user approvedActions rest.
Proof.
  unfold dispatchedPreviews. rewrite approvedPreviews_cons. apply List.filter_app.
Qed.

(** The loop over previews none of which is of type [internal]. *)
Lemma forEach_exact rt request approvedActions executionId previews :
  (forall p, In p previews -> ExecutionPreview.type p <> ActionType.internal) ->
  forall s results,
  exists s' added,
    forEach previews (executePreview request approvedActions executionId) rt
      (s, results) = (Return tt, (s', results ++ added)) /\
    gate_permissions s' = gate_permissions s /\
    calls s'
      = calls s ++
        map callOf
          (dispatchedPreviews s (ExecutionRequest.user request) approvedActions
             previews) /\
    Forall2 (resultFor s (ExecutionRequest.user request) executionId)
      (approvedPreviews approvedActions previews) added /\
    exists records,
      audit_pendingLogs s' = audit_pendingLogs s ++ records /\
      Forall2 (recordFor (ExecutionRequest.user request) executionId)
        (dispatchedPreviews s (ExecutionRequest.user request) approvedActions
           previews) records /\
      (capabilitiesKeepAuditTable s -> sameTable s s').
Proof.
  induction previews as [| preview rest IH]; intros Htypes s results.
  - exists s, []. simpl. rewrite !app_nil_r. repeat split; [constructor |].
    exists []. rewrite app_nil_r.
    split; [reflexivity | split; [constructor | intros _; repeat split]].
  - destruct (executePreview_exact rt s results request approvedActions executionId
                preview (Htypes preview (or_introl eq_refl)))
      as (s1 & added1 & Hturn & Hperm1 & Hcalls1 & Hresults1
          & records1 & Hpending1 & Hrecords1 & Htable1).
    destruct (IH (fun p Hp => Htypes p (or_intror Hp)) s1 (results ++ added1))
      as (s2 & added2 & Hloop & Hperm2 & Hcalls2 & Hresults2
          & records2 & Hpending2 & Hrecords2 & Htable2).
    exists s2, (added1 ++ added2).
    cbn [forEach]. unfold bind at 1. rewrite Hturn. rewrite Hloop, <- app_assoc.
    split; [reflexivity |]. split; [congruence |].
    assert (Hsame : forall a,
              permits s1 a (ExecutionRequest.user request)
              = permits s a (ExecutionRequest.user request))
      by (intros a; by apply permits_same_permissions).
    split.
    + rewrite Hcalls2, Hcalls1, <- app_assoc, <- map_app.
      rewrite (dispatchedPreviews_same_permissions s s1 _ _ rest Hperm1).
      by rewrite <- dispatchedPreviews_cons.
    + split.
      * rewrite approvedPreviews_cons.
        apply Forall2_app; [exact Hresults1 |].
        eapply Forall2_impl; [exact Hresults2 |].
        intros p r. by apply resultFor_same_permissions.
      * exists (records1 ++ records2).
        split; [rewrite Hpending2, Hpending1, <- app_assoc; reflexivity |].
        split.
        -- rewrite dispatchedPreviews_cons.
           apply Forall2_app; [exact Hrecords1 |].
           by rewrite <- (dispatchedPreviews_same_permissions s s1 _ _ rest Hperm1).
        -- intros Hkeep.
           eapply sameTable_trans; [exact (Htable1 Hkeep) |].
           apply Htable2. exact (sameTable_capabilities s s1 (Htable1 Hkeep) Hkeep).
Qed.

(** [execute] when the prompt builder returns: the state [s0] in which the
    loop starts has the permission map and the call trace of [s]. *)
Lemma execute_exact rt s request approvedActions text :
  buildPrompt rt (ExecutionRequest.input request) (ExecutionRequest.context request)
    = Return text ->
  let user := ExecutionRequest.user request in
  let previews := analyze (ExecutionRequest.input request) in
  exists results s' executionId,
    execute request approvedActions rt s = (Return results, s') /\
    calls s' = calls s ++ map callOf (dispatchedPreviews s user approvedActions previews) /\
    Forall2 (resultFor s user executionId)
      (approvedPreviews approvedActions previews) results /\
    exists start records,
      audit_pendingLogs s' = audit_pendingLogs s ++ start :: records /\
      AuditLog.actor start = user /\
      AuditLog.action start = ExecutionRequest.input request /\
      AuditLog.result start = ExecutionStart executionId approvedActions /\
      Forall2 (recordFor user executionId)
        (dispatchedPreviews s user approvedActions previews) records /\
      (capabilitiesKeepAuditTable s -> sameTable s s').
Proof.
  intros Hbuilt user previews. subst user previews.
  unfold execute, withLocal, tryCatch, bind, call, getLocal, dateNow, mathRandom36,
    gets.
  simpl.
  match goal with
  | |- context [AuditLogger.logAction ?a ?b ?c ?d rt ?st] =>
      destruct (logAction_writes rt st a b c d)
        as (s0 & Hlog & _ & Hperm0 & _ & Hcalls0 & _ & Hroutine & _);
      assert (Hstart : AuditLogger.isSevere (recordLevel d b c) = false);
      [| destruct (Hroutine Hstart) as [_ Hpending0];
         pose proof (logAction_routine_keeps_table rt st a b c d Hstart) as Htable0;
         set (start := recordOf rt st a b c d) in * ]
  end.
  { unfold recordLevel, AuditLogger.inferLevel. simpl.
    destruct (JsString.startsWith _ "security_"); [reflexivity |].
    destruct (_ || _); reflexivity. }
  rewrite Hlog in Htable0. simpl in Htable0.
  rewrite Hlog. simpl.
  rewrite (createPreview_built rt s0 request text Hbuilt). simpl.
  match goal with
  | |- context [forEach _ (executePreview _ _ ?e) rt _] =>
      destruct (forEach_exact rt request approvedActions e
                  (analyze (ExecutionRequest.input request))
                  (analyze_types (ExecutionRequest.input request)) s0 [])
        as (s' & added & Hloop & Hperm & Hcalls & Hresults
            & records & Hpending & Hrecords & Htable);
      exists added, s', e
  end.
  rewrite Hloop. simpl. simpl in Hperm0, Hcalls0, Hpending0.
  split; [reflexivity |].
  split.
  - rewrite Hcalls, Hcalls0.
    by rewrite (dispatchedPreviews_same_permissions s s0 _ _ _ Hperm0).
  - split.
    + eapply Forall2_impl; [exact Hresults |].
      intros p r. by apply resultFor_same_permissions.
    + exists start, records.
      split; [rewrite Hpending, Hpending0, <- app_assoc; reflexivity |].
      split; [reflexivity |]. split; [reflexivity |]. split; [reflexivity |].
      split.
      * by rewrite <- (dispatchedPreviews_same_permissions s s0 _ _ _ Hperm0).
      * intros Hkeep.
        assert (Htable0' : sameTable s s0) by exact Htable0.
        eapply sameTable_trans; [exact Htable0' |].
        apply Htable. exact (sameTable_capabilities s s0 Htable0' Hkeep).
Qed.

(** A loop over previews none of which is approved changes nothing. *)
Lemma forEach_skips rt request approvedActions executionId previews s results :
  (forall p, In p previews ->
     includes approvedActions (ExecutionPreview.action p) = false) ->
  forEach previews (executePreview request approvedActions executionId) rt (s, results)
  = (Return tt, (s, results)).
Proof.
  induction previews as [| preview rest IH]; intros Hnone; [reflexivity |].
  cbn [forEach]. unfold bind at 1. unfold executePreview at 1.
  rewrite (Hnone preview (or_introl eq_refl)). simpl.
  apply IH. intros p Hp. apply Hnone. by right.
Qed.

Local Transparent createPreview.

Lemma createPreview_response rt s request preview s' :
  createPreview request rt s = (Return preview, s') ->
  s' = s /\
  previews preview = analyze (ExecutionRequest.input request) /\
  requiresApproval preview
    = existsb ExecutionPreview.requiresApproval (previews preview).
Proof.
  unfold createPreview, tryCatch, bind, ret, throw.
  destruct (buildPrompt rt _ _); simpl; intros H; inversion H; subst; done.
Qed.

Lemma createPreview_throws rt s request e :
  buildPrompt rt (ExecutionRequest.input request) (ExecutionRequest.context request)
    = Throw e ->
  exists s',
    createPreview request rt s = (Throw e, s') /\
    gate_auditLog s' = gate_auditLog s /\
    calls s' = calls s /\
    auditTrail s' = auditTrail s.
Proof.
  intros Hthrown. unfold createPreview, tryCatch, bind, ret, throw, consoleWrite, modify.
  rewrite Hthrown. simpl. eexists. repeat split.
Qed.

Local Opaque createPreview.

(** X22.  The flag [requiresApproval] that [createPreview] writes in a
    preview is the answer of [PermissionGate.requiresApproval] for the
    action of the preview, and the flag of the whole response says
    whether the gate requires approval for one of the previewed actions.
    [createPreview] leaves the state as it is. *)
Theorem preview_flags_agree_with_gate rt s request preview s' :
  createPreview request rt s = (Return preview, s') ->
  s' = s /\
  (forall p, In p (previews preview) ->
     ExecutionPreview.requiresApproval p
     = PermissionGate.requiresApproval (ExecutionPreview.action p)) /\
  requiresApproval preview
    = existsb PermissionGate.requiresApproval
        (map ExecutionPreview.action (previews preview)).
Proof.
  intros Hrun.
  destruct (createPreview_response rt s request preview s' Hrun)
    as (Hstate & Hpreviews & Hflag).
  assert (Hagree : forall p, In p (previews preview) ->
            ExecutionPreview.requiresApproval p
            = PermissionGate.requiresApproval (ExecutionPreview.action p)).
  { intros p Hin. rewrite Hpreviews in Hin. apply analyze_kinds in Hin.
    simpl in Hin.
    repeat (destruct Hin as [Hkind | Hin];
            [inversion Hkind as [[Hname Hflagp]]; reflexivity |]).
    destruct Hin. }
  split; [exact Hstate |]. split; [exact Hagree |].
  rewrite Hflag. clear Hflag Hpreviews Hrun.
  induction (previews preview) as [| p rest IH]; [reflexivity |].
  simpl. rewrite (Hagree p (or_introl eq_refl)). f_equal.
  apply IH. intros q Hq. apply Hagree. by right.
Qed.

Lemma preview_flags_agree_with_gate_witness :
  let request :=
    ExecutionRequest.mk "update memory and get persona" "guest" "s1" JUndefined in
  exists preview,
    createPreview request Installation.runtime Installation.boot
      = (Return preview, Installation.boot) /\
    map ExecutionPreview.action (previews preview) = [ "getPersona"; "updateMemory" ] /\
    requiresApproval preview = true /\
    forall p, In p (previews preview) ->
      ExecutionPreview.requiresApproval p
      = PermissionGate.requiresApproval (ExecutionPreview.action p).
Proof.
  intros request.
  pose proof (createPreview_built Installation.runtime Installation.boot request
                "update memory and get persona" eq_refl) as Hrun.
  eexists. split; [exact Hrun |].
  split; [vm_compute; reflexivity |]. split; [vm_compute; reflexivity |].
  exact (proj1 (proj2 (preview_flags_agree_with_gate Installation.runtime
                         Installation.boot request _ Installation.boot Hrun))).
Defined.

(** X23.  Every result of [execute] is for a name of [approvedActions],
    and there are no more results than approved names, nor more than the
    seven actions [createPreview] can propose. *)
Theorem results_are_approved rt s request approvedActions text :
  buildPrompt rt (ExecutionRequest.input request) (ExecutionRequest.context request)
    = Return text ->
  exists results s',
    execute request approvedActions rt s = (Return results, s') /\
    (forall r, In r results -> In (ExecutionResult.action r) approvedActions) /\
    (length results <= length approvedActions)%nat /\
    (length results <= 7)%nat.
Proof.
  intros Hbuilt.
  destruct (execute_run rt s request approvedActions text Hbuilt)
    as (results & s' & s0 & executionId & new & Hrun & _ & _ & _ & _ & Hnames & _).
  exists results, s'. split; [exact Hrun |].
  pose proof (approved_preview_names_distinct approvedActions
                (ExecutionRequest.input request)) as Hdistinct.
  rewrite <- Hnames in Hdistinct. apply NoDup_ListNoDup in Hdistinct.
  assert (Hin : forall name, In name (map ExecutionResult.action results) ->
            In name approvedActions /\ In name (map fst previewKinds)).
  { intros name Hname. rewrite Hnames in Hname.
    apply filter_In in Hname as [Hpreviewed Happroved].
    split; [by apply includes_In |].
    apply list_elem_of_In.
    eapply elem_of_sublist; [| apply analyze_names_sublist].
    by apply list_elem_of_In. }
  split; [| split].
  - intros r Hr. apply Hin. by apply in_map.
  - rewrite <- (length_map ExecutionResult.action).
    apply NoDup_incl_length; [exact Hdistinct |].
    intros name Hname. by apply Hin.
  - rewrite <- (length_map ExecutionResult.action).
    change 7%nat with (length (map fst previewKinds)).
    apply NoDup_incl_length; [exact Hdistinct |].
    intros name Hname. by apply Hin.
Qed.

Lemma results_are_approved_witness :
  let request :=
    ExecutionRequest.mk "Clear cache, then restart agent" "Han" "s1" JUndefined in
  buildPrompt Installation.runtime (ExecutionRequest.input request)
    (ExecutionRequest.context request) = Return "Clear cache, then restart agent" /\
  exists results s',
    execute request [ "clearCache"; "clearCache"; "dropDatabase" ]
      Installation.runtime Installation.boot = (Return results, s') /\
    (length results <= 3)%nat.
Proof.
  intros request. split; [reflexivity |].
  destruct (results_are_approved Installation.runtime Installation.boot request
              [ "clearCache"; "clearCache"; "dropDatabase" ]
              "Clear cache, then restart agent" eq_refl)
    as (results & s' & Hrun & _ & Hlength & _).
  exists results, s'. split; [exact Hrun | exact Hlength].
Defined.

Lemma sublist_map {A B : Type} (f : A -> B) (l k : list A) :
  l `sublist_of` k -> map f l `sublist_of` map f k.
Proof. induction 1; simpl; by constructor. Qed.

(** X24.  During [execute] the executors are called for the previewed
    actions that are approved and that the gate authorizes, once each, in
    the order of the previews, with the parameters of the preview, and
    for nothing else; [executeInternalAction] is never called. *)
Theorem dispatch_is_exactly_once rt s request approvedActions text :
  buildPrompt rt (ExecutionRequest.input request) (ExecutionRequest.context request)
    = Return text ->
  let dispatched :=
    dispatchedPreviews s (ExecutionRequest.user request) approvedActions
      (analyze (ExecutionRequest.input request)) in
  exists results s',
    execute request approvedActions rt s = (Return results, s') /\
    calls s' = calls s ++ map callOf dispatched /\
    NoDup (map ExecutionPreview.action dispatched) /\
    forall p, In p dispatched -> ExecutionPreview.type p <> ActionType.internal.
Proof.
  intros Hbuilt dispatched.
  destruct (execute_exact rt s request approvedActions text Hbuilt)
    as (results & s' & executionId & Hrun & Hcalls & _).
  exists results, s'. split; [exact Hrun |]. split; [exact Hcalls |].
  assert (Hsub : dispatched `sublist_of` analyze (ExecutionRequest.input request)).
  { subst dispatched. unfold dispatchedPreviews, approvedPreviews.
    etransitivity; apply List_filter_sublist. }
  split.
  - eapply sublist_NoDup; [| apply sublist_map; exact Hsub].
    eapply sublist_NoDup; [| apply analyze_names_sublist].
    apply NoDup_ListNoDup. simpl.
    repeat (constructor; [simpl; intuition discriminate |]). constructor.
  - intros p Hp. apply (analyze_types (ExecutionRequest.input request)).
    apply list_elem_of_In. eapply elem_of_sublist; [| exact Hsub].
    by apply list_elem_of_In.
Qed.

Lemma dispatch_is_exactly_once_witness :
  let request :=
    ExecutionRequest.mk "Clear cache, then restart agent" "Han" "s1" JUndefined in
  buildPrompt Installation.runtime (ExecutionRequest.input request)
    (ExecutionRequest.context request) = Return "Clear cache, then restart agent" /\
  exists results s',
    execute request [ "clearCache"; "clearCache" ] Installation.runtime
      Installation.boot = (Return results, s') /\
    calls s' = [ Called ActionType.commit_api "clearCache" (JObj []) ].
Proof.
  intros request. split; [reflexivity |].
  destruct (dispatch_is_exactly_once Installation.runtime Installation.boot request
              [ "clearCache"; "clearCache" ] "Clear cache, then restart agent" eq_refl)
    as (results & s' & Hrun & Hcalls & _).
  exists results, s'. split; [exact Hrun |].
  rewrite Hcalls. vm_compute. reflexivity.
Defined.

(** X25.  When the prompt builder throws, [execute] throws the same
    value.  By then the record of the start of the execution has been
    written to the audit trail; no permission check was made and no
    executor was called. *)
Theorem prompt_failure_aborts_batch rt s request approvedActions e :
  buildPrompt rt (ExecutionRequest.input request) (ExecutionRequest.context request)
    = Throw e ->
  exists s' record executionId,
    execute request approvedActions rt s = (Throw e, s') /\
    auditTrail s' = auditTrail s ++ [record] /\
    AuditLog.actor record = ExecutionRequest.user request /\
    AuditLog.action record = ExecutionRequest.input request /\
    AuditLog.result record = ExecutionStart executionId approvedActions /\
    gate_auditLog s' = gate_auditLog s /\
    calls s' = calls s.
Proof.
  intros Hthrown.
  unfold execute, withLocal, tryCatch, bind, call, getLocal, dateNow, mathRandom36,
    gets, throw.
  simpl.
  match goal with
  | |- context [AuditLogger.logAction ?a ?b ?c ?d rt ?st] =>
      destruct (logAction_writes rt st a b c d)
        as (s0 & Hlog & Htrail & _ & Hgate0 & Hcalls0 & _);
      destruct (createPreview_throws rt s0 request e Hthrown)
        as (s1 & Hpreview & Hgate1 & Hcalls1 & Htrail1);
      exists (set_world
                (fun w =>
                   External.mk (External.now w) (External.randomDraws w)
                     (External.console w ++ [(ConsoleError, "❌ Execution failed:")])
                     (External.auditTable w) (External.auditTableWritable w)
                     (External.services w)) s1),
        (recordOf rt st a b c d)
  end.
  eexists.
  rewrite Hlog. simpl. rewrite Hpreview. simpl.
  split; [reflexivity |].
  split; [unfold auditTrail in *; simpl; rewrite Htrail1, Htrail; reflexivity |].
  simpl in Hgate0, Hcalls0. repeat split; simpl; congruence.
Qed.

Lemma prompt_failure_aborts_batch_witness :
  let failing :=
    {| random36 := random36 Installation.runtime;
       toISOString := toISOString Installation.runtime;
       buildPrompt := fun _ _ => Throw (ThrownError "persona unavailable") |} in
  let request := ExecutionRequest.mk "restart agent" "Han" "s1" JUndefined in
  buildPrompt failing (ExecutionRequest.input request)
    (ExecutionRequest.context request) = Throw (ThrownError "persona unavailable") /\
  exists s',
    execute request [ "restartAgent" ] failing Installation.boot
      = (Throw (ThrownError "persona unavailable"), s') /\
    calls s' = [].
Proof.
  intros failing request. split; [reflexivity |].
  destruct (prompt_failure_aborts_batch failing Installation.boot request
              [ "restartAgent" ] (ThrownError "persona unavailable") eq_refl)
    as (s' & record & executionId & Hrun & _ & _ & _ & _ & _ & Hcalls).
  exists s'. split; [exact Hrun | exact Hcalls].
Defined.

(** X26.  The [success] flag of a result of [execute] is the answer of
    the permission gate for its action, whatever the executor reported:
    a result is marked failed only when the gate rejected the action.
    All results of one call carry the same execution id. *)
Theorem result_success_is_the_gate_answer rt s request approvedActions text :
  buildPrompt rt (ExecutionRequest.input request) (ExecutionRequest.context request)
    = Return text ->
  exists results s' executionId,
    execute request approvedActions rt s = (Return results, s') /\
    forall r, In r results ->
      ExecutionResult.success r
        = permits s (ExecutionResult.action r) (ExecutionRequest.user request) /\
      ExecutionResult.executionId r = executionId.
Proof.
  intros Hbuilt.
  destruct (execute_exact rt s request approvedActions text Hbuilt)
    as (results & s' & executionId & Hrun & _ & Hresults & _).
  exists results, s', executionId. split; [exact Hrun |]. clear Hrun.
  induction Hresults as [| p r approved rest Hresult _ IH]; intros r' Hr';
    [destruct Hr' |].
  destruct Hr' as [<- | Hr']; [| by apply IH].
  unfold resultFor in Hresult.
  destruct (permits s (ExecutionPreview.action p) (ExecutionRequest.user request))
    eqn:Hpermits.
  - destruct Hresult as (d & t & -> & _). simpl. by rewrite Hpermits.
  - destruct Hresult as (t & ->). simpl. by rewrite Hpermits.
Qed.

Lemma result_success_is_the_gate_answer_witness :
  let request := ExecutionRequest.mk "Ringkas teks ini" "Han" "s1" JUndefined in
  buildPrompt Installation.runtime (ExecutionRequest.input request)
    (ExecutionRequest.context request) = Return "Ringkas teks ini" /\
  exists results s',
    execute request [ "pluginSummarizer" ] Installation.runtime Installation.boot
      = (Return results, s') /\
    forall r, In r results ->
      ExecutionResult.success r
        = permits Installation.boot (ExecutionResult.action r) "Han".
Proof.
  intros request. split; [reflexivity |].
  destruct (result_success_is_the_gate_answer Installation.runtime Installation.boot
              request [ "pluginSummarizer" ] "Ringkas teks ini" eq_refl)
    as (results & s' & executionId & Hrun & Hsuccess).
  exists results, s'. split; [exact Hrun |].
  intros r Hr. exact (proj1 (Hsuccess r Hr)).
Defined.





End Batches.
